(** * PyCelestialObjects / Dobby: celestial mechanics and alignment stars

    A shallow embedding of the numerical core of
    [PyCelestialObjects_V0-2.py] (the same function bodies are repeated in
    [Dobby_celestial_mechanics.py] and [Dobby_bright_stars.py]), of the
    catalogue load and the readers of its coordinate texts, of the printed
    list of stars, and of the prompts ([print_menu], [set_time_and_place]),
    with the lines typed as a list of strings. The float remainder behind
    [%] and [divmod] is a second interface ([PyRemainder]), read at the
    same two instances.

    Python's [float] is an interface here ([PyFloat]): the functions are
    written once against it and read at two instances,
    - [RealFloat]: floats idealised as real numbers (exact arithmetic), on
      which the geometric and ordering properties are proved;
    - [Binary64.binary64]: IEEE 754 binary64 with round-to-nearest, the
      arithmetic CPython really runs, on which rounding effects are
      evaluated.
    Exceptions are values of [result]: [x / 0.0] raises ZeroDivisionError,
    [math.asin], [math.acos] and [math.sqrt] raise ValueError outside their
    domain, a missing dict key raises KeyError. *)

From Stdlib Require Import Reals Lra Lia ZArith List Bool String Ascii.
From Stdlib Require Import Permutation Sorted.
From Stdlib Require PrimFloat Uint63 FloatOps SpecFloat.
Import ListNotations.

Set Implicit Arguments.

(** ** Exceptions *)

Inductive exn : Type :=
| ZeroDivisionError
| ValueError
| KeyError
| IndexError
| OverflowError.

Inductive result (A : Type) : Type :=
| Ok (a : A)
| Raise (e : exn).

Arguments Ok {A} a.
Arguments Raise {A} e.

Definition bind {A B : Type} (c : result A) (k : A -> result B) : result B :=
  match c with
  | Ok a => k a
  | Raise e => Raise e
  end.

Notation "x <- c ;; k" := (bind c (fun x => k))
  (at level 61, c at next level, right associativity).

(** ** Python floats as an interface *)

Class PyFloat (F : Type) : Type := {
  of_int : Z -> F;
  fadd : F -> F -> F;
  fsub : F -> F -> F;
  fmul : F -> F -> F;
  fdiv : F -> F -> F;
  feqb : F -> F -> bool;
  fltb : F -> F -> bool;
  fleb : F -> F -> bool;
  fsqrt : F -> F;
  fsin : F -> F;
  fcos : F -> F;
  fasin : F -> F;
  facos : F -> F;
  fpi : F
}.

Declare Scope py_scope.
Delimit Scope py_scope with py.
Infix "+" := fadd : py_scope.
Infix "-" := fsub : py_scope.
Infix "*" := fmul : py_scope.
Infix "/" := fdiv : py_scope.
Infix "==" := feqb (at level 70, no associativity) : py_scope.
Infix "<?" := fltb : py_scope.
Infix "<=?" := fleb : py_scope.

Section Model.

Context {F : Type} {PF : PyFloat F}.
Local Open Scope py_scope.

(** A decimal literal [m * 10^-k], such as [0.5] or [731.5]: the correctly
    rounded quotient of two exactly represented integers is the correctly
    rounded literal. *)
Definition decimal (m : Z) (k : nat) : F := of_int m / of_int (10 ^ Z.of_nat k).

(** [x / y] on floats: raises on a zero divisor. Divisions by a non-zero
    literal ([60], [180], [math.pi], ...) cannot raise and use [fdiv]. *)
Definition truediv (x y : F) : result F :=
  if y == of_int 0 then Raise ZeroDivisionError else Ok (x / y).

Definition out_of_domain (x : F) : bool :=
  (x <? of_int (-1)) || (of_int 1 <? x).

Definition math_asin (x : F) : result F :=
  if out_of_domain x then Raise ValueError else Ok (fasin x).

Definition math_acos (x : F) : result F :=
  if out_of_domain x then Raise ValueError else Ok (facos x).

Definition math_sqrt (x : F) : result F :=
  if x <? of_int 0 then Raise ValueError else Ok (fsqrt x).

(** [math.radians(x)] is [x * (pi / 180)] in CPython. *)
Definition math_radians (x : F) : F := x * (fpi / of_int 180).

(** ** Records *)

Record Star : Type := {
  Rank : Z;
  Name : string;
  Beyer : string;
  Mag_v : F;
  RA : F;
  DEC : F;
  Alt : F;
  Az : F
}.

(** ** Helper functions *)

Definition HMS_to_decimal_time (hours minutes seconds : Z) : F :=
  of_int hours + of_int minutes / of_int 60 + of_int seconds / of_int 3600.

Definition rad2deg (angle : F) : F := of_int 180 * angle / fpi.

Definition deg2rad (angle : F) : F := fpi * angle / of_int 180.

Definition vec : Type := (F * F * F)%type.

Definition components (v : vec) : list F :=
  let '(x, y, z) := v in [x; y; z].

Definition cartesian (star : Star) : vec :=
  let Alt := math_radians (Alt star) in
  let Az := math_radians (Az star) in
  let x := fcos Alt * fcos Az in
  let y := fcos Alt * fsin Az in
  let z := fsin Alt in
  (x, y, z).

Definition vector_product (v1 v2 : vec) : vec :=
  let '(v1_0, v1_1, v1_2) := v1 in
  let '(v2_0, v2_1, v2_2) := v2 in
  let r0 := v1_1 * v2_2 - v1_2 * v2_1 in
  let r1 := v1_2 * v2_0 - v1_0 * v2_2 in
  let r2 := v1_0 * v2_1 - v1_1 * v2_0 in
  (r0, r1, r2).

(** [component**2] is the product of the component with itself. The
    OverflowError of [**] needs a component above [1.3e154]; the vectors
    handed over by [area] have components of at most 8. *)
Definition vector_norm (v : vec) : result F :=
  let sum_sq :=
    fold_left (fun sum_sq component => sum_sq + component * component)
              (components v) (of_int 0) in
  math_sqrt sum_sq.

(** The third component of [edge2] subtracts [v2]'s, as the source does. *)
Definition area (s1 s2 s3 : Star) : result F :=
  let '(v1_0, v1_1, v1_2) := cartesian s1 in
  let '(v2_0, v2_1, v2_2) := cartesian s2 in
  let '(v3_0, v3_1, v3_2) := cartesian s3 in
  let edge1 := (v1_0 - v2_0, v1_1 - v2_1, v1_2 - v2_2) in
  let edge2 := (v1_0 - v3_0, v1_1 - v3_1, v1_2 - v2_2) in
  n <- vector_norm (vector_product edge1 edge2) ;;
  Ok (decimal 5 1 * n).

(** The value handed to [math.acos] by [angle]. *)
Definition cos_angle (s1 s2 : Star) : F :=
  let alt1 := math_radians (Alt s1) in
  let az1 := math_radians (Az s1) in
  let alt2 := math_radians (Alt s2) in
  let az2 := math_radians (Az s2) in
  fcos alt1 * fcos alt2 * fcos (az1 - az2) + fsin alt1 * fsin alt2.

Definition angle (s1 s2 : Star) : result F :=
  math_acos (cos_angle s1 s2).

(** ** Time calculations *)

Definition days_from_J2000_until_year (year : Z) : F :=
  of_int ((year - 1998) * 365 + (year - 1998 + 1) / 4)%Z - decimal 7315 1.

Definition DAYS_TIL_MONTH : list (Z * Z) :=
  [(1, 0); (2, 31); (3, 59); (4, 90); (5, 120); (6, 151);
   (7, 181); (8, 212); (9, 243); (10, 273); (11, 304); (12, 334)]%Z.

Fixpoint dict_get {V : Type} (d : list (Z * V)) (key : Z) : result V :=
  match d with
  | [] => Raise KeyError
  | (k, v) :: rest => if Z.eqb k key then Ok v else dict_get rest key
  end.

Definition days_until_month_begins (year month : Z) : result Z :=
  if ((year mod 4 =? 0) && (month >? 2))%Z
  then d <- dict_get DAYS_TIL_MONTH month ;; Ok (d + 1)%Z
  else dict_get DAYS_TIL_MONTH month.

Definition days_from_J2000 (year month day hours minutes seconds : Z)
  : result F :=
  let days1 := days_from_J2000_until_year year in
  m <- days_until_month_begins year month ;;
  let days2 := (m + day)%Z in
  let days3 := HMS_to_decimal_time hours minutes seconds / decimal 240 1 in
  Ok (days1 + of_int days2 + days3).

(** ** Coordinate transform *)

(** The value handed to [math.asin] by [RA_DEC_to_ALT_AZ]. *)
Definition sin_alt (decD haD latD : F) : F :=
  let dec := deg2rad decD in
  let ha := deg2rad haD in
  let lat := deg2rad latD in
  (fsin dec * fsin lat) + (fcos dec * fcos lat * fcos ha).

Definition RA_DEC_to_ALT_AZ (raD decD haD latD : F) : result (F * F) :=
  let dec := deg2rad decD in
  let ha := deg2rad haD in
  let lat := deg2rad latD in
  alt <- math_asin (sin_alt decD haD latD) ;;
  cos_a <- truediv (fsin dec - fsin alt * fsin lat) (fcos alt * fcos lat) ;;
  a <- math_acos cos_a ;;
  let alt := rad2deg alt in
  let az := if fsin ha <? of_int 0 then rad2deg a
            else of_int 360 - rad2deg a in
  Ok (alt, az).

End Model.

Arguments Star F : clear implicits.
Arguments vec F : clear implicits.

(** A star at a given altitude and azimuth (degrees); the catalogue fields
    play no part in the geometry. *)
Definition star_at {F : Type} {PF : PyFloat F} (alt az : F) : Star F :=
  {| Rank := 0; Name := EmptyString; Beyer := EmptyString; Mag_v := of_int 0;
     RA := of_int 0; DEC := of_int 0; Alt := alt; Az := az |}.

(** ** Sidereal time, hour angle and clock time

    CPython's float [%] and [divmod] are C's [fmod] with two adjustments
    (floatobject.c). [fmod] (the exact remainder, of the sign of the
    dividend), [floor], [copysign] and [int()] on a float are an interface
    of their own. *)

Class PyRemainder (F : Type) : Type := {
  c_fmod : F -> F -> F;
  c_floor : F -> F;
  c_copysign : F -> F -> F;
  int_of_float : F -> result Z
}.

Section SiderealModel.

Context {F : Type} {PF : PyFloat F} {PR : PyRemainder F}.
Local Open Scope py_scope.

(** [x % y] for a non-zero [y] (the code divides by the literals [360.0]
    and [360] only, so the ZeroDivisionError of a zero divisor is out of
    reach): the remainder of [fmod], moved to the sign of [y] by adding
    [y]. The sum is rounded like every other sum. *)
Definition float_mod (x y : F) : F :=
  let remainder := c_fmod x y in
  if negb (remainder == of_int 0)
  then if xorb (y <? of_int 0) (remainder <? of_int 0) then remainder + y
       else remainder
  else c_copysign (of_int 0) y.

(** [divmod(x, y)] for a non-zero [y] (the code divides by [1] only). *)
Definition float_divmod (x y : F) : F * F :=
  let remainder := c_fmod x y in
  let div := (x - remainder) / y in
  let '(remainder, div) :=
    if negb (remainder == of_int 0)
    then if xorb (y <? of_int 0) (remainder <? of_int 0)
         then (remainder + y, div - of_int 1)
         else (remainder, div)
    else (c_copysign (of_int 0) y, div) in
  let floordiv :=
    if negb (div == of_int 0)
    then let floordiv := c_floor div in
         if decimal 5 1 <? div - floordiv then floordiv + of_int 1
         else floordiv
    else c_copysign (of_int 0) (x / y) in
  (floordiv, remainder).

Definition deg2time (deg : F) : result (Z * Z * Z) :=
  let rel_day := deg / of_int 360 in
  let '(hours, frac_hours) :=
    float_divmod (rel_day * of_int 24) (of_int 1) in
  let '(minutes, frac_minutes) :=
    float_divmod (frac_hours * of_int 60) (of_int 1) in
  let seconds := frac_minutes * of_int 60 in
  h <- int_of_float hours ;;
  m <- int_of_float minutes ;;
  s <- int_of_float seconds ;;
  Ok (h, m, s).

Definition local_siderial_time (days_from_J2000 longitude time : F) : F :=
  let LST := decimal 10046 2 + decimal 985647 6 * days_from_J2000
             + longitude + of_int 15 * time in
  float_mod LST (of_int 360).

Definition hour_angle (RA LST : F) : F := float_mod (LST - RA) (of_int 360).

End SiderealModel.

(** ** Built-ins: [sorted], [itertools.combinations], dicts and indexing *)

Section Sorting.

Variables (A K : Type) (ltb : K -> K -> bool) (key : A -> K).

(** [x] goes in front of the first element whose key is not smaller than
    its own: elements with the same key keep the order of arrival. *)
Fixpoint insert_by_key (x : A) (l : list A) : list A :=
  match l with
  | [] => [x]
  | y :: ys => if ltb (key y) (key x) then y :: insert_by_key x ys
               else x :: y :: ys
  end.

Fixpoint sort_by_key (l : list A) : list A :=
  match l with
  | [] => []
  | x :: xs => insert_by_key x (sort_by_key xs)
  end.

(** [sorted(l, key=key, reverse=reverse)]: a stable sort that compares keys
    with [<] only; with [reverse] the list is reversed, sorted and reversed
    again, as [list.sort] does, so that equal keys keep their order. *)
Definition sorted (reverse : bool) (l : list A) : list A :=
  if reverse then rev (sort_by_key (rev l)) else sort_by_key l.

End Sorting.

(** [itertools.combinations(pool, r)]: the [r]-element subsequences of
    [pool], in lexicographic order of positions. *)
Fixpoint combinations {A : Type} (pool : list A) (r : nat) {struct pool}
  : list (list A) :=
  match r, pool with
  | O, _ => [[]]
  | S _, [] => []
  | S r', x :: rest =>
      map (cons x) (combinations rest r') ++ combinations rest r
  end.

Definition getitem {A : Type} (l : list A) (i : nat) : result A :=
  match nth_error l i with
  | Some a => Ok a
  | None => Raise IndexError
  end.

Definition index3 : Type := (nat * nat * nat)%type.

Definition index3_eqb (a b : index3) : bool :=
  let '(a0, a1, a2) := a in
  let '(b0, b1, b2) := b in
  Nat.eqb a0 b0 && Nat.eqb a1 b1 && Nat.eqb a2 b2.

(** [d[k] = v] on an insertion-ordered dict: an existing key keeps its
    place, a new key goes last. *)
Fixpoint setitem {V : Type} (d : list (index3 * V)) (k : index3) (v : V)
  : list (index3 * V) :=
  match d with
  | [] => [(k, v)]
  | (k', v') :: rest =>
      if index3_eqb k' k then (k', v) :: rest
      else (k', v') :: setitem rest k v
  end.

(** ** Alignment stars *)

Section Selection.

Context {F : Type} {PF : PyFloat F}.
Local Open Scope py_scope.

(** What [best_stars] prints, before the numbers are formatted as text. *)
Inductive output : Type :=
| Heading (NUMBER : Z) (combinations : nat)
| Line (index : Z) (name1 name2 name3 : string) (area : F).

(** [for i,j,k in itertools.combinations(...): triples[(i,j,k)] = area(...)] *)
Fixpoint fill_triples (stars : list (Star F)) (combos : list (list nat))
    (triples : list (index3 * F)) : result (list (index3 * F)) :=
  match combos with
  | [] => Ok triples
  | [i; j; k] :: rest =>
      si <- getitem stars i ;;
      sj <- getitem stars j ;;
      sk <- getitem stars k ;;
      a <- area si sj sk ;;
      fill_triples stars rest (setitem triples (i, j, k) a)
  | _ :: _ => Raise ValueError
  end.

(** The printing loop: one line per triple, left after the line that
    takes [index] above [NUMBER]. *)
Fixpoint print_triples (stars : list (Star F)) (NUMBER : Z)
    (triples_sorted : list (index3 * F)) (index : Z) : result (list output) :=
  match triples_sorted with
  | [] => Ok []
  | triple :: rest =>
      let '(i, j, k) := fst triple in
      s0 <- getitem stars i ;;
      s1 <- getitem stars j ;;
      s2 <- getitem stars k ;;
      let txt := Line index (Name s0) (Name s1) (Name s2) (snd triple) in
      let index := (index + 1)%Z in
      if (index >? NUMBER)%Z then Ok [txt]
      else more <- print_triples stars NUMBER rest index ;; Ok (txt :: more)
  end.

Definition best_stars_upto (NUMBER : Z) (stars : list (Star F))
  : result (list output) :=
  triples <- fill_triples stars
               (combinations (seq 0 (List.length stars)) 3) [] ;;
  let triples_sorted := sorted fltb (fun tr => snd tr) true triples in
  lines <- print_triples stars NUMBER triples_sorted 1 ;;
  Ok (Heading NUMBER (List.length triples_sorted) :: lines).

(** [NUMBER = 15] in the source. *)
Definition best_stars (stars : list (Star F)) : result (list output) :=
  best_stars_upto 15 stars.

(** [all_stars] is what [load_bright_stars(INPUT_FILE)] read from the
    catalogue; [LOW_ANGLE] is the module's constant ([20.0]). *)
Definition get_suitable_stars (LOW_ANGLE : F) (all_stars : list (Star F))
  : list (Star F) :=
  let suitable :=
    fold_left (fun suitable star =>
                 if LOW_ANGLE <=? Alt star then suitable ++ [star]
                 else suitable)
              all_stars [] in
  sorted fltb (fun s => Alt s) true suitable.

End Selection.

(** ** Printing a list of stars *)

(** The exception that ends [print_star_list]: a local variable read before
    any assignment. *)
Inductive name_error : Type :=
| UnboundLocalError (name : string).

Section StarList.

Context {F : Type} {PF : PyFloat F}.
Local Open Scope py_scope.

(** What [print_star_list] writes, before formatting: the heading with the
    number of stars, the line of date and place with the hemispheres (north,
    east), and for each star shown the opening (" (" or two blanks), the
    fields of the star, and the end of the line (")" or nothing). *)
Inductive star_output : Type :=
| ListHeading (description : string) (count : nat)
| DateAndPlace (north east : bool)
| Opening (bracket : bool)
| StarFields (star : Star F)
| Closing (bracket : bool).

(** The loop over the stars: what it wrote, and the exception that ended
    it, if any. [low] is never assigned before [low += 1]. *)
Fixpoint print_stars (LOW_ANGLE : F) (stars : list (Star F))
  : list star_output * option name_error :=
  match stars with
  | [] => ([], None)
  | star :: rest =>
      if Alt star <=? of_int 0 then print_stars LOW_ANGLE rest
      else if Alt star <? LOW_ANGLE
           then ([Opening true], Some (UnboundLocalError "low"))
           else
             let '(more, e) := print_stars LOW_ANGLE rest in
             (Opening false :: StarFields star
                :: Closing (Alt star <? decimal 200 1) :: more, e)
  end.

Definition print_star_list (LAT LONG LOW_ANGLE : F)
    (stars : list (Star F)) (description : string)
  : list star_output * option name_error :=
  let '(lines, e) := print_stars LOW_ANGLE stars in
  (ListHeading description (List.length stars)
     :: DateAndPlace (of_int 0 <=? LAT) (of_int 0 <=? LONG) :: lines, e).

End StarList.

(** ** User interaction

    The lines typed at the prompts are a list of strings; what is printed
    is left out. [input()] takes the next line and raises EOFError when
    there is none. Inside the loops the bare [except:] catches every
    exception, EOFError included, and the loop starts again: once the
    lines are used up such a loop never ends. [float()], [int()] and
    [str.lower()] are the built-ins, taken as they are ([None] where they
    raise ValueError). *)

Inductive outcome (A : Type) : Type :=
| Returned (a : A)
| EndOfInput
| LoopsForever.

Arguments Returned {A} a.
Arguments EndOfInput {A}.
Arguments LoopsForever {A}.

(** [s.split(sep)] for a separator of one character. *)
Fixpoint split (sep : Ascii.ascii) (s : string) : list string :=
  match s with
  | EmptyString => [EmptyString]
  | String c rest =>
      if Ascii.eqb c sep then EmptyString :: split sep rest
      else match split sep rest with
           | [] => [String c EmptyString]
           | w :: ws => String c w :: ws
           end
  end.

(** [a, b, c = l]: exactly three items, or ValueError. *)
Definition unpack3 (l : list string) : option (string * string * string) :=
  match l with
  | [a; b; c] => Some (a, b, c)
  | _ => None
  end.

Definition member (s : string) (l : list string) : bool :=
  existsb (String.eqb s) l.

(** One pass through the body of a [while True: try: ...] loop: the value
    it breaks with, or [None] when it goes round again ([continue], or an
    exception caught by [except:]), and the lines left. *)
Definition pass (A : Type) : Type := list string -> option A * list string.

Definition pass_bind {A B : Type} (c : pass A) (k : A -> pass B) : pass B :=
  fun lines =>
    match c lines with
    | (Some a, rest) => k a rest
    | (None, rest) => (None, rest)
    end.

Notation "x <~ c ;; k" := (pass_bind c (fun x => k))
  (at level 61, c at next level, right associativity).
Notation "' p <~ c ;; k" := (pass_bind c (fun x => let p := x in k))
  (at level 61, p pattern, c at next level, right associativity).

Definition input : pass string :=
  fun lines =>
    match lines with
    | [] => (None, [])
    | line :: rest => (Some line, rest)
    end.

(** A value that may have raised. *)
Definition caught {A : Type} (o : option A) : pass A :=
  fun lines => (o, lines).

(** [if not ok: print(...); continue] *)
Definition require (ok : bool) : pass unit :=
  fun lines => (if ok then Some tt else None, lines).

Definition done {A : Type} (a : A) : pass A := fun lines => (Some a, lines).

Section Prompts.

Context {F : Type} {PF : PyFloat F}.
Variables (py_float : string -> option F) (py_int : string -> option Z)
          (lower : string -> string).
Local Open Scope py_scope.

Record TimePlace : Type := {
  Year : Z;
  Month : Z;
  Day : Z;
  Hours : Z;
  Minutes : Z;
  Seconds : Z;
  Latitude : F;
  Longitude : F
}.

(** [-90.0 <= latitude <= 90.0] and [-180.0 <= longitude <= 180.0] *)
Definition latitude_in_range (latitude : F) : bool :=
  (of_int (-90) <=? latitude) && (latitude <=? of_int 90).

Definition longitude_in_range (longitude : F) : bool :=
  (of_int (-180) <=? longitude) && (longitude <=? of_int 180).

(** The test before "Error in geographical position":
    [not (...latitude...) and (...longitude...)]. *)
Definition position_rejected (latitude longitude : F) : bool :=
  negb (latitude_in_range latitude) && longitude_in_range longitude.

Definition ask_time_and_place : pass TimePlace :=
  line <~ input ;;
  latitude <~ caught (py_float line) ;;
  line <~ input ;;
  longitude <~ caught (py_float line) ;;
  _ <~ require (negb (position_rejected latitude longitude)) ;;
  line <~ input ;;
  '(year, month, day) <~ caught (unpack3 (split "-"%char line)) ;;
  yi <~ caught (py_int year) ;;
  mi <~ caught (py_int month) ;;
  di <~ caught (py_int day) ;;
  _ <~ require (((2023 <=? yi) && (yi <=? 2073)) && ((1 <=? mi) && (mi <=? 12))
                && ((1 <=? di) && (di <=? 31)))%Z ;;
  line <~ input ;;
  time_zone <~ caught (py_int line) ;;
  _ <~ require ((0 <=? time_zone) && (time_zone <=? 23))%Z ;;
  dst <~ input ;;
  ut_cor <~ (if member (lower dst) ["y"; "yes"]%string
             then done (- (time_zone + 1))%Z
             else if member (lower dst) ["n"; "no"]%string
                  then done (- time_zone)%Z
                  else caught None) ;;
  line <~ input ;;
  '(hs, ms, ss) <~ caught (unpack3 (split ":"%char line)) ;;
  h <~ caught (py_int hs) ;;
  m <~ caught (py_int ms) ;;
  s <~ caught (py_int ss) ;;
  _ <~ require (((0 <=? h) && (h <=? 23)) && ((0 <=? m) && (m <=? 59))
                && ((0 <=? s) && (s <=? 59)))%Z ;;
  done {| Year := yi; Month := mi; Day := di; Hours := (h + ut_cor)%Z;
          Minutes := m; Seconds := s;
          Latitude := latitude; Longitude := longitude |}.

(** The loop: [fuel] bounds the number of passes; every pass takes at
    least one line, so the number of lines is enough. *)
Fixpoint ask_until_valid (fuel : nat) (lines : list string)
  : outcome TimePlace :=
  match lines, fuel with
  | [], _ => LoopsForever
  | _ :: _, O => LoopsForever
  | _ :: _, S fuel' =>
      match ask_time_and_place lines with
      | (Some tp, _) => Returned tp
      | (None, rest) => ask_until_valid fuel' rest
      end
  end.

Definition set_time_and_place (DEFAULT : TimePlace) (lines : list string)
  : outcome TimePlace :=
  match lines with
  | [] => EndOfInput
  | change :: rest =>
      if member (lower change) ["n"; "no"]%string then Returned DEFAULT
      else ask_until_valid (List.length rest) rest
  end.

(** [print_menu]: the number typed, once it is one of the [entries]. *)
Fixpoint ask_choice (entries : nat) (lines : list string) : outcome Z :=
  match lines with
  | [] => LoopsForever
  | line :: rest =>
      match py_int line with
      | Some choice =>
          if ((1 <=? choice) && (choice <=? Z.of_nat entries))%Z
          then Returned choice
          else ask_choice entries rest
      | None => ask_choice entries rest
      end
  end.

End Prompts.

(** The entries of the two menus, split into lines and stripped. *)
Definition MENUS : list (string * list string) :=
  [ ("MAIN",
     ["Align mount"; "Navigate to object"; "Show object information";
      "Set time and place"; "Exit program"]);
    ("STAR ALIGNMENT",
     ["Print bright stars"; "1-star alignment"; "2-star alignment";
      "3-star alignment"; "Back"]) ]%string.

Fixpoint menu_entries (d : list (string * list string)) (menu : string)
  : result (list string) :=
  match d with
  | [] => Raise KeyError
  | (k, v) :: rest => if String.eqb k menu then Ok v else menu_entries rest menu
  end.

Definition print_menu (py_int : string -> option Z) (menu : string)
    (lines : list string) : result (outcome Z) :=
  entries <- menu_entries MENUS menu ;;
  Ok (ask_choice py_int (List.length entries) lines).

(** ** Reading the catalogue

    Text is a [string]: one character of the Python [str] for each
    character of the string. *)

(** [s[:-n]] for [n > 0]: [s] without its last [n] characters. *)
Definition drop_last (n : nat) (s : string) : string :=
  String.substring 0 (String.length s - n) s.

Section Catalogue.

Context {F : Type} {PF : PyFloat F}.
Variable py_float : string -> option F.
Local Open Scope py_scope.

(** [float(s)] *)
Definition to_float (s : string) : result F :=
  match py_float s with
  | Some x => Ok x
  | None => Raise ValueError
  end.

Definition RAStr2RA (RAStr : string) : result F :=
  let tmp := split ":"%char RAStr in
  f0 <- getitem tmp 0 ;;
  h <- to_float (drop_last 1 f0) ;;
  f1 <- getitem tmp 1 ;;
  m <- to_float (drop_last 1 f1) ;;
  f2 <- getitem tmp 2 ;;
  s <- to_float (drop_last 1 f2) ;;
  Ok ((h + m / of_int 60 + s / of_int 3600) * of_int 15).

Definition DECStr2DEC (DECStr : string) : result F :=
  let tmp := split ":"%char DECStr in
  f0 <- getitem tmp 0 ;;
  let deg := drop_last 3 f0 in
  f1 <- getitem tmp 1 ;;
  let arcmin := drop_last 2 f1 in
  f2 <- getitem tmp 2 ;;
  let arcsec := drop_last 2 f2 in
  match deg with
  | EmptyString => Raise IndexError
  | String c rest =>
      let '(multiplier, deg) :=
        if Ascii.eqb c "-"%char then (of_int (-1), rest)
        else (of_int 1, deg) in
      d <- to_float deg ;;
      am <- to_float arcmin ;;
      asec <- to_float arcsec ;;
      Ok (multiplier * (d + am / of_int 60 + asec / of_int 3600))
  end.

End Catalogue.

(** ** Floats idealised as real numbers *)

#[export] Instance RealFloat : PyFloat R := {
  of_int := IZR;
  fadd := Rplus;
  fsub := Rminus;
  fmul := Rmult;
  fdiv := Rdiv;
  feqb := fun x y => if Req_dec_T x y then true else false;
  fltb := fun x y => if Rlt_dec x y then true else false;
  fleb := fun x y => if Rle_dec x y then true else false;
  fsqrt := sqrt;
  fsin := sin;
  fcos := cos;
  fasin := asin;
  facos := acos;
  fpi := PI
}.

(** Truncation toward zero. *)
Definition Rtrunc (x : R) : Z :=
  if Rle_dec 0 x then Int_part x else (- Int_part (- x))%Z.

#[export] Instance RealRemainder : PyRemainder R := {
  c_fmod := fun x y => (x - y * IZR (Rtrunc (x / y)))%R;
  c_floor := fun x => IZR (Int_part x);
  c_copysign := fun x y => if Rlt_dec y 0 then (- Rabs x)%R else Rabs x;
  int_of_float := fun x => Ok (Rtrunc x)
}.

(** ** IEEE 754 binary64 *)

Module Binary64.

Import PrimFloat.

(** The C library behind [math.sin], [math.cos], [math.asin], [math.acos]. *)
Record Libm : Type := {
  libm_sin : float -> float;
  libm_cos : float -> float;
  libm_asin : float -> float;
  libm_acos : float -> float
}.

(** An integer as a float; exact below [2^53]. *)
Definition float_of_int (z : Z) : float :=
  match z with
  | Z0 => 0%float
  | Zpos _ => PrimFloat.of_uint63 (Uint63.of_Z z)
  | Zneg _ => PrimFloat.opp (PrimFloat.of_uint63 (Uint63.of_Z (- z)))
  end.

Definition binary64 (m : Libm) : PyFloat float := {|
  of_int := float_of_int;
  fadd := PrimFloat.add;
  fsub := PrimFloat.sub;
  fmul := PrimFloat.mul;
  fdiv := PrimFloat.div;
  feqb := PrimFloat.eqb;
  fltb := PrimFloat.ltb;
  fleb := PrimFloat.leb;
  fsqrt := PrimFloat.sqrt;
  fsin := libm_sin m;
  fcos := libm_cos m;
  fasin := libm_asin m;
  facos := libm_acos m;
  fpi := 0x1.921fb54442d18p+1%float
|}.

(** [fmod(x, y)]: the remainder of the magnitudes as integers at the
    smaller of the two exponents, with the sign of [x]; it is a float, so
    normalising it rounds nothing. *)
Definition fmod64 (x y : float) : float :=
  match FloatOps.Prim2SF x, FloatOps.Prim2SF y with
  | SpecFloat.S754_nan, _ | _, SpecFloat.S754_nan => nan
  | SpecFloat.S754_infinity _, _ | _, SpecFloat.S754_zero _ => nan
  | SpecFloat.S754_zero _, _ | _, SpecFloat.S754_infinity _ => x
  | SpecFloat.S754_finite sx mx ex, SpecFloat.S754_finite _ my ey =>
      let e := Z.min ex ey in
      let r := ((Zpos mx * 2 ^ (ex - e)) mod (Zpos my * 2 ^ (ey - e)))%Z in
      FloatOps.SF2Prim
        (SpecFloat.binary_normalize 53 1024 (if sx then - r else r)%Z e sx)
  end.

Definition floor64 (x : float) : float :=
  match FloatOps.Prim2SF x with
  | SpecFloat.S754_finite s m e =>
      if (0 <=? e)%Z then x
      else
        let q := (Zpos m / 2 ^ (- e))%Z in
        if s then
          if (Zpos m mod 2 ^ (- e) =? 0)%Z then x
          else float_of_int (- (q + 1))
        else float_of_int q
  | _ => x
  end.

Definition copysign64 (x y : float) : float :=
  if get_sign y then opp (abs x) else abs x.

(** [int(x)]: ValueError for NaN, OverflowError for an infinity. *)
Definition int64 (x : float) : result Z :=
  match FloatOps.Prim2SF x with
  | SpecFloat.S754_nan => Raise ValueError
  | SpecFloat.S754_infinity _ => Raise OverflowError
  | SpecFloat.S754_zero _ => Ok 0%Z
  | SpecFloat.S754_finite s m e =>
      let v := if (0 <=? e)%Z then (Zpos m * 2 ^ e)%Z
               else (Zpos m / 2 ^ (- e))%Z in
      Ok (if s then - v else v)%Z
  end.

#[export] Instance remainder64 : PyRemainder float := {|
  c_fmod := fmod64;
  c_floor := floor64;
  c_copysign := copysign64;
  int_of_float := int64
|}.

(** *** The C library at the arguments of the examples

    Correctly rounded binary64 values of the sine, the cosine, the arcsine
    and the arccosine at the arguments that the examples below evaluate. An argument outside a table gives NaN; no example
    evaluates one. *)

Fixpoint tabulated (table : list (float * float)) (x : float) : float :=
  match table with
  | [] => nan
  | (a, v) :: rest => if (a =? x)%float then v else tabulated rest x
  end.

Definition sin_table : list (float * float) :=
  [ (0, 0);
    (0x1.1df46a2529d39p-3, 0x1.1d06c968d9e19p-3);
    (0x1.0c152382d7365p-1, 0x1.fffffffffffffp-2);
    (0x1.0c152382d7365p+0, 0x1.bb67ae8584caap-1);
    (0x1.0c152382d7366p+0, 0x1.bb67ae8584cabp-1);
    (0x1.921fb54442d18p-1, 0x1.6a09e667f3bccp-1);
    (0x1.921fb54442d19p-1, 0x1.6a09e667f3bcdp-1);
    (0x1.921fb54442d18p+0, 1);
    (0x1.1a62633145c07p-54, 0x1.1a62633145c07p-54) ]%float.

Definition cos_table : list (float * float) :=
  [ (0, 1);
    (0x1.1df46a2529d39p-3, 0x1.fb046a930947ap-1);
    (0x1.0c152382d7365p-1, 0x1.bb67ae8584cabp-1);
    (0x1.0c152382d7365p+0, 0x1.0000000000001p-1);
    (0x1.0c152382d7366p+0, 0x1.ffffffffffffep-2);
    (0x1.921fb54442d18p-1, 0x1.6a09e667f3bcdp-1);
    (0x1.921fb54442d19p-1, 0x1.6a09e667f3bccp-1);
    (0x1.921fb54442d18p+0, 0x1.1a62633145c07p-54);
    (0x1.1a62633145c07p-54, 1) ]%float.

Definition asin_table : list (float * float) :=
  [ (0x1.bb67ae8584cabp-1, 0x1.0c152382d7366p+0);
    (0x1.6a09e667f3bcdp-1, 0x1.921fb54442d19p-1);
    (1, 0x1.921fb54442d18p+0);
    (0x1.1a62633145c07p-54, 0x1.1a62633145c07p-54) ]%float.

Definition acos_table : list (float * float) :=
  [ (1, 0);
    (0, 0x1.921fb54442d18p+0);
    (-1, 0x1.921fb54442d18p+1) ]%float.

Definition libm_table : Libm := {|
  libm_sin := tabulated sin_table;
  libm_cos := tabulated cos_table;
  libm_asin := tabulated asin_table;
  libm_acos := tabulated acos_table
|}.

#[export] Instance table64 : PyFloat float := binary64 libm_table.

(** A star at altitude 8 and azimuth 10 (degrees). *)
Definition star_8_10 : Star float := star_at 8%float 10%float.

(** [1 + 2^-52], the float after [1.0]. *)
Definition one_plus_ulp : float := 0x1.0000000000001p+0%float.

Definition rad_8 : float := 0x1.1df46a2529d39p-3%float.
Definition sin_rad_8 : float := 0x1.1d06c968d9e19p-3%float.
Definition cos_rad_8 : float := 0x1.fb046a930947ap-1%float.

(** The altitude, in radians, of an object at declination 60 and hour angle
    0 seen from latitude 30, as [math.asin] returns it. *)
Definition alt_60_0_30 : float := 0x1.0c152382d7366p+0%float.

(** [45.00000000000001], the float after [45.0]. *)
Definition after_45 : float := 0x1.6800000000001p+5%float.

Definition f360 : float := 360%float.
Definition f270 : float := 270%float.
Definition f180 : float := 180%float.
Definition f90 : float := 90%float.

(** [3.5083546492674384e-15], the altitude in degrees that comes out at
    the pole for an object on the celestial equator. *)
Definition alt_at_pole : float := 0x1.f99b70cfba96fp-49%float.

(** [math.pi / 2] and its cosine, [6.123233995736766e-17]. *)
Definition half_pi : float := 0x1.921fb54442d18p+0%float.
Definition cos_half_pi : float := 0x1.1a62633145c07p-54%float.

(** [2^-70], a right ascension a hair above 0. *)
Definition two_pow_minus_70 : float := 0x1p-70%float.

(** [-100.46000000000001], the float before [-100.46]. *)
Definition before_minus_100_46 : float := (-0x1.91d70a3d70a3ep+6)%float.

(** [0.1] *)
Definition one_tenth : float := 0x1.999999999999ap-4%float.

(** [RA_DEC_to_ALT_AZ] with the table, its arguments written as integers
    of degrees. *)
Definition RA_DEC_to_ALT_AZ_deg (raD decD haD latD : Z)
  : result (float * float) :=
  RA_DEC_to_ALT_AZ (float_of_int raD) (float_of_int decD)
                   (float_of_int haD) (float_of_int latD).

End Binary64.

(** ** Vocabulary of the statements *)

(** The area the code computes, as a real number. *)
Definition area_value (s1 s2 s3 : Star R) : R :=
  (
  let '(v1_0, v1_1, v1_2) := cartesian s1 in
  let '(v2_0, v2_1, v2_2) := cartesian s2 in
  let '(v3_0, v3_1, v3_2) := cartesian s3 in
  let '(r0, r1, r2) :=
    vector_product (v1_0 - v2_0, v1_1 - v2_1, v1_2 - v2_2)
                   (v1_0 - v3_0, v1_1 - v3_1, v1_2 - v2_2) in
  5 / 10 * sqrt (r0 * r0 + r1 * r1 + r2 * r2))%R.

(** Follows the spec's words for [triangleArea]: 0.5 times the norm of the
    cross product of [p1 - p2] and [p1 - p3], on the cartesian projections. *)
Definition triangleArea_spec (s1 s2 s3 : Star R) : R :=
  (let '(x1, y1, z1) := cartesian s1 in
   let '(x2, y2, z2) := cartesian s2 in
   let '(x3, y3, z3) := cartesian s3 in
   let '(r0, r1, r2) :=
     vector_product (x1 - x2, y1 - y2, z1 - z2)
                    (x1 - x3, y1 - y3, z1 - z3) in
   5 / 10 * sqrt (r0 * r0 + r1 * r1 + r2 * r2))%R.

(** Three stars a quarter turn apart: on the horizon due north (azimuth 0),
    on the horizon at azimuth 90, and at the zenith. *)
Definition north_horizon : Star R := star_at 0%R 0%R.
Definition east_horizon : Star R := star_at 0%R 90%R.
Definition zenith : Star R := star_at 90%R 0%R.

(** The divisor of the azimuth step of [RA_DEC_to_ALT_AZ]:
    [cos(alt) * cos(lat)]. *)
Definition azimuth_divisor (decD haD latD : R) : R :=
  (cos (asin (sin_alt decD haD latD)) * cos (deg2rad latD))%R.

(** Two keys that [<] does not separate. *)
Definition same_key {K : Type} (ltb : K -> K -> bool) (k1 k2 : K) : bool :=
  negb (ltb k1 k2) && negb (ltb k2 k1).

(** [a] may come before [b] in descending order of keys: [a]'s key is not
    below [b]'s. *)
Definition not_below {A K : Type} (ltb : K -> K -> bool) (key : A -> K)
    (a b : A) : Prop :=
  ltb (key a) (key b) = false.

(** Lexicographic order on index lists: the order in which
    [itertools.combinations] emits them. *)
Inductive lex_lt : list nat -> list nat -> Prop :=
| lex_lt_head (x y : nat) (l l' : list nat) :
    (x < y)%nat -> lex_lt (x :: l) (y :: l')
| lex_lt_tail (x : nat) (l l' : list nat) :
    lex_lt l l' -> lex_lt (x :: l) (x :: l').

(** A strictly increasing list of indices, all of them in [lo, hi). *)
Fixpoint increasing (lo hi : nat) (c : list nat) : Prop :=
  match c with
  | [] => True
  | x :: c' => (lo <= x < hi)%nat /\ increasing (S x) hi c'
  end.

Definition as_index3 (c : list nat) : index3 :=
  match c with
  | [i; j; k] => (i, j, k)
  | _ => (0, 0, 0)%nat
  end.

Definition index3_list (t : index3) : list nat :=
  let '(i, j, k) := t in [i; j; k].

(** The entry of the dict [triples] for three indices: the area of the
    three stars they select. *)
Definition scored (stars : list (Star R)) (row : index3 * R) : Prop :=
  let '((i, j, k), a) := row in
  exists si sj sk : Star R,
    nth_error stars i = Some si /\
    nth_error stars j = Some sj /\
    nth_error stars k = Some sk /\
    area si sj sk = Ok a.

(** The lines printed for a list of rows, numbered from [index]. *)
Inductive listing (stars : list (Star R))
  : Z -> list (index3 * R) -> list (@output R) -> Prop :=
| listing_nil (index : Z) : listing stars index [] []
| listing_cons (index : Z) (i j k : nat) (a : R) (s0 s1 s2 : Star R)
    (rows : list (index3 * R)) (lines : list (@output R)) :
    nth_error stars i = Some s0 ->
    nth_error stars j = Some s1 ->
    nth_error stars k = Some s2 ->
    listing stars (index + 1) rows lines ->
    listing stars index (((i, j, k), a) :: rows)
            (Line index (Name s0) (Name s1) (Name s2) a :: lines).

(** Enumeration order of the keys of [triples]: lowest index first. *)
Definition index3_lt (t t' : index3) : Prop :=
  lex_lt (index3_list t) (index3_list t').

(** The area shown on a printed line is not negative. *)
Definition line_area_nonneg (o : @output R) : Prop :=
  match o with
  | Heading _ _ => True
  | Line _ _ _ _ a => (0 <= a)%R
  end.

(** The scalar product of two vectors. *)
Definition dot (v w : vec R) : R :=
  (let '(v0, v1, v2) := v in
   let '(w0, w1, w2) := w in
   v0 * w0 + v1 * w1 + v2 * w2)%R.

(** The remainder of the floored division, [x - y * floor(x / y)]: what
    [x % y] is in exact arithmetic. *)
Definition floor_mod (x y : R) : R := (x - y * IZR (Int_part (x / y)))%R.

(** ** Loading the catalogue, in exact arithmetic

    [rows] is what [csv.reader] yields for the file: one list of fields for
    each line. The date, the time, the correction to universal time and
    the place are the module's constants. *)

Section Loading.

Variables (py_float : string -> option R) (py_int : string -> option Z).
Variables (YEAR MONTH DAY HOURS MINUTES SECONDS UT_COR : Z) (LAT LONG : R).

(** [int(s)] *)
Definition to_int (s : string) : result Z :=
  match py_int s with
  | Some z => Ok z
  | None => Raise ValueError
  end.

(** The body of the loop for one line of the file: the star it appends,
    or nothing for a heading line. *)
Definition load_row (lst : R) (line : list string)
  : result (option (Star R)) :=
  f0 <- getitem line 0 ;;
  if String.eqb f0 "Rank" then Ok None
  else
    rank <- to_int f0 ;;
    name <- getitem line 1 ;;
    beyer <- getitem line 2 ;;
    f3 <- getitem line 3 ;;
    mag <- to_float py_float f3 ;;
    f4 <- getitem line 4 ;;
    ra <- RAStr2RA py_float f4 ;;
    f5 <- getitem line 5 ;;
    dec <- DECStr2DEC py_float f5 ;;
    let ha := hour_angle ra lst in
    position <- RA_DEC_to_ALT_AZ ra dec ha LAT ;;
    let '(Alt, Az) := position in
    Ok (Some {| Rank := rank; Name := name; Beyer := beyer; Mag_v := mag;
                RA := ra; DEC := dec; Alt := Alt; Az := Az |}).

Fixpoint load_rows (lst : R) (rows : list (list string))
    (all_stars : list (Star R)) : result (list (Star R)) :=
  match rows with
  | [] => Ok all_stars
  | line :: rest =>
      current <- load_row lst line ;;
      match current with
      | None => load_rows lst rest all_stars
      | Some star => load_rows lst rest (all_stars ++ [star])
      end
  end.

Definition load_bright_stars (rows : list (list string))
  : result (list (Star R)) :=
  days_J2000 <- days_from_J2000 YEAR MONTH DAY (HOURS + UT_COR)
                                MINUTES SECONDS ;;
  let lst := local_siderial_time
               days_J2000 LONG
               (HMS_to_decimal_time (HOURS + UT_COR) MINUTES SECONDS) in
  load_rows lst rows [].

End Loading.

(** The calendar that the day count follows: every fourth year is a leap
    year. *)
Definition days_in_month (year month : Z) : Z :=
  if (month =? 2)%Z then (if (year mod 4 =? 0)%Z then 29 else 28)%Z
  else if ((month =? 4) || (month =? 6) || (month =? 9) || (month =? 11))%Z
       then 30%Z else 31%Z.

Definition next_day (year month day : Z) : Z * Z * Z :=
  if (day <? days_in_month year month)%Z then (year, month, day + 1)%Z
  else if (month <? 12)%Z then (year, month + 1, 1)%Z
  else (year + 1, 1, 1)%Z.

(** The number of ways to choose [r] things out of [n]. *)
Fixpoint choose (n r : nat) : nat :=
  match r, n with
  | O, _ => 1
  | S _, O => 0
  | S r', S n' => choose n' r' + choose n' r
  end.

(** The three items of an unbracketed line of [print_star_list]. *)
Definition star_line (star : Star R) : list (@star_output R) :=
  [Opening false; StarFields star;
   Closing (if Rlt_dec (Alt star) 20 then true else false)].

(** The place that [set_time_and_place] lets through: a latitude in range,
    or a longitude out of range. *)
Definition position_let_through (tp : @TimePlace R) : Prop :=
  (-90 <= Latitude tp <= 90 \/
   ~ (-180 <= Longitude tp <= 180))%R.

(** What [int()] returns on a plain decimal numeral with an optional minus
    sign, and [float()] on the same text. *)
Definition digit_of (c : Ascii.ascii) : option Z :=
  let n := Ascii.nat_of_ascii c in
  if ((48 <=? n) && (n <=? 57))%nat then Some (Z.of_nat (n - 48)) else None.

Fixpoint digits (acc : Z) (s : string) : option Z :=
  match s with
  | EmptyString => Some acc
  | String c rest =>
      match digit_of c with
      | Some d => digits (10 * acc + d) rest
      | None => None
      end
  end.

Definition int_of_numeral (s : string) : option Z :=
  match s with
  | EmptyString => None
  | String c rest =>
      if Ascii.eqb c "-"%char
      then match rest with
           | EmptyString => None
           | _ => option_map Z.opp (digits 0 rest)
           end
      else digits 0 s
  end.

Definition float_of_numeral (s : string) : option R :=
  option_map IZR (int_of_numeral s).

(** A session at the prompts: yes to a change, latitude 95, longitude 200,
    the 31st of February 2024, time zone 1, no daylight saving time, half
    past midnight. *)
Definition session : list string :=
  ["y"; "95"; "200"; "2024-02-31"; "1"; "n"; "00:30:00"]%string.

Definition session_result : @TimePlace R :=
  {| Year := 2024; Month := 2; Day := 31; Hours := -1; Minutes := 30;
     Seconds := 0; Latitude := 95%R; Longitude := 200%R |}.

(** The default of the source: Bad Camberg, on the evening of the
    12th of November 2023. *)
Definition bad_camberg : @TimePlace R :=
  {| Year := 2023; Month := 11; Day := 12; Hours := 18; Minutes := 0;
     Seconds := 0; Latitude := decimal 50314 3; Longitude := decimal 8255 3 |}.

(** A heading line of the catalogue: its first field is "Rank". *)
Definition is_heading (line : list string) : bool :=
  match line with
  | f0 :: _ => String.eqb f0 "Rank"
  | [] => false
  end.

(** The catalogue of the example: a heading line and one star, at right
    ascension 0 and declination 45. *)
Definition one_star_rows : list (list string) :=
  [ ["Rank"; "Name"; "Beyer"; "Mag_v"; "RA"; "DEC"];
    ["1"; "Star"; "a"; "2"; "00h:00m:00s"; "45deg:00mn:00sc"] ]%string.

(** What the example catalogue loads to at the J2000 epoch, seen from the
    equator at the longitude where the sidereal time is then 0. *)
Definition one_star_loaded : list (Star R) :=
  [ {| Rank := 1; Name := "Star"; Beyer := "a"; Mag_v := 2%R;
       RA := 0%R; DEC := 45%R; Alt := 45%R; Az := 360%R |} ].

(** * Properties *)

Section RealArithmetic.

Local Open Scope R_scope.

Lemma fltb_R_true (x y : R) : x < y -> fltb x y = true.
Proof. intros H. cbn. destruct (Rlt_dec x y); [reflexivity | contradiction]. Qed.

Lemma fltb_R_false (x y : R) : y <= x -> fltb x y = false.
Proof. intros H. cbn. destruct (Rlt_dec x y); [lra | reflexivity]. Qed.

Lemma fltb_R_spec (x y : R) : fltb x y = true <-> x < y.
Proof. cbn. destruct (Rlt_dec x y); split; intros; auto; discriminate. Qed.

Lemma fleb_R_spec (x y : R) : fleb x y = true <-> x <= y.
Proof. cbn. destruct (Rle_dec x y); split; intros; auto; discriminate. Qed.

Lemma feqb_R_spec (x y : R) : feqb x y = true <-> x = y.
Proof. cbn. destruct (Req_dec_T x y); split; intros; auto; discriminate. Qed.

Lemma math_sqrt_R (x : R) : 0 <= x -> math_sqrt x = Ok (sqrt x).
Proof. intros H. unfold math_sqrt. rewrite fltb_R_false; [reflexivity | exact H]. Qed.

Lemma out_of_domain_R_false (x : R) : -1 <= x <= 1 -> out_of_domain x = false.
Proof.
  intros [H1 H2]. unfold out_of_domain.
  rewrite !fltb_R_false; [reflexivity | exact H2 | exact H1].
Qed.

Lemma out_of_domain_R_spec (x : R) : out_of_domain x = true <-> x < -1 \/ 1 < x.
Proof.
  unfold out_of_domain. rewrite orb_true_iff, !fltb_R_spec. reflexivity.
Qed.

Lemma truediv_R_zero (x y : R) : y = 0 -> truediv x y = Raise ZeroDivisionError.
Proof.
  intros ->. unfold truediv.
  replace (feqb 0 (of_int 0)) with true; [reflexivity |].
  symmetry. apply feqb_R_spec. reflexivity.
Qed.

Lemma truediv_R_nonzero (x y : R) : y <> 0 -> truediv x y = Ok (x / y).
Proof.
  intros H. unfold truediv.
  destruct (feqb y (of_int 0)) eqn:E; [| reflexivity].
  apply feqb_R_spec in E. contradiction.
Qed.

Lemma decimal_R (m : Z) (k : nat) : decimal m k = IZR m / IZR (10 ^ Z.of_nat k).
Proof. reflexivity. Qed.

Lemma math_radians_R (x : R) : math_radians x = x * (PI / 180).
Proof. reflexivity. Qed.

Lemma deg2rad_R (x : R) : deg2rad x = PI * x / 180.
Proof. reflexivity. Qed.

Lemma rad2deg_R (x : R) : rad2deg x = 180 * x / PI.
Proof. reflexivity. Qed.

Lemma vector_norm_R (x y z : R) :
  vector_norm (x, y, z) = Ok (sqrt (x * x + y * y + z * z)).
Proof.
  unfold vector_norm. cbn [components fold_left].
  change (of_int 0) with 0. cbn [fadd fmul RealFloat].
  replace (0 + x * x + y * y + z * z) with (x * x + y * y + z * z) by ring.
  apply math_sqrt_R. nra.
Qed.

Lemma area_R (s1 s2 s3 : Star R) : area s1 s2 s3 = Ok (area_value s1 s2 s3).
Proof.
  unfold area, area_value.
  destruct (cartesian s1) as [[a0 a1] a2].
  destruct (cartesian s2) as [[b0 b1] b2].
  destruct (cartesian s3) as [[c0 c1] c2].
  cbn [fsub RealFloat].
  destruct (vector_product _ _) as [[r0 r1] r2].
  rewrite vector_norm_R. cbn [bind]. rewrite decimal_R.
  cbn [fmul RealFloat]. f_equal.
Qed.

End RealArithmetic.

(** ** Triangle area *)

Section TriangleArea.

Local Open Scope R_scope.

Lemma math_radians_0 : math_radians 0 = 0.
Proof. rewrite math_radians_R. ring. Qed.

Lemma math_radians_90 : math_radians 90 = PI / 2.
Proof. rewrite math_radians_R. field. Qed.

Lemma cartesian_north_horizon : cartesian north_horizon = (1, 0, 0).
Proof.
  unfold cartesian, north_horizon, star_at. cbn [Alt Az].
  rewrite math_radians_0. cbn [fcos fsin fmul RealFloat].
  rewrite cos_0, sin_0. repeat f_equal; ring.
Qed.

Lemma cartesian_east_horizon : cartesian east_horizon = (0, 1, 0).
Proof.
  unfold cartesian, east_horizon, star_at. cbn [Alt Az].
  rewrite math_radians_0, math_radians_90. cbn [fcos fsin fmul RealFloat].
  rewrite cos_0, sin_0, cos_PI2, sin_PI2. repeat f_equal; ring.
Qed.

Lemma cartesian_zenith : cartesian zenith = (0, 0, 1).
Proof.
  unfold cartesian, zenith, star_at. cbn [Alt Az].
  rewrite math_radians_0, math_radians_90. cbn [fcos fsin fmul RealFloat].
  rewrite cos_0, sin_0, cos_PI2, sin_PI2. repeat f_equal; ring.
Qed.

Lemma sqrt_3_neq_1 : sqrt 3 <> 1.
Proof.
  intros H. assert (E : sqrt 3 * sqrt 3 = 3) by (apply sqrt_sqrt; lra).
  rewrite H in E. lra.
Qed.

Lemma sqrt_2_neq_1 : sqrt 2 <> 1.
Proof.
  intros H. assert (E : sqrt 2 * sqrt 2 = 2) by (apply sqrt_sqrt; lra).
  rewrite H in E. lra.
Qed.

Lemma area_north_east_zenith : area north_horizon east_horizon zenith = Ok (1 / 2).
Proof.
  rewrite area_R. f_equal. unfold area_value.
  rewrite cartesian_north_horizon, cartesian_east_horizon, cartesian_zenith.
  cbn [vector_product fsub fmul RealFloat].
  match goal with |- _ * sqrt ?x = _ => replace x with 1 by ring end.
  rewrite sqrt_1. lra.
Qed.

Lemma area_north_zenith_east :
  area north_horizon zenith east_horizon = Ok (sqrt 2 / 2).
Proof.
  rewrite area_R. f_equal. unfold area_value.
  rewrite cartesian_north_horizon, cartesian_east_horizon, cartesian_zenith.
  cbn [vector_product fsub fmul RealFloat].
  match goal with |- _ * sqrt ?x = _ => replace x with 2 by ring end.
  lra.
Qed.

Lemma triangleArea_spec_north_east_zenith :
  triangleArea_spec north_horizon east_horizon zenith = sqrt 3 / 2.
Proof.
  unfold triangleArea_spec.
  rewrite cartesian_north_horizon, cartesian_east_horizon, cartesian_zenith.
  cbn [vector_product fsub fmul RealFloat].
  match goal with |- _ * sqrt ?x = _ => replace x with 3 by ring end.
  lra.
Qed.

(** C1 (code defect): [area] is not 0.5 times the norm of the cross product
    of [p1 - p2] and [p1 - p3]. The third component of the second edge is
    [v1[2] - v2[2]] in the code: for the stars at (Alt, Az) = (0, 0),
    (0, 90) and (90, 0) the code returns 1/2, the stated formula gives
    sqrt 3 / 2. *)
Theorem area_differs_from_cross_product_formula :
  area north_horizon east_horizon zenith = Ok (1 / 2) /\
  triangleArea_spec north_horizon east_horizon zenith = sqrt 3 / 2 /\
  area north_horizon east_horizon zenith
    <> Ok (triangleArea_spec north_horizon east_horizon zenith).
Proof.
  split; [apply area_north_east_zenith |].
  split; [apply triangleArea_spec_north_east_zenith |].
  rewrite area_north_east_zenith, triangleArea_spec_north_east_zenith.
  intros H. injection H as H. apply sqrt_3_neq_1. lra.
Qed.

(** C2 (code defect): [area] depends on the order of its arguments. With the
    same three stars, exchanging the second and the third changes the result
    from 1/2 to sqrt 2 / 2. *)
Theorem area_depends_on_argument_order :
  area north_horizon east_horizon zenith = Ok (1 / 2) /\
  area north_horizon zenith east_horizon = Ok (sqrt 2 / 2) /\
  area north_horizon east_horizon zenith
    <> area north_horizon zenith east_horizon.
Proof.
  split; [apply area_north_east_zenith |].
  split; [apply area_north_zenith_east |].
  rewrite area_north_east_zenith, area_north_zenith_east.
  intros H. injection H as H. apply sqrt_2_neq_1. lra.
Qed.

Lemma area_value_nonneg (s1 s2 s3 : Star R) : 0 <= area_value s1 s2 s3.
Proof.
  unfold area_value.
  destruct (cartesian s1) as [[a0 a1] a2].
  destruct (cartesian s2) as [[b0 b1] b2].
  destruct (cartesian s3) as [[c0 c1] c2].
  destruct (vector_product _ _) as [[r0 r1] r2].
  apply Rmult_le_pos; [lra | apply sqrt_pos].
Qed.

End TriangleArea.

(** ** Angular separation *)

Section AngularSeparation.

Local Open Scope R_scope.

Lemma cos_angle_R (s1 s2 : Star R) :
  cos_angle s1 s2 =
  cos (math_radians (Alt s1)) * cos (math_radians (Alt s2))
    * cos (math_radians (Az s1) - math_radians (Az s2))
  + sin (math_radians (Alt s1)) * sin (math_radians (Alt s2)).
Proof. reflexivity. Qed.

Lemma cos_angle_sym (s1 s2 : Star R) : cos_angle s1 s2 = cos_angle s2 s1.
Proof.
  rewrite !cos_angle_R.
  replace (math_radians (Az s1) - math_radians (Az s2))
    with (- (math_radians (Az s2) - math_radians (Az s1))) by ring.
  rewrite cos_neg. ring.
Qed.

(** C10: [angle] is symmetric in its two stars (same value, or the same
    exception). *)
Theorem angle_symmetric (s1 s2 : Star R) : angle s1 s2 = angle s2 s1.
Proof. unfold angle. rewrite (cos_angle_sym s1 s2). reflexivity. Qed.

(** The same in any arithmetic whose product commutes and whose cosine
    does not see the sign of a difference, binary64 included. *)
Lemma angle_symmetric_in (F : Type) (PF : PyFloat F) :
  (forall x y : F, fmul x y = fmul y x) ->
  (forall x y : F, fcos (fsub x y) = fcos (fsub y x)) ->
  forall s1 s2 : Star F, angle s1 s2 = angle s2 s1.
Proof.
  intros Hmul Hcos s1 s2. unfold angle, cos_angle.
  rewrite (Hcos (math_radians (Az s1))).
  rewrite (Hmul (fcos (math_radians (Alt s1)))).
  rewrite (Hmul (fsin (math_radians (Alt s1)))).
  reflexivity.
Qed.

End AngularSeparation.

(** ** Days since J2000 *)

Section Epoch.

Local Open Scope R_scope.

Lemma days_until_month_begins_2000_1 :
  days_until_month_begins 2000 1 = Ok 0%Z.
Proof. reflexivity. Qed.

Lemma days_from_J2000_epoch_R : days_from_J2000 2000 1 1 12 0 0 = Ok 0.
Proof.
  unfold days_from_J2000. rewrite days_until_month_begins_2000_1.
  cbn [bind]. f_equal.
  unfold days_from_J2000_until_year, HMS_to_decimal_time.
  rewrite !decimal_R.
  replace ((2000 - 1998) * 365 + (2000 - 1998 + 1) / 4)%Z with 730%Z
    by reflexivity.
  cbn [of_int fadd fsub fdiv RealFloat Z.add Z.of_nat Z.pow Z.pow_pos
       Pos.iter Pos.of_succ_nat Pos.succ Z.mul Pos.mul Pos.add].
  field.
Qed.

Lemma days_from_J2000_epoch_binary64 (m : Binary64.Libm) :
  @days_from_J2000 _ (Binary64.binary64 m) 2000 1 1 12 0 0 = Ok PrimFloat.zero.
Proof. vm_compute. reflexivity. Qed.

(** C8: at the J2000.0 epoch itself, 2000-01-01 12:00:00, [days_from_J2000]
    returns exactly 0, in exact arithmetic and in binary64 (whatever the C
    library is). *)
Theorem days_from_J2000_at_epoch :
  days_from_J2000 2000 1 1 12 0 0 = Ok 0 /\
  forall m : Binary64.Libm,
    @days_from_J2000 _ (Binary64.binary64 m) 2000 1 1 12 0 0 = Ok PrimFloat.zero.
Proof.
  split; [apply days_from_J2000_epoch_R | apply days_from_J2000_epoch_binary64].
Qed.

End Epoch.

(** ** Equatorial to horizontal coordinates *)

Section CoordinateTransform.

Local Open Scope R_scope.

Lemma sin_alt_R (decD haD latD : R) :
  sin_alt decD haD latD =
  sin (deg2rad decD) * sin (deg2rad latD)
  + cos (deg2rad decD) * cos (deg2rad latD) * cos (deg2rad haD).
Proof. reflexivity. Qed.

Lemma spherical_cosine_bound (sd cd sl cl h : R) :
  sd * sd + cd * cd = 1 -> sl * sl + cl * cl = 1 -> -1 <= h <= 1 ->
  -1 <= sd * sl + cd * cl * h <= 1.
Proof.
  intros H1 H2 H3.
  assert (A : 0 <= cl * cl * (1 - h * h)) by (apply Rmult_le_pos; nra).
  pose proof (Rle_0_sqr (sd - sl)) as B1.
  pose proof (Rle_0_sqr (cd - cl * h)) as B2.
  pose proof (Rle_0_sqr (sd + sl)) as B3.
  pose proof (Rle_0_sqr (cd + cl * h)) as B4.
  unfold Rsqr in *. split; nra.
Qed.

Lemma sin_cos_unit (x : R) : sin x * sin x + cos x * cos x = 1.
Proof. pose proof (sin2_cos2 x) as H. unfold Rsqr in H. exact H. Qed.

Lemma sin_alt_bound (decD haD latD : R) : -1 <= sin_alt decD haD latD <= 1.
Proof.
  rewrite sin_alt_R.
  apply spherical_cosine_bound; [apply sin_cos_unit | apply sin_cos_unit |].
  apply COS_bound.
Qed.

Lemma azimuth_gap (sd cd sl cl h ca : R) :
  sd * sd + cd * cd = 1 -> sl * sl + cl * cl = 1 ->
  ca * ca = 1 - (sd * sl + cd * cl * h) * (sd * sl + cd * cl * h) ->
  (ca * cl) * (ca * cl)
  - (sd - (sd * sl + cd * cl * h) * sl) * (sd - (sd * sl + cd * cl * h) * sl)
  = cl * cl * (cd * cd) * (1 - h * h).
Proof.
  intros H1 H2 H4.
  replace ((ca * cl) * (ca * cl)) with (ca * ca * (cl * cl)) by ring.
  rewrite H4.
  replace (sd - (sd * sl + cd * cl * h) * sl)
    with (sd * (1 - sl * sl) - cd * cl * h * sl) by ring.
  replace (1 - sl * sl) with (cl * cl) by lra.
  replace (1 - (sd * sl + cd * cl * h) * (sd * sl + cd * cl * h))
    with (sd * sd + cd * cd - (sd * sl + cd * cl * h) * (sd * sl + cd * cl * h))
    by lra.
  replace ((sd * (cl * cl) - cd * cl * h * sl) * (sd * (cl * cl) - cd * cl * h * sl))
    with (cl * cl * ((sd * cl - cd * h * sl) * (sd * cl - cd * h * sl))) by ring.
  transitivity (cl * cl * (sd * sd * (1 - (sl * sl + cl * cl))
                           + cd * cd * (1 - h * h * (sl * sl + cl * cl))));
    [ring |].
  rewrite H2. ring.
Qed.

Lemma quotient_bound (n d : R) : d <> 0 -> n * n <= d * d -> -1 <= n / d <= 1.
Proof.
  intros Hd H.
  assert (D : 0 < d * d) by nra.
  assert (E : n / d * d = n) by (field; exact Hd).
  set (q := n / d) in *.
  assert (Q : q * q <= 1).
  { apply Rmult_le_reg_r with (d * d); [exact D |]. rewrite <- E in H. nra. }
  split; nra.
Qed.

(** Away from a zero divisor the value handed to [math.acos] is a cosine. *)
Lemma cos_a_bound (decD haD latD : R) :
  azimuth_divisor decD haD latD <> 0 ->
  -1 <= (sin (deg2rad decD)
         - sin (asin (sin_alt decD haD latD)) * sin (deg2rad latD))
        / azimuth_divisor decD haD latD <= 1.
Proof.
  intros Hd. apply quotient_bound; [exact Hd |].
  unfold azimuth_divisor.
  rewrite (sin_asin _ (sin_alt_bound decD haD latD)).
  pose proof (sin_cos_unit (asin (sin_alt decD haD latD))) as Hc.
  rewrite (sin_asin _ (sin_alt_bound decD haD latD)) in Hc.
  rewrite sin_alt_R in *.
  pose proof (sin_cos_unit (deg2rad decD)) as H1.
  pose proof (sin_cos_unit (deg2rad latD)) as H2.
  pose proof (COS_bound (deg2rad haD)) as H3.
  set (sd := sin (deg2rad decD)) in *. set (cd := cos (deg2rad decD)) in *.
  set (sl := sin (deg2rad latD)) in *. set (cl := cos (deg2rad latD)) in *.
  set (h := cos (deg2rad haD)) in *.
  set (ca := cos (asin (sd * sl + cd * cl * h))) in *.
  assert (G := @azimuth_gap sd cd sl cl h ca H1 H2 ltac:(lra)).
  assert (P : 0 <= cl * cl * (cd * cd) * (1 - h * h)).
  { apply Rmult_le_pos; [apply Rmult_le_pos |]; nra. }
  lra.
Qed.

Lemma RA_DEC_to_ALT_AZ_R (raD decD haD latD : R) :
  RA_DEC_to_ALT_AZ raD decD haD latD =
  (cos_a <- truediv (sin (deg2rad decD)
                     - sin (asin (sin_alt decD haD latD)) * sin (deg2rad latD))
                    (azimuth_divisor decD haD latD) ;;
   a <- math_acos cos_a ;;
   Ok (rad2deg (asin (sin_alt decD haD latD)),
       if fltb (sin (deg2rad haD)) 0 then rad2deg a else 360 - rad2deg a)).
Proof.
  unfold RA_DEC_to_ALT_AZ, math_asin.
  rewrite (out_of_domain_R_false (sin_alt_bound decD haD latD)).
  reflexivity.
Qed.

Lemma rad2deg_monotone (x y : R) : x <= y -> rad2deg x <= rad2deg y.
Proof.
  intros H. rewrite !rad2deg_R. pose proof PI_RGT_0 as P.
  unfold Rdiv. apply Rmult_le_compat_r; [| lra].
  left. apply Rinv_0_lt_compat. exact P.
Qed.

Lemma rad2deg_0 : rad2deg 0 = 0.
Proof. rewrite rad2deg_R. pose proof PI_RGT_0. field. lra. Qed.

Lemma rad2deg_PI : rad2deg PI = 180.
Proof. rewrite rad2deg_R. pose proof PI_RGT_0. field. lra. Qed.

Lemma rad2deg_PI2 : rad2deg (PI / 2) = 90.
Proof. rewrite rad2deg_R. pose proof PI_RGT_0. field. lra. Qed.

Lemma rad2deg_opp_PI2 : rad2deg (- (PI / 2)) = -90.
Proof. rewrite rad2deg_R. pose proof PI_RGT_0. field. lra. Qed.

Lemma rad2deg_PI4 : rad2deg (PI / 4) = 45.
Proof. rewrite rad2deg_R. pose proof PI_RGT_0. field. lra. Qed.

End CoordinateTransform.

Section CoordinateTransformCases.

Local Open Scope R_scope.

Lemma deg2rad_0 : deg2rad 0 = 0.
Proof. rewrite deg2rad_R. field. Qed.

Lemma deg2rad_45 : deg2rad 45 = PI / 4.
Proof. rewrite deg2rad_R. field. Qed.

(** An object on the meridian at the declination of the observer's latitude
    stands at the zenith. *)
Lemma sin_alt_zenith (d : R) : sin_alt d 0 d = 1.
Proof.
  rewrite sin_alt_R, deg2rad_0, cos_0.
  pose proof (sin_cos_unit (deg2rad d)). lra.
Qed.

Lemma azimuth_divisor_zenith (d : R) : azimuth_divisor d 0 d = 0.
Proof.
  unfold azimuth_divisor. rewrite sin_alt_zenith, asin_1, cos_PI2. ring.
Qed.

Lemma inv_sqrt2_neq_0 : 1 / sqrt 2 <> 0.
Proof.
  assert (0 < sqrt 2) by (apply sqrt_lt_R0; lra).
  unfold Rdiv. rewrite Rmult_1_l. apply Rinv_neq_0_compat. lra.
Qed.

Lemma sin_alt_45_0_0 : sin_alt 45 0 0 = sin (PI / 4).
Proof.
  rewrite sin_alt_R, deg2rad_0, deg2rad_45, sin_0, cos_0, sin_PI4, cos_PI4.
  ring.
Qed.

Lemma asin_sin_alt_45_0_0 : asin (sin_alt 45 0 0) = PI / 4.
Proof.
  rewrite sin_alt_45_0_0. apply asin_sin.
  pose proof PI_RGT_0. lra.
Qed.

Lemma azimuth_divisor_45_0_0 : azimuth_divisor 45 0 0 = 1 / sqrt 2.
Proof.
  unfold azimuth_divisor.
  rewrite asin_sin_alt_45_0_0, deg2rad_0, cos_0, cos_PI4. ring.
Qed.

Lemma RA_DEC_to_ALT_AZ_45_0_0 : RA_DEC_to_ALT_AZ 0 45 0 0 = Ok (45, 360).
Proof.
  rewrite RA_DEC_to_ALT_AZ_R.
  rewrite azimuth_divisor_45_0_0, asin_sin_alt_45_0_0.
  rewrite (truediv_R_nonzero _ inv_sqrt2_neq_0). cbn [bind].
  rewrite deg2rad_0, deg2rad_45, sin_0, sin_PI4.
  replace ((1 / sqrt 2 - 1 / sqrt 2 * 0) / (1 / sqrt 2)) with 1.
  2: { generalize inv_sqrt2_neq_0. generalize (1 / sqrt 2).
       intros q Hq. field. exact Hq. }
  unfold math_acos.
  rewrite (@out_of_domain_R_false 1) by lra. cbn [bind facos RealFloat].
  rewrite acos_1, rad2deg_0, rad2deg_PI4.
  rewrite fltb_R_false by lra.
  f_equal. f_equal. ring.
Qed.

End CoordinateTransformCases.

(** ** Rounding in binary64 *)

Section Rounding.

Import Binary64.

Lemma math_radians_8_binary64 (m : Libm) :
  @math_radians _ (binary64 m) (Alt star_8_10) = rad_8.
Proof. vm_compute. reflexivity. Qed.

Lemma math_radians_az_binary64 (m : Libm) :
  @fsub _ (binary64 m) (@math_radians _ (binary64 m) (Az star_8_10))
                       (@math_radians _ (binary64 m) (Az star_8_10))
  = PrimFloat.zero.
Proof. vm_compute. reflexivity. Qed.

(** With any C library that rounds the sine and the cosine of 8 degrees
    correctly, the separation of a star from itself has a cosine above 1. *)
Lemma cos_angle_self_binary64 (m : Libm) :
  libm_sin m rad_8 = sin_rad_8 ->
  libm_cos m rad_8 = cos_rad_8 ->
  libm_cos m PrimFloat.zero = PrimFloat.one ->
  @cos_angle _ (binary64 m) star_8_10 star_8_10 = one_plus_ulp.
Proof.
  intros Hs Hc H0. unfold cos_angle.
  rewrite math_radians_az_binary64, math_radians_8_binary64.
  cbn [fsin fcos binary64]. rewrite Hs, Hc, H0.
  vm_compute. reflexivity.
Qed.

Lemma out_of_domain_one_plus_ulp (m : Libm) :
  @out_of_domain _ (binary64 m) one_plus_ulp = true.
Proof. vm_compute. reflexivity. Qed.

Lemma angle_self_binary64 (m : Libm) :
  libm_sin m rad_8 = sin_rad_8 ->
  libm_cos m rad_8 = cos_rad_8 ->
  libm_cos m PrimFloat.zero = PrimFloat.one ->
  @angle _ (binary64 m) star_8_10 star_8_10 = Raise ValueError.
Proof.
  intros Hs Hc H0. unfold angle, math_acos.
  rewrite (cos_angle_self_binary64 m Hs Hc H0), out_of_domain_one_plus_ulp.
  reflexivity.
Qed.

End Rounding.

(** ** The azimuth step: zero divisor and range *)

Section AzimuthDivision.

Context {F : Type} {PF : PyFloat F}.

(** C3 (as amended): the division of the azimuth step has no guard and no
    sentinel. Once [math.asin] has returned the altitude, the call ends in
    one of three ways, decided by the divisor [cos(alt) * cos(lat)] and the
    quotient as they were computed: ZeroDivisionError when the divisor is
    zero, ValueError when the quotient is outside [-1, 1], and otherwise
    the pair computed from the quotient like any other, however small the
    divisor. *)
Theorem RA_DEC_to_ALT_AZ_division_unguarded (raD decD haD latD alt : F) :
  math_asin (sin_alt decD haD latD) = Ok alt ->
  let divisor := fmul (fcos alt) (fcos (deg2rad latD)) in
  let cos_a :=
    fdiv (fsub (fsin (deg2rad decD)) (fmul (fsin alt) (fsin (deg2rad latD))))
         divisor in
  (feqb divisor (of_int 0) = true ->
   RA_DEC_to_ALT_AZ raD decD haD latD = Raise ZeroDivisionError) /\
  (feqb divisor (of_int 0) = false -> out_of_domain cos_a = true ->
   RA_DEC_to_ALT_AZ raD decD haD latD = Raise ValueError) /\
  (feqb divisor (of_int 0) = false -> out_of_domain cos_a = false ->
   RA_DEC_to_ALT_AZ raD decD haD latD
   = Ok (rad2deg alt,
         if fltb (fsin (deg2rad haD)) (of_int 0)
         then rad2deg (facos cos_a)
         else fsub (of_int 360) (rad2deg (facos cos_a)))).
Proof.
  intros Ha divisor cos_a.
  unfold RA_DEC_to_ALT_AZ. rewrite Ha. cbn [bind].
  unfold truediv. fold divisor.
  split; [| split].
  - intros Hz. rewrite Hz. reflexivity.
  - intros Hz Hq. rewrite Hz. cbn [bind]. fold cos_a.
    unfold math_acos. rewrite Hq. reflexivity.
  - intros Hz Hq. rewrite Hz. cbn [bind]. fold cos_a.
    unfold math_acos. rewrite Hq. reflexivity.
Qed.

End AzimuthDivision.

Section AzimuthStep.

Local Open Scope R_scope.

Lemma deg2rad_90 : deg2rad 90 = PI / 2.
Proof. rewrite deg2rad_R. field. Qed.

Lemma azimuth_divisor_pole : azimuth_divisor 0 0 90 = 0.
Proof.
  unfold azimuth_divisor. rewrite deg2rad_90, cos_PI2. ring.
Qed.

(** In binary64 [math.cos] is never 0, and at the singular points, where
    the exact divisor is 0, the division goes through. Observer at the
    north pole, object on the celestial equator: altitude [3.5e-15],
    azimuth [180.0]. Object at the zenith of an observer on the equator:
    altitude [90.0], azimuth [270.0]. *)
Lemma RA_DEC_to_ALT_AZ_division_unguarded_binary64 :
  (azimuth_divisor 0 0 90 = 0 /\
   Binary64.RA_DEC_to_ALT_AZ_deg 0 0 0 90
   = Ok (Binary64.alt_at_pole, Binary64.f180)) /\
  (azimuth_divisor 0 0 0 = 0 /\
   Binary64.RA_DEC_to_ALT_AZ_deg 0 0 0 0
   = Ok (Binary64.f90, Binary64.f270)).
Proof.
  split; (split; [first [exact azimuth_divisor_pole
                        | exact (azimuth_divisor_zenith 0)] |]).
  - assert (Ha : @math_asin _ Binary64.table64
                   (@sin_alt _ Binary64.table64
                      (Binary64.float_of_int 0) (Binary64.float_of_int 0)
                      (Binary64.float_of_int 90))
                 = Ok Binary64.cos_half_pi)
      by (vm_compute; reflexivity).
    pose proof (@RA_DEC_to_ALT_AZ_division_unguarded
                  _ Binary64.table64 (Binary64.float_of_int 0)
                  (Binary64.float_of_int 0) (Binary64.float_of_int 0)
                  (Binary64.float_of_int 90) _ Ha) as T.
    cbv zeta in T. destruct T as (_ & _ & T).
    etransitivity;
      [apply T; vm_compute; reflexivity | vm_compute; reflexivity].
  - assert (Ha : @math_asin _ Binary64.table64
                   (@sin_alt _ Binary64.table64
                      (Binary64.float_of_int 0) (Binary64.float_of_int 0)
                      (Binary64.float_of_int 0))
                 = Ok Binary64.half_pi)
      by (vm_compute; reflexivity).
    pose proof (@RA_DEC_to_ALT_AZ_division_unguarded
                  _ Binary64.table64 (Binary64.float_of_int 0)
                  (Binary64.float_of_int 0) (Binary64.float_of_int 0)
                  (Binary64.float_of_int 0) _ Ha) as T.
    cbv zeta in T. destruct T as (_ & _ & T).
    etransitivity;
      [apply T; vm_compute; reflexivity | vm_compute; reflexivity].
Defined.

(** An object at the zenith (declination 8, latitude 8, hour angle 0),
    where the exact divisor is 0: in binary64 the sine of the altitude
    comes out as [1 + 2^-52] and the call raises ValueError in [math.asin],
    before the division. *)
Lemma RA_DEC_to_ALT_AZ_zenith_raises :
  azimuth_divisor 8 0 8 = 0 /\
  Binary64.RA_DEC_to_ALT_AZ_deg 0 8 0 8 = Raise ValueError.
Proof.
  split.
  - exact (azimuth_divisor_zenith 8).
  - vm_compute. reflexivity.
Qed.

(** What a returned pair was computed from. *)
Lemma RA_DEC_to_ALT_AZ_inv (raD decD haD latD alt az : R) :
  RA_DEC_to_ALT_AZ raD decD haD latD = Ok (alt, az) ->
  azimuth_divisor decD haD latD <> 0 /\
  alt = rad2deg (asin (sin_alt decD haD latD)) /\
  az = (if fltb (sin (deg2rad haD)) 0
        then rad2deg (acos ((sin (deg2rad decD)
                             - sin (asin (sin_alt decD haD latD))
                               * sin (deg2rad latD))
                            / azimuth_divisor decD haD latD))
        else 360 - rad2deg (acos ((sin (deg2rad decD)
                                   - sin (asin (sin_alt decD haD latD))
                                     * sin (deg2rad latD))
                                  / azimuth_divisor decD haD latD))).
Proof.
  rewrite RA_DEC_to_ALT_AZ_R.
  destruct (Req_dec_T (azimuth_divisor decD haD latD) 0) as [Z | NZ].
  - rewrite (truediv_R_zero _ Z). discriminate.
  - rewrite (truediv_R_nonzero _ NZ). cbn [bind]. unfold math_acos.
    rewrite (out_of_domain_R_false (cos_a_bound NZ)). cbn [bind].
    intros H.
    assert (E : forall p q : R * R, Ok p = Ok q -> p = q)
      by (intros p q Hpq; injection Hpq as ->; reflexivity).
    apply E in H.
    split; [exact NZ |]. split.
    + change alt with (fst (alt, az)). rewrite <- H. reflexivity.
    + change az with (snd (alt, az)). rewrite <- H. reflexivity.
Qed.

(** C5 (as amended): whenever [RA_DEC_to_ALT_AZ] returns, the altitude is
    in [-90, 90] and the azimuth in [0, 360], both ends included; no range
    of the inputs is needed for this. It need not return on a valid input
    away from the singularity: in binary64, declination 60 at hour angle 0
    seen from latitude 30 raises ValueError in [math.acos]. *)
Theorem RA_DEC_to_ALT_AZ_range :
  (forall raD decD haD latD alt az : R,
     RA_DEC_to_ALT_AZ raD decD haD latD = Ok (alt, az) ->
     -90 <= alt <= 90 /\ 0 <= az <= 360) /\
  Binary64.RA_DEC_to_ALT_AZ_deg 0 60 0 30 = Raise ValueError.
Proof.
  split; [| vm_compute; reflexivity].
  intros raD decD haD latD alt az H.
  apply RA_DEC_to_ALT_AZ_inv in H. destruct H as (_ & -> & ->).
  split.
  - pose proof (asin_bound (sin_alt decD haD latD)) as [B1 B2].
    apply rad2deg_monotone in B1. apply rad2deg_monotone in B2.
    rewrite rad2deg_opp_PI2 in B1. rewrite rad2deg_PI2 in B2. lra.
  - match goal with |- context [rad2deg (acos ?x)] =>
      pose proof (acos_bound x) as [B1 B2] end.
    apply rad2deg_monotone in B1. apply rad2deg_monotone in B2.
    rewrite rad2deg_0 in B1. rewrite rad2deg_PI in B2.
    destruct (fltb _ _); lra.
Qed.

Lemma azimuth_divisor_45_0_0_nonzero : azimuth_divisor 45 0 0 <> 0.
Proof. rewrite azimuth_divisor_45_0_0. exact inv_sqrt2_neq_0. Qed.

Lemma RA_DEC_to_ALT_AZ_range_45_0_0 :
  RA_DEC_to_ALT_AZ 0 45 0 0 = Ok (45, 360) /\
  (-90 <= 45 <= 90 /\ 0 <= 360 <= 360).
Proof.
  split.
  - exact RA_DEC_to_ALT_AZ_45_0_0.
  - exact (proj1 RA_DEC_to_ALT_AZ_range 0 45 0 0 45 360
                 RA_DEC_to_ALT_AZ_45_0_0).
Defined.

(** Declination 45, hour angle 0, observer on the equator: a valid input
    away from the singularity, whose azimuth is 360, outside [0, 360); in
    binary64 the azimuth is [360.0] as well. *)
Lemma RA_DEC_to_ALT_AZ_azimuth_360 :
  azimuth_divisor 45 0 0 <> 0 /\
  RA_DEC_to_ALT_AZ 0 45 0 0 = Ok (45, 360) /\
  ~ (exists alt az : R,
       RA_DEC_to_ALT_AZ 0 45 0 0 = Ok (alt, az) /\
       -90 <= alt <= 90 /\ 0 <= az < 360) /\
  Binary64.RA_DEC_to_ALT_AZ_deg 0 45 0 0
    = Ok (Binary64.after_45, Binary64.f360).
Proof.
  split; [exact azimuth_divisor_45_0_0_nonzero |].
  split; [exact RA_DEC_to_ALT_AZ_45_0_0 |].
  split; [| vm_compute; reflexivity].
  intros (alt & az & E & _ & _ & H).
  rewrite RA_DEC_to_ALT_AZ_45_0_0 in E. injection E as E1 E2. lra.
Qed.

End AzimuthStep.

(** ** Arguments of the inverse trigonometric calls *)

Section InverseTrigArguments.

Context {F : Type} {PF : PyFloat F}.

(** C4 (as amended): no argument of an inverse trigonometric call is
    clamped. The computed value goes to [math.asin] or [math.acos] as it is,
    and when it lies outside [-1, 1] the function raises ValueError: in
    [angle], in the altitude step of [RA_DEC_to_ALT_AZ], and in its azimuth
    step. *)
Theorem inverse_trig_arguments_not_clamped :
  (forall s1 s2 : Star F,
     out_of_domain (cos_angle s1 s2) = true ->
     angle s1 s2 = Raise ValueError) /\
  (forall raD decD haD latD : F,
     out_of_domain (sin_alt decD haD latD) = true ->
     RA_DEC_to_ALT_AZ raD decD haD latD = Raise ValueError) /\
  (forall raD decD haD latD alt cos_a : F,
     math_asin (sin_alt decD haD latD) = Ok alt ->
     truediv (fsub (fsin (deg2rad decD))
                   (fmul (fsin alt) (fsin (deg2rad latD))))
             (fmul (fcos alt) (fcos (deg2rad latD))) = Ok cos_a ->
     out_of_domain cos_a = true ->
     RA_DEC_to_ALT_AZ raD decD haD latD = Raise ValueError).
Proof.
  split; [| split].
  - intros s1 s2 H. unfold angle, math_acos. rewrite H. reflexivity.
  - intros raD decD haD latD H.
    unfold RA_DEC_to_ALT_AZ, math_asin. rewrite H. reflexivity.
  - intros raD decD haD latD alt cos_a Ha Hc H.
    unfold RA_DEC_to_ALT_AZ. rewrite Ha. cbn [bind]. rewrite Hc. cbn [bind].
    unfold math_acos. rewrite H. reflexivity.
Qed.

End InverseTrigArguments.

Section InverseTrigArgumentsBinary64.

Import Binary64.

(** In binary64: a star compared with itself, an object at the zenith, and
    an object on the meridian north of the zenith (declination 60, latitude
    30) each hand an argument just above 1 to the inverse function. *)
Lemma inverse_trig_arguments_not_clamped_binary64 :
  angle star_8_10 star_8_10 = Raise ValueError /\
  RA_DEC_to_ALT_AZ_deg 0 8 0 8 = Raise ValueError /\
  RA_DEC_to_ALT_AZ_deg 0 60 0 30 = Raise ValueError.
Proof.
  destruct (@inverse_trig_arguments_not_clamped PrimFloat.float table64)
    as (Hangle & Hasin & Hacos).
  split; [| split].
  - apply Hangle. vm_compute. reflexivity.
  - apply Hasin. vm_compute. reflexivity.
  - apply (Hacos _ _ _ _ alt_60_0_30 one_plus_ulp);
      vm_compute; reflexivity.
Defined.

(** A star at altitude 8 compared with itself: the cosine handed to
    [math.acos] is [1 + 2^-52], and [angle] raises instead of returning. *)
Lemma angle_self_raises_binary64 :
  cos_angle star_8_10 star_8_10 = one_plus_ulp /\
  out_of_domain one_plus_ulp = true /\
  angle star_8_10 star_8_10 = Raise ValueError.
Proof.
  split; [| split]; vm_compute; reflexivity.
Qed.

End InverseTrigArgumentsBinary64.

(** ** [sorted]: permutation, order and stability *)

Section SortedFacts.

Variables (A K : Type) (ltb : K -> K -> bool) (key : A -> K).

Hypothesis ltb_asym : forall k1 k2, ltb k1 k2 = true -> ltb k2 k1 = false.
Hypothesis ltb_negtrans : forall k1 k2 k3,
  ltb k2 k1 = false -> ltb k3 k2 = false -> ltb k3 k1 = false.

Lemma insert_by_key_perm (x : A) (l : list A) :
  Permutation (insert_by_key ltb key x l) (x :: l).
Proof.
  induction l as [| y ys IH]; cbn.
  - apply Permutation_refl.
  - destruct (ltb (key y) (key x)).
    + eapply Permutation_trans; [apply perm_skip, IH | apply perm_swap].
    + apply Permutation_refl.
Qed.

Lemma sort_by_key_perm (l : list A) : Permutation (sort_by_key ltb key l) l.
Proof.
  induction l as [| x xs IH]; cbn.
  - apply perm_nil.
  - eapply Permutation_trans; [apply insert_by_key_perm |].
    apply perm_skip, IH.
Qed.

Lemma insert_by_key_sorted (x : A) (l : list A) :
  StronglySorted (fun a b => not_below ltb key b a) l -> StronglySorted (fun a b => not_below ltb key b a) (insert_by_key ltb key x l).
Proof.
  induction l as [| y ys IH]; intros Hs; cbn.
  - constructor; constructor.
  - apply StronglySorted_inv in Hs. destruct Hs as [Hys Hy].
    destruct (ltb (key y) (key x)) eqn:E.
    + constructor; [apply IH, Hys |].
      apply (Permutation_Forall (Permutation_sym (insert_by_key_perm x ys))).
      constructor; [| exact Hy].
      unfold not_below. apply ltb_asym, E.
    + constructor; [constructor; assumption |].
      constructor; [exact E |].
      rewrite Forall_forall in *. intros z Hz.
      unfold not_below in *. apply ltb_negtrans with (key y); auto.
Qed.

Lemma sort_by_key_sorted (l : list A) : StronglySorted (fun a b => not_below ltb key b a) (sort_by_key ltb key l).
Proof.
  induction l as [| x xs IH]; cbn.
  - constructor.
  - apply insert_by_key_sorted, IH.
Qed.

Lemma same_key_not_separated (k : K) (x y : A) :
  same_key ltb k (key x) = true -> same_key ltb k (key y) = true ->
  ltb (key y) (key x) = false.
Proof.
  unfold same_key. rewrite !andb_true_iff, !negb_true_iff.
  intros [H1 H2] [H3 H4]. apply ltb_negtrans with k; assumption.
Qed.

Lemma insert_by_key_stable (k : K) (x : A) (l : list A) :
  filter (fun a => same_key ltb k (key a)) (insert_by_key ltb key x l)
  = filter (fun a => same_key ltb k (key a)) (x :: l).
Proof.
  induction l as [| y ys IH]; [reflexivity |].
  cbn [insert_by_key]. destruct (ltb (key y) (key x)) eqn:E; [| reflexivity].
  cbn [filter] in *. rewrite IH.
  destruct (same_key ltb k (key x)) eqn:Ex;
    destruct (same_key ltb k (key y)) eqn:Ey; try reflexivity.
  rewrite (same_key_not_separated k x y Ex Ey) in E. discriminate.
Qed.

Lemma sort_by_key_stable (k : K) (l : list A) :
  filter (fun a => same_key ltb k (key a)) (sort_by_key ltb key l)
  = filter (fun a => same_key ltb k (key a)) l.
Proof.
  induction l as [| x xs IH]; [reflexivity |].
  cbn [sort_by_key]. rewrite insert_by_key_stable.
  cbn [filter]. rewrite IH. reflexivity.
Qed.

Lemma StronglySorted_snoc (R : A -> A -> Prop) (l : list A) (x : A) :
  StronglySorted R l -> Forall (fun y => R y x) l ->
  StronglySorted R (l ++ [x]).
Proof.
  induction l as [| y ys IH]; intros Hs Hx; cbn.
  - constructor; constructor.
  - apply StronglySorted_inv in Hs. destruct Hs as [Hys Hy].
    inversion Hx; subst.
    constructor; [apply IH; assumption |].
    apply Forall_app. split; [assumption | constructor; [assumption | constructor]].
Qed.

Lemma StronglySorted_rev (R : A -> A -> Prop) (l : list A) :
  StronglySorted R l -> StronglySorted (fun a b => R b a) (rev l).
Proof.
  induction 1 as [| x xs Hxs IH Hx]; cbn.
  - constructor.
  - apply StronglySorted_snoc; [exact IH |].
    apply Forall_rev. exact Hx.
Qed.

(** [sorted(l, key=key, reverse=True)] is a permutation of [l], in
    descending order of keys, with equal keys in their order in [l]. *)
Lemma sorted_reverse_perm (l : list A) :
  Permutation (sorted ltb key true l) l.
Proof.
  unfold sorted.
  eapply Permutation_trans; [apply Permutation_sym, Permutation_rev |].
  eapply Permutation_trans; [apply sort_by_key_perm |].
  apply Permutation_sym, Permutation_rev.
Qed.

Lemma sorted_reverse_descending (l : list A) :
  StronglySorted (not_below ltb key) (sorted ltb key true l).
Proof.
  unfold sorted.
  apply (StronglySorted_rev (R := fun a b => not_below ltb key b a)). apply sort_by_key_sorted.
Qed.

Lemma sorted_reverse_stable (k : K) (l : list A) :
  filter (fun a => same_key ltb k (key a)) (sorted ltb key true l)
  = filter (fun a => same_key ltb k (key a)) l.
Proof.
  unfold sorted.
  rewrite filter_rev, sort_by_key_stable, filter_rev, rev_involutive.
  reflexivity.
Qed.

End SortedFacts.

(** [sorted([(1,"a"), (2,"b"), (1,"c"), (2,"d")], key=fst, reverse=True)]
    is [[(2,"b"), (2,"d"), (1,"a"), (1,"c")]]. *)
Example sorted_reverse_keeps_ties :
  sorted Nat.ltb fst true [(1, "a"); (2, "b"); (1, "c"); (2, "d")]%string
  = [(2, "b"); (2, "d"); (1, "a"); (1, "c")]%string.
Proof. reflexivity. Qed.

(** ** Visible stars *)

Section VisibleStars.

Local Open Scope R_scope.

Lemma fltb_R_asym (k1 k2 : R) : fltb k1 k2 = true -> fltb k2 k1 = false.
Proof. rewrite fltb_R_spec. intros H. apply fltb_R_false. lra. Qed.

Lemma fltb_R_not (x y : R) : fltb x y = false <-> y <= x.
Proof.
  split; [| apply fltb_R_false].
  intros H. destruct (Rle_dec y x) as [L | L]; [exact L |].
  rewrite fltb_R_true in H; [discriminate | lra].
Qed.

Lemma fltb_R_negtrans (k1 k2 k3 : R) :
  fltb k2 k1 = false -> fltb k3 k2 = false -> fltb k3 k1 = false.
Proof. rewrite !fltb_R_not. lra. Qed.

Lemma same_key_R (k x : R) : same_key fltb k x = feqb x k.
Proof.
  unfold same_key.
  destruct (feqb x k) eqn:E.
  - apply feqb_R_spec in E. subst x.
    rewrite !fltb_R_false by lra. reflexivity.
  - destruct (fltb k x) eqn:E1; [reflexivity |].
    destruct (fltb x k) eqn:E2; [reflexivity |].
    apply fltb_R_not in E1, E2.
    assert (H : x = k) by lra. apply feqb_R_spec in H. congruence.
Qed.

Lemma StronglySorted_weaken (A : Type) (P Q : A -> A -> Prop) (l : list A) :
  (forall a b, P a b -> Q a b) -> StronglySorted P l -> StronglySorted Q l.
Proof.
  intros HPQ. induction 1 as [| x xs Hxs IH Hx]; constructor.
  - exact IH.
  - eapply Forall_impl; [| exact Hx]. intros b. apply HPQ.
Qed.

Lemma append_if_is_filter (A : Type) (p : A -> bool) (l acc : list A) :
  fold_left (fun suitable star => if p star then suitable ++ [star] else suitable)
            l acc
  = acc ++ filter p l.
Proof.
  revert acc. induction l as [| x xs IH]; intros acc; cbn.
  - rewrite app_nil_r. reflexivity.
  - rewrite IH. destruct (p x); [| reflexivity].
    rewrite <- app_assoc. reflexivity.
Qed.

Lemma get_suitable_stars_R (LOW_ANGLE : R) (all_stars : list (Star R)) :
  get_suitable_stars LOW_ANGLE all_stars
  = sorted fltb (fun s => Alt s) true
           (filter (fun s => fleb LOW_ANGLE (Alt s)) all_stars).
Proof.
  unfold get_suitable_stars.
  rewrite (append_if_is_filter (fun s : Star R => fleb LOW_ANGLE (Alt s))).
  reflexivity.
Qed.

(** C7: [get_suitable_stars] returns exactly the stars whose altitude is at
    least the threshold, in descending order of altitude, stars of equal
    altitude in catalogue order; an empty catalogue gives an empty list. *)
Theorem get_suitable_stars_correct (LOW_ANGLE : R) (all_stars : list (Star R)) :
  Permutation (get_suitable_stars LOW_ANGLE all_stars)
              (filter (fun s => fleb LOW_ANGLE (Alt s)) all_stars) /\
  (forall s : Star R,
     In s (get_suitable_stars LOW_ANGLE all_stars) <->
     In s all_stars /\ LOW_ANGLE <= Alt s) /\
  StronglySorted (fun a b => Alt b <= Alt a)
                 (get_suitable_stars LOW_ANGLE all_stars) /\
  (forall a : R,
     filter (fun s => feqb (Alt s) a) (get_suitable_stars LOW_ANGLE all_stars)
     = filter (fun s => feqb (Alt s) a)
              (filter (fun s => fleb LOW_ANGLE (Alt s)) all_stars)) /\
  get_suitable_stars LOW_ANGLE [] = [].
Proof.
  rewrite get_suitable_stars_R.
  split; [| split; [| split; [| split]]].
  - apply sorted_reverse_perm.
  - intros s. rewrite <- fleb_R_spec.
    rewrite <- (filter_In (fun s : Star R => fleb LOW_ANGLE (Alt s))).
    split; apply Permutation_in;
      [| apply Permutation_sym]; apply sorted_reverse_perm.
  - eapply StronglySorted_weaken;
      [| apply (@sorted_reverse_descending _ _ fltb (fun s : Star R => Alt s)
                  fltb_R_asym fltb_R_negtrans)].
    intros a b H. apply fltb_R_not. exact H.
  - intros a.
    rewrite !(filter_ext (fun s : Star R => feqb (Alt s) a)
                         (fun s => same_key fltb a (Alt s)))
      by (intros s; symmetry; apply same_key_R).
    apply (@sorted_reverse_stable _ _ fltb (fun s : Star R => Alt s)
             fltb_R_negtrans).
  - reflexivity.
Qed.

End VisibleStars.

(** ** [itertools.combinations] over a range *)

Section Combinations.

Lemma combinations_seq_step (a n r : nat) :
  combinations (seq a (S n)) (S r)
  = map (cons a) (combinations (seq (S a) n) r)
    ++ combinations (seq (S a) n) (S r).
Proof. reflexivity. Qed.

Lemma combinations_zero (A : Type) (pool : list A) : combinations pool 0 = [[]].
Proof. destruct pool; reflexivity. Qed.

Lemma increasing_weaken (lo lo' hi : nat) (c : list nat) :
  lo' <= lo -> increasing lo hi c -> increasing lo' hi c.
Proof.
  destruct c as [| x c']; cbn; [auto |]. intros H [H1 H2]. split; [lia | exact H2].
Qed.

(** The combinations of [r] elements of a range are the increasing lists
    of [r] indices in the range. *)
Lemma combinations_seq_spec (n : nat) :
  forall (a r : nat) (c : list nat),
    In c (combinations (seq a n) r) <->
    List.length c = r /\ increasing a (a + n) c.
Proof.
  induction n as [| n IH]; intros a r c.
  - cbn [seq]. destruct r as [| r]; cbn.
    + split.
      * intros [<- | []]. split; [reflexivity | exact I].
      * intros [H _]. left. destruct c; [reflexivity | discriminate].
    + split; [intros [] |]. intros [H1 H2].
      destruct c as [| x c']; [discriminate |]. cbn in H2. lia.
  - destruct r as [| r].
    + rewrite combinations_zero. cbn. split.
      * intros [<- | []]. split; [reflexivity | exact I].
      * intros [H _]. left. destruct c; [reflexivity | discriminate].
    + rewrite combinations_seq_step, in_app_iff, in_map_iff. split.
      * intros [(c' & <- & Hc') | Hc].
        -- apply IH in Hc'. destruct Hc' as [Hl Hi]. split; [cbn; lia |].
           cbn. split; [lia |].
           replace (a + S n) with (S a + n) by lia. exact Hi.
        -- apply IH in Hc. destruct Hc as [Hl Hi]. split; [exact Hl |].
           replace (a + S n) with (S a + n) by lia.
           apply increasing_weaken with (S a); [lia | exact Hi].
      * intros [Hl Hi]. destruct c as [| x c']; [discriminate |].
        cbn in Hl, Hi. destruct Hi as [Hx Hi].
        replace (a + S n) with (S a + n) in * by lia.
        destruct (Nat.eq_dec x a) as [-> | Hne].
        -- left. exists c'. split; [reflexivity |].
           apply IH. split; [lia | exact Hi].
        -- right. apply IH. split; [cbn; lia |]. cbn. split; [lia | exact Hi].
Qed.

Lemma StronglySorted_app (A : Type) (R : A -> A -> Prop) (l1 l2 : list A) :
  StronglySorted R l1 -> StronglySorted R l2 ->
  (forall x y, In x l1 -> In y l2 -> R x y) ->
  StronglySorted R (l1 ++ l2).
Proof.
  induction l1 as [| x xs IH]; intros H1 H2 H; cbn; [exact H2 |].
  apply StronglySorted_inv in H1. destruct H1 as [Hxs Hx].
  constructor.
  - apply IH; [exact Hxs | exact H2 |]. intros u v Hu Hv. apply H; [right |]; assumption.
  - apply Forall_app. split; [exact Hx |].
    apply Forall_forall. intros y Hy. apply H; [left; reflexivity | exact Hy].
Qed.

Lemma StronglySorted_map_cons (a : nat) (l : list (list nat)) :
  StronglySorted lex_lt l -> StronglySorted lex_lt (map (cons a) l).
Proof.
  induction 1 as [| x xs Hxs IH Hx]; cbn; constructor.
  - exact IH.
  - apply Forall_forall. intros y Hy. apply in_map_iff in Hy.
    destruct Hy as (y' & <- & Hy'). apply lex_lt_tail.
    rewrite Forall_forall in Hx. apply Hx, Hy'.
Qed.

(** [itertools.combinations] emits the index lists in lexicographic
    order, lowest index first. *)
Lemma combinations_seq_lex (n : nat) :
  forall a r : nat, StronglySorted lex_lt (combinations (seq a n) r).
Proof.
  induction n as [| n IH]; intros a r.
  - destruct r; cbn; repeat constructor.
  - destruct r as [| r].
    + rewrite combinations_zero. repeat constructor.
    + rewrite combinations_seq_step. apply StronglySorted_app.
      * apply StronglySorted_map_cons, IH.
      * apply IH.
      * intros x y Hx Hy. apply in_map_iff in Hx.
        destruct Hx as (x' & <- & _).
        apply combinations_seq_spec in Hy. destruct Hy as [Hl Hi].
        destruct y as [| y0 y']; [discriminate |].
        cbn in Hi. apply lex_lt_head. lia.
Qed.

Lemma lex_lt_irrefl (l : list nat) : ~ lex_lt l l.
Proof.
  induction l as [| x xs IH]; intros H; inversion H; subst; [lia | auto].
Qed.

Lemma StronglySorted_NoDup (A : Type) (R : A -> A -> Prop) (l : list A) :
  (forall x, ~ R x x) -> StronglySorted R l -> NoDup l.
Proof.
  intros Hirr. induction 1 as [| x xs Hxs IH Hx]; constructor; [| exact IH].
  intros Hin. rewrite Forall_forall in Hx. exact (Hirr x (Hx x Hin)).
Qed.

(** [list(itertools.combinations(range(4), 3))] *)
Example combinations_range_4 :
  combinations (seq 0 4) 3 = [[0; 1; 2]; [0; 1; 3]; [0; 2; 3]; [1; 2; 3]].
Proof. reflexivity. Qed.

End Combinations.

(** ** The dict of triples *)

Section Triples.

Local Open Scope R_scope.

Lemma index3_eqb_spec (a b : index3) : index3_eqb a b = true <-> a = b.
Proof.
  destruct a as [[a0 a1] a2], b as [[b0 b1] b2]. unfold index3_eqb.
  rewrite !andb_true_iff, !Nat.eqb_eq. split.
  - intros [[-> ->] ->]. reflexivity.
  - intros H. injection H as -> -> ->. auto.
Qed.

Lemma setitem_fresh (V : Type) (d : list (index3 * V)) (k : index3) (v : V) :
  ~ In k (map fst d) -> setitem d k v = d ++ [(k, v)].
Proof.
  induction d as [| [k' v'] rest IH]; intros Hk; cbn; [reflexivity |].
  destruct (index3_eqb k' k) eqn:E.
  - apply index3_eqb_spec in E. subst k'. exfalso. apply Hk. left. reflexivity.
  - rewrite IH; [reflexivity |]. intros H. apply Hk. right. exact H.
Qed.

Lemma getitem_in_range (A : Type) (l : list A) (i : nat) :
  (i < List.length l)%nat ->
  exists a, nth_error l i = Some a /\ getitem l i = Ok a.
Proof.
  intros H. unfold getitem.
  destruct (nth_error l i) as [a |] eqn:E.
  - exists a. split; reflexivity.
  - apply nth_error_None in E. lia.
Qed.

Lemma getitem_nth_error (A : Type) (l : list A) (i : nat) (a : A) :
  nth_error l i = Some a -> getitem l i = Ok a.
Proof. intros H. unfold getitem. rewrite H. reflexivity. Qed.

Lemma fill_triples_spec (stars : list (Star R)) :
  forall (combos : list (list nat)) (acc : list (index3 * R)),
    Forall (fun c => List.length c = 3%nat
                     /\ increasing 0 (List.length stars) c) combos ->
    NoDup (map fst acc ++ map as_index3 combos) ->
    exists rows : list (index3 * R),
      fill_triples stars combos acc = Ok (acc ++ rows) /\
      map fst rows = map as_index3 combos /\
      Forall (scored stars) rows.
Proof.
  induction combos as [| c rest IH]; intros acc Hc Hnd.
  - exists []. rewrite app_nil_r. repeat split; constructor.
  - inversion Hc as [| c0 rest0 [Hlen Hinc] Hrest]; subst.
    destruct c as [| i [| j [| k [| x c']]]]; try discriminate.
    cbn in Hinc. destruct Hinc as (Hi & Hj & Hk & _).
    destruct (@getitem_in_range _ stars i) as (si & Ni & Gi); [lia |].
    destruct (@getitem_in_range _ stars j) as (sj & Nj & Gj); [lia |].
    destruct (@getitem_in_range _ stars k) as (sk & Nk & Gk); [lia |].
    cbn [fill_triples]. rewrite Gi, Gj, Gk. cbn [bind].
    rewrite area_R. cbn [bind].
    cbn [map as_index3] in Hnd.
    rewrite setitem_fresh.
    2: { intros Hin. apply NoDup_remove_2 in Hnd. apply Hnd.
         apply in_or_app. left. exact Hin. }
    destruct (IH (acc ++ [((i, j, k), area_value si sj sk)]) Hrest)
      as (rows & E & Hkeys & Hsc).
    { rewrite map_app. cbn [map fst]. rewrite <- app_assoc. exact Hnd. }
    exists (((i, j, k), area_value si sj sk) :: rows).
    split; [etransitivity; [exact E |]; rewrite <- app_assoc; reflexivity |].
    split; [cbn [map fst as_index3]; rewrite Hkeys; reflexivity |].
    constructor; [| exact Hsc].
    exists si, sj, sk. repeat split; try assumption. apply area_R.
Qed.

Lemma combinations3_shape (n : nat) :
  Forall (fun c => List.length c = 3%nat /\ increasing 0 n c)
         (combinations (seq 0 n) 3).
Proof.
  apply Forall_forall. intros c Hc.
  apply combinations_seq_spec in Hc. exact Hc.
Qed.

Lemma StronglySorted_as_index3 (combos : list (list nat)) :
  Forall (fun c => List.length c = 3%nat) combos ->
  StronglySorted lex_lt combos ->
  StronglySorted index3_lt (map as_index3 combos).
Proof.
  intros Hlen Hs. induction Hs as [| c rest Hrest IH Hc]; cbn; constructor.
  - apply IH. inversion Hlen; assumption.
  - apply Forall_forall. intros t Ht. apply in_map_iff in Ht.
    destruct Ht as (c' & <- & Hc').
    rewrite Forall_forall in Hc, Hlen.
    pose proof (Hc c' Hc') as Hlt.
    pose proof (Hlen c (or_introl eq_refl)) as L1.
    pose proof (Hlen c' (or_intror Hc')) as L2.
    destruct c as [| i [| j [| k [| x c0]]]]; try discriminate.
    destruct c' as [| i' [| j' [| k' [| x' c0']]]]; try discriminate.
    exact Hlt.
Qed.

Lemma index3_lt_irrefl (t : index3) : ~ index3_lt t t.
Proof. unfold index3_lt. apply lex_lt_irrefl. Qed.

Lemma combinations3_keys_sorted (n : nat) :
  StronglySorted index3_lt (map as_index3 (combinations (seq 0 n) 3)).
Proof.
  apply StronglySorted_as_index3; [| apply combinations_seq_lex].
  eapply Forall_impl; [| apply combinations3_shape].
  intros c [H _]. exact H.
Qed.

Lemma combinations3_keys (n i j k : nat) :
  In (i, j, k) (map as_index3 (combinations (seq 0 n) 3)) <->
  (i < j < k /\ k < n)%nat.
Proof.
  rewrite in_map_iff. split.
  - intros (c & E & Hc). apply combinations_seq_spec in Hc.
    destruct Hc as [Hlen Hinc].
    destruct c as [| i' [| j' [| k' [| x c']]]]; try discriminate.
    cbn in E. injection E as -> -> ->. cbn in Hinc. lia.
  - intros H. exists [i; j; k]. split; [reflexivity |].
    apply combinations_seq_spec. split; [reflexivity |]. cbn. lia.
Qed.

End Triples.

(** ** The ranked listing *)

Section Ranking.

Local Open Scope R_scope.

Lemma print_triples_spec (stars : list (Star R)) (NUMBER : Z) :
  forall (rows : list (index3 * R)) (index : Z),
    (index <= NUMBER)%Z ->
    Forall (scored stars) rows ->
    exists lines : list output,
      print_triples stars NUMBER rows index = Ok lines /\
      listing stars index
              (firstn (Z.to_nat (NUMBER - index + 1)) rows) lines.
Proof.
  induction rows as [| [[[i j] k] a] rest IH]; intros index Hle Hsc.
  - exists []. split; [reflexivity |].
    rewrite firstn_nil. constructor.
  - inversion Hsc as [| r0 rest0 Hrow Hrest]; subst.
    destruct Hrow as (s0 & s1 & s2 & N0 & N1 & N2 & _).
    cbn [print_triples fst snd].
    rewrite (getitem_nth_error _ _ N0), (getitem_nth_error _ _ N1),
            (getitem_nth_error _ _ N2).
    cbn [bind].
    replace (Z.to_nat (NUMBER - index + 1))
      with (S (Z.to_nat (NUMBER - index))) by lia.
    rewrite firstn_cons.
    destruct (index + 1 >? NUMBER)%Z eqn:E.
    + exists [Line index (Name s0) (Name s1) (Name s2) a].
      split; [reflexivity |].
      assert (H0 : Z.to_nat (NUMBER - index) = 0%nat) by lia.
      rewrite H0. cbn [firstn].
      apply listing_cons; try assumption. constructor.
    + destruct (IH (index + 1)%Z) as (lines & El & Hl); [lia | exact Hrest |].
      rewrite El. cbn [bind].
      exists (Line index (Name s0) (Name s1) (Name s2) a :: lines).
      split; [reflexivity |].
      apply listing_cons; try assumption.
      replace (NUMBER - index)%Z with (NUMBER - (index + 1) + 1)%Z by lia.
      exact Hl.
Qed.

Lemma descending_head_is_max (rows : list (index3 * R)) (r t : index3 * R) :
  StronglySorted (fun r1 r2 => snd r2 <= snd r1) rows ->
  hd_error rows = Some r -> In t rows -> snd t <= snd r.
Proof.
  intros Hs Hr Ht. destruct rows as [| r0 rest]; [discriminate |].
  cbn in Hr. injection Hr as ->.
  apply StronglySorted_inv in Hs. destruct Hs as [_ Hall].
  destruct Ht as [-> | Ht]; [lra |].
  rewrite Forall_forall in Hall. apply Hall, Ht.
Qed.

(** C6: for [NUMBER >= 1] (the source has [NUMBER = 15]), [best_stars]
    enters every index triple [i < j < k] once into [triples], in
    lexicographic order, each with the [area] of its three stars; [rows],
    the sorted items, is a permutation of [triples] in non-increasing order
    of area, rows of equal area in the order of [triples]; the lines
    printed are the first [NUMBER] rows (all of them if there are fewer),
    numbered from 1; and the area of the first row is at least the area of
    every triple. *)
Theorem best_stars_lists_largest_triangles
    (NUMBER : Z) (stars : list (Star R)) :
  (1 <= NUMBER)%Z ->
  exists (triples rows : list (index3 * R)) (lines : list output),
    best_stars_upto NUMBER stars
      = Ok (Heading NUMBER (List.length rows) :: lines) /\
    (forall i j k : nat,
       In (i, j, k) (map fst triples) <->
       (i < j < k /\ k < List.length stars)%nat) /\
    StronglySorted index3_lt (map fst triples) /\
    Forall (scored stars) triples /\
    Permutation rows triples /\
    StronglySorted (fun r1 r2 => snd r2 <= snd r1) rows /\
    (forall a : R,
       filter (fun r => feqb (snd r) a) rows
       = filter (fun r => feqb (snd r) a) triples) /\
    listing stars 1 (firstn (Z.to_nat NUMBER) rows) lines /\
    (forall r t : index3 * R,
       hd_error rows = Some r -> In t triples -> snd t <= snd r).
Proof.
  intros HN.
  pose proof (combinations3_keys_sorted (List.length stars)) as Hsorted.
  destruct (@fill_triples_spec stars
              (combinations (seq 0 (List.length stars)) 3) [])
    as (triples & Efill & Hkeys & Hsc).
  { apply combinations3_shape. }
  { cbn [map app].
    apply (StronglySorted_NoDup index3_lt_irrefl Hsorted). }
  cbn [app] in Efill.
  set (rows := sorted fltb (fun tr : index3 * R => snd tr) true triples).
  assert (Hperm : Permutation rows triples) by apply sorted_reverse_perm.
  assert (Hdesc : StronglySorted (fun r1 r2 => snd r2 <= snd r1) rows).
  { eapply StronglySorted_weaken;
      [| apply (@sorted_reverse_descending _ _ fltb
                  (fun tr : index3 * R => snd tr)
                  fltb_R_asym fltb_R_negtrans)].
    intros r1 r2 H. apply fltb_R_not. exact H. }
  destruct (@print_triples_spec stars NUMBER rows 1%Z HN)
    as (lines & Eprint & Hlist).
  { apply (Permutation_Forall (Permutation_sym Hperm)). exact Hsc. }
  exists triples, rows, lines.
  split.
  { unfold best_stars_upto. rewrite Efill. cbn [bind].
    fold rows. rewrite Eprint. reflexivity. }
  split.
  { intros i j k. rewrite Hkeys. apply combinations3_keys. }
  split; [rewrite Hkeys; exact Hsorted |].
  split; [exact Hsc |].
  split; [exact Hperm |].
  split; [exact Hdesc |].
  split.
  { intros a.
    rewrite !(filter_ext (fun r : index3 * R => feqb (snd r) a)
                         (fun r => same_key fltb a (snd r)))
      by (intros r; symmetry; apply same_key_R).
    apply (@sorted_reverse_stable _ _ fltb (fun tr : index3 * R => snd tr)
             fltb_R_negtrans). }
  split.
  { replace (Z.to_nat NUMBER) with (Z.to_nat (NUMBER - 1 + 1)) by lia.
    exact Hlist. }
  intros r t Hr Ht.
  apply (@descending_head_is_max rows r t Hdesc Hr).
  apply (Permutation_in _ (Permutation_sym Hperm)). exact Ht.
Qed.

Lemma best_stars_number_15 : (1 <= 15)%Z.
Proof. lia. Defined.

(** [best_stars] itself ([NUMBER = 15]) on three stars. *)
Lemma best_stars_lists_largest_triangles_15 :
  (1 <= 15)%Z /\
  exists (triples rows : list (index3 * R)) (lines : list output),
    best_stars [north_horizon; east_horizon; zenith]
      = Ok (Heading 15 (List.length rows) :: lines) /\
    (forall i j k : nat,
       In (i, j, k) (map fst triples) <->
       (i < j < k /\ k < List.length [north_horizon; east_horizon; zenith])%nat) /\
    StronglySorted index3_lt (map fst triples) /\
    Forall (scored [north_horizon; east_horizon; zenith]) triples /\
    Permutation rows triples /\
    StronglySorted (fun r1 r2 => snd r2 <= snd r1) rows /\
    (forall a : R,
       filter (fun r => feqb (snd r) a) rows
       = filter (fun r => feqb (snd r) a) triples) /\
    listing [north_horizon; east_horizon; zenith] 1 (firstn (Z.to_nat 15) rows) lines /\
    (forall r t : index3 * R,
       hd_error rows = Some r -> In t triples -> snd t <= snd r).
Proof.
  split.
  - exact best_stars_number_15.
  - exact (@best_stars_lists_largest_triangles
             15 [north_horizon; east_horizon; zenith] best_stars_number_15).
Defined.

End Ranking.

(** ** Sign of the area *)

Section AreaSign.

Local Open Scope R_scope.

Lemma scored_nonneg (stars : list (Star R)) (row : index3 * R) :
  scored stars row -> 0 <= snd row.
Proof.
  destruct row as [[[i j] k] a]. intros (si & sj & sk & _ & _ & _ & E).
  rewrite area_R in E. injection E as <-. apply area_value_nonneg.
Qed.

Lemma listing_nonneg (stars : list (Star R)) (index : Z)
    (rows : list (index3 * R)) (lines : list output) :
  listing stars index rows lines ->
  Forall (fun row => 0 <= snd row) rows ->
  Forall line_area_nonneg lines.
Proof.
  induction 1 as [| index i j k a s0 s1 s2 rows lines N0 N1 N2 Hl IH];
    intros Hrows.
  - constructor.
  - inversion Hrows; subst. constructor; [assumption | apply IH; assumption].
Qed.

Lemma Forall_firstn (A : Type) (P : A -> Prop) (n : nat) (l : list A) :
  Forall P l -> Forall P (firstn n l).
Proof.
  intros H. revert n. induction H as [| x xs Hx Hxs IH]; intros n.
  - rewrite firstn_nil. constructor.
  - destruct n as [| n]; [constructor |].
    rewrite firstn_cons. constructor; [exact Hx | apply IH].
Qed.

(** C9: [area] returns a value, and the value is at least 0, whatever the
    three stars; so every area that [best_stars] prints is at least 0. *)
Theorem area_nonnegative :
  (forall s1 s2 s3 : Star R, exists a : R, area s1 s2 s3 = Ok a /\ 0 <= a) /\
  (forall stars : list (Star R),
     exists out : list output,
       best_stars stars = Ok out /\ Forall line_area_nonneg out).
Proof.
  split.
  - intros s1 s2 s3. exists (area_value s1 s2 s3).
    split; [apply area_R | apply area_value_nonneg].
  - intros stars.
    destruct (@fill_triples_spec stars
                (combinations (seq 0 (List.length stars)) 3) [])
      as (triples & Efill & _ & Hsc).
    { apply combinations3_shape. }
    { cbn [map app].
      apply (StronglySorted_NoDup index3_lt_irrefl
               (combinations3_keys_sorted (List.length stars))). }
    cbn [app] in Efill.
    set (rows := sorted fltb (fun tr : index3 * R => snd tr) true triples).
    assert (Hrows : Forall (scored stars) rows).
    { apply (Permutation_Forall
               (Permutation_sym (sorted_reverse_perm fltb _ triples))).
      exact Hsc. }
    destruct (@print_triples_spec stars 15 rows 1%Z ltac:(lia) Hrows)
      as (lines & Eprint & Hlist).
    exists (Heading 15 (List.length rows) :: lines). split.
    + unfold best_stars, best_stars_upto. rewrite Efill. cbn [bind].
      fold rows. rewrite Eprint. reflexivity.
    + constructor; [exact I |].
      apply (listing_nonneg Hlist). apply Forall_firstn.
      eapply Forall_impl; [| exact Hrows]. intros row. apply scored_nonneg.
Qed.

End AreaSign.

(** ** A run of [best_stars] *)

Section Run.

Local Open Scope R_scope.

(** Three stars make one triple; it is printed as line 1 with its area. *)
Lemma best_stars_three_stars :
  best_stars [north_horizon; east_horizon; zenith]
  = Ok [Heading 15 1; Line 1 EmptyString EmptyString EmptyString (1 / 2)].
Proof.
  unfold best_stars, best_stars_upto.
  cbn [List.length seq combinations map app fill_triples getitem nth_error bind].
  rewrite area_north_east_zenith.
  cbn [bind setitem sorted rev app sort_by_key insert_by_key List.length
       print_triples fst snd getitem nth_error].
  reflexivity.
Qed.

End Run.

(** * Further properties of the geometry *)

Section Geometry.

Local Open Scope R_scope.

Lemma cartesian_R (s : Star R) :
  cartesian s =
  (cos (math_radians (Alt s)) * cos (math_radians (Az s)),
   cos (math_radians (Alt s)) * sin (math_radians (Az s)),
   sin (math_radians (Alt s))).
Proof. reflexivity. Qed.

Lemma vector_product_R (v0 v1 v2 w0 w1 w2 : R) :
  vector_product (v0, v1, v2) (w0, w1, w2)
  = (v1 * w2 - v2 * w1, v2 * w0 - v0 * w2, v0 * w1 - v1 * w0).
Proof. reflexivity. Qed.

Lemma cartesian_dot_self (s : Star R) : dot (cartesian s) (cartesian s) = 1.
Proof.
  rewrite cartesian_R. unfold dot.
  set (a := math_radians (Alt s)). set (z := math_radians (Az s)).
  pose proof (sin_cos_unit a). pose proof (sin_cos_unit z). nra.
Qed.

(** X1: [cartesian] puts every star on the unit sphere: the norm of its
    position vector is 1, whatever the altitude and the azimuth. *)
Theorem cartesian_on_unit_sphere (s : Star R) :
  dot (cartesian s) (cartesian s) = 1 /\
  vector_norm (cartesian s) = Ok 1.
Proof.
  split; [apply cartesian_dot_self |].
  pose proof (cartesian_dot_self s) as E.
  destruct (cartesian s) as [[x y] z]. unfold dot in E.
  rewrite vector_norm_R, E, sqrt_1. reflexivity.
Qed.

(** X2: [vector_product] is orthogonal to both of its arguments, changes sign
    when they are exchanged, and its squared length is
    [|v|^2 |w|^2 - (v.w)^2]. *)
Theorem vector_product_orthogonal (v w : vec R) :
  dot v (vector_product v w) = 0 /\
  dot w (vector_product v w) = 0 /\
  (let '(r0, r1, r2) := vector_product v w in
   vector_product w v = (- r0, - r1, - r2)) /\
  dot (vector_product v w) (vector_product v w)
  = dot v v * dot w w - dot v w * dot v w.
Proof.
  destruct v as [[v0 v1] v2], w as [[w0 w1] w2].
  rewrite !vector_product_R. unfold dot.
  split; [ring |]. split; [ring |]. split; [| ring].
  f_equal; [f_equal |]; ring.
Qed.

Lemma cos_angle_is_dot (s1 s2 : Star R) :
  cos_angle s1 s2 = dot (cartesian s1) (cartesian s2).
Proof.
  rewrite cos_angle_R, !cartesian_R. unfold dot. rewrite cos_minus. ring.
Qed.

Lemma cos_angle_bound (s1 s2 : Star R) : -1 <= cos_angle s1 s2 <= 1.
Proof.
  rewrite cos_angle_R.
  replace (cos (math_radians (Alt s1)) * cos (math_radians (Alt s2))
           * cos (math_radians (Az s1) - math_radians (Az s2))
           + sin (math_radians (Alt s1)) * sin (math_radians (Alt s2)))
    with (sin (math_radians (Alt s1)) * sin (math_radians (Alt s2))
          + cos (math_radians (Alt s1)) * cos (math_radians (Alt s2))
            * cos (math_radians (Az s1) - math_radians (Az s2))) by ring.
  apply spherical_cosine_bound; [apply sin_cos_unit | apply sin_cos_unit |].
  apply COS_bound.
Qed.

Lemma angle_north_horizon_self : angle north_horizon north_horizon = Ok 0.
Proof.
  unfold angle, math_acos.
  assert (E : cos_angle north_horizon north_horizon = 1).
  { rewrite cos_angle_is_dot. apply cartesian_dot_self. }
  rewrite E, (@out_of_domain_R_false 1) by lra.
  cbn [facos RealFloat]. rewrite acos_1. reflexivity.
Qed.

(** X4: whenever [angle] returns, it returns an angle between 0 and pi
    whose cosine is the scalar product of the position vectors that
    [cartesian] gives the two stars: the separation of the two
    directions. *)
Theorem angle_is_separation (s1 s2 : Star R) (a : R) :
  angle s1 s2 = Ok a ->
  0 <= a <= PI /\ cos a = dot (cartesian s1) (cartesian s2).
Proof.
  unfold angle, math_acos.
  pose proof (cos_angle_bound s1 s2) as B.
  rewrite (out_of_domain_R_false B).
  intros H.
  assert (E : a = acos (cos_angle s1 s2)) by (injection H as <-; reflexivity).
  rewrite E. split; [apply acos_bound |].
  rewrite (cos_acos _ B). apply cos_angle_is_dot.
Qed.

Lemma angle_is_separation_north_horizon :
  angle north_horizon north_horizon = Ok 0 /\
  0 <= 0 <= PI /\
  cos 0 = dot (cartesian north_horizon) (cartesian north_horizon).
Proof.
  split.
  - exact angle_north_horizon_self.
  - exact (@angle_is_separation north_horizon north_horizon 0
             angle_north_horizon_self).
Defined.

End Geometry.

Section GeometryAgreement.

Local Open Scope R_scope.

(** X5: When the second and the third star have the same altitude, the third
    component that [area] takes from the second star is the third star's
    as well, and [area] is 0.5 times the norm of the cross product of
    [p1 - p2] and [p1 - p3]. *)
Theorem area_is_cross_product_at_equal_altitude (s1 s2 s3 : Star R) :
  Alt s2 = Alt s3 ->
  area s1 s2 s3 = Ok (triangleArea_spec s1 s2 s3).
Proof.
  intros H. rewrite area_R. f_equal.
  unfold area_value, triangleArea_spec. rewrite !cartesian_R, H.
  reflexivity.
Qed.

Lemma area_is_cross_product_on_horizon :
  Alt east_horizon = Alt north_horizon /\
  area zenith east_horizon north_horizon
  = Ok (triangleArea_spec zenith east_horizon north_horizon).
Proof.
  split.
  - reflexivity.
  - exact (@area_is_cross_product_at_equal_altitude
             zenith east_horizon north_horizon eq_refl).
Defined.

(** X6: Coincident corners: the area is 0 when the first two stars are the
    same star, and when the last two are; it need not be when the first
    and the third are (north horizon, zenith, north horizon: 1/2). *)
Theorem area_of_coincident_stars (s1 s2 : Star R) :
  area s1 s1 s2 = Ok 0 /\
  area s1 s2 s2 = Ok 0 /\
  area north_horizon zenith north_horizon = Ok (1 / 2).
Proof.
  split; [| split].
  - rewrite area_R. f_equal. unfold area_value. rewrite !cartesian_R.
    rewrite vector_product_R.
    match goal with |- _ * sqrt ?x = _ => replace x with 0 by ring end.
    rewrite sqrt_0. ring.
  - rewrite area_R. f_equal. unfold area_value. rewrite !cartesian_R.
    rewrite vector_product_R.
    match goal with |- _ * sqrt ?x = _ => replace x with 0 by ring end.
    rewrite sqrt_0. ring.
  - rewrite area_R. f_equal. unfold area_value.
    rewrite cartesian_north_horizon, cartesian_zenith.
    rewrite vector_product_R.
    match goal with |- _ * sqrt ?x = _ => replace x with 1 by ring end.
    rewrite sqrt_1. lra.
Qed.

(** X7: Degrees to radians and back: [rad2deg] and [deg2rad] are inverse to
    each other, and [deg2rad] agrees with [math.radians]. *)
Theorem deg2rad_rad2deg_inverse (x : R) :
  rad2deg (deg2rad x) = x /\
  deg2rad (rad2deg x) = x /\
  math_radians x = deg2rad x.
Proof.
  rewrite !rad2deg_R, !deg2rad_R, math_radians_R.
  pose proof PI_RGT_0 as P.
  repeat split; field; lra.
Qed.

End GeometryAgreement.

(** * Further properties of the coordinate transform *)

Section HorizontalCoordinates.

Local Open Scope R_scope.

Lemma deg2rad_of_rad2deg (x : R) : deg2rad (rad2deg x) = x.
Proof. rewrite rad2deg_R, deg2rad_R. pose proof PI_RGT_0. field. lra. Qed.

Lemma deg2rad_360_minus (x : R) : deg2rad (360 - rad2deg x) = 2 * PI - x.
Proof. rewrite rad2deg_R, deg2rad_R. pose proof PI_RGT_0. field. lra. Qed.

(** X8: whenever [RA_DEC_to_ALT_AZ] returns, the altitude and the azimuth
    satisfy the two equations of the transform, and the azimuth lies in
    the half of the circle that the sign of [sin(ha)] selects: [0, 180]
    when it is negative, [180, 360] when not. The right ascension is not
    used. *)
Theorem RA_DEC_to_ALT_AZ_solves_triangle (raD decD haD latD alt az : R) :
  RA_DEC_to_ALT_AZ raD decD haD latD = Ok (alt, az) ->
  (forall raD' : R, RA_DEC_to_ALT_AZ raD' decD haD latD = Ok (alt, az)) /\
  sin (deg2rad alt)
  = sin (deg2rad decD) * sin (deg2rad latD)
    + cos (deg2rad decD) * cos (deg2rad latD) * cos (deg2rad haD) /\
  cos (deg2rad az) * (cos (deg2rad alt) * cos (deg2rad latD))
  = sin (deg2rad decD) - sin (deg2rad alt) * sin (deg2rad latD) /\
  (sin (deg2rad haD) < 0 -> 0 <= az <= 180) /\
  (0 <= sin (deg2rad haD) -> 180 <= az <= 360).
Proof.
  intros H. apply RA_DEC_to_ALT_AZ_inv in H. destruct H as (Hd & -> & ->).
  pose proof (cos_a_bound Hd) as Hb.
  set (alt := asin (sin_alt decD haD latD)) in *.
  set (cos_a := (sin (deg2rad decD) - sin alt * sin (deg2rad latD))
                / azimuth_divisor decD haD latD) in *.
  pose proof (acos_bound cos_a) as [A0 A1].
  pose proof (rad2deg_monotone A0) as D0. rewrite rad2deg_0 in D0.
  pose proof (rad2deg_monotone A1) as D1. rewrite rad2deg_PI in D1.
  split.
  { intros raD'. rewrite RA_DEC_to_ALT_AZ_R.
    rewrite (truediv_R_nonzero _ Hd). cbn [bind].
    unfold math_acos. fold alt. fold cos_a.
    rewrite (out_of_domain_R_false Hb). reflexivity. }
  rewrite deg2rad_of_rad2deg.
  split.
  { unfold alt. rewrite (sin_asin _ (sin_alt_bound decD haD latD)).
    apply sin_alt_R. }
  split.
  { assert (C : cos (deg2rad (if fltb (sin (deg2rad haD)) 0
                              then rad2deg (acos cos_a)
                              else 360 - rad2deg (acos cos_a))) = cos_a).
    { destruct (fltb (sin (deg2rad haD)) 0).
      - rewrite deg2rad_of_rad2deg. apply cos_acos, Hb.
      - rewrite deg2rad_360_minus.
        replace (2 * PI - acos cos_a) with (- acos cos_a + 2 * PI) by ring.
        rewrite cos_plus, cos_2PI, sin_2PI, cos_neg.
        rewrite (cos_acos _ Hb). ring. }
    rewrite C. unfold cos_a, azimuth_divisor. fold alt.
    unfold azimuth_divisor in Hd. fold alt in Hd.
    field. split; intros E; apply Hd; rewrite E; ring. }
  split.
  - intros Hneg. rewrite fltb_R_true by exact Hneg. split; assumption.
  - intros Hpos. rewrite fltb_R_false by exact Hpos. lra.
Qed.

Lemma RA_DEC_to_ALT_AZ_solves_triangle_45_0_0 :
  RA_DEC_to_ALT_AZ 0 45 0 0 = Ok (45, 360) /\
  (forall raD' : R, RA_DEC_to_ALT_AZ raD' 45 0 0 = Ok (45, 360)) /\
  sin (deg2rad 45)
  = sin (deg2rad 45) * sin (deg2rad 0)
    + cos (deg2rad 45) * cos (deg2rad 0) * cos (deg2rad 0) /\
  cos (deg2rad 360) * (cos (deg2rad 45) * cos (deg2rad 0))
  = sin (deg2rad 45) - sin (deg2rad 45) * sin (deg2rad 0) /\
  (sin (deg2rad 0) < 0 -> 0 <= 360 <= 180) /\
  (0 <= sin (deg2rad 0) -> 180 <= 360 <= 360).
Proof.
  split.
  - exact RA_DEC_to_ALT_AZ_45_0_0.
  - exact (@RA_DEC_to_ALT_AZ_solves_triangle
             0 45 0 0 45 360 RA_DEC_to_ALT_AZ_45_0_0).
Defined.

End HorizontalCoordinates.

(** * Further properties of the time calculations *)

Section ClockTime.

Local Open Scope R_scope.

Lemma HMS_to_decimal_time_R (hours minutes seconds : Z) :
  HMS_to_decimal_time hours minutes seconds
  = IZR hours + IZR minutes / 60 + IZR seconds / 3600.
Proof. reflexivity. Qed.

(** X9: With minutes and seconds between 0 and 59, [HMS_to_decimal_time] lies
    in the hour that [hours] starts, and counts 3600 per hour, 60 per
    minute and 1 per second. *)
Theorem HMS_to_decimal_time_within_hour (hours minutes seconds : Z) :
  (0 <= minutes <= 59)%Z -> (0 <= seconds <= 59)%Z ->
  IZR hours <= HMS_to_decimal_time hours minutes seconds < IZR hours + 1 /\
  HMS_to_decimal_time hours minutes seconds * 3600
  = IZR (3600 * hours + 60 * minutes + seconds).
Proof.
  intros [Hm0 Hm1] [Hs0 Hs1]. rewrite HMS_to_decimal_time_R.
  apply IZR_le in Hm0, Hm1, Hs0, Hs1.
  rewrite !plus_IZR, !mult_IZR.
  split; [split |]; lra.
Qed.

Lemma HMS_to_decimal_time_within_hour_12_30_15 :
  (0 <= 30 <= 59)%Z /\ (0 <= 15 <= 59)%Z /\
  (IZR 12 <= HMS_to_decimal_time 12 30 15 < IZR 12 + 1 /\
   HMS_to_decimal_time 12 30 15 * 3600 = IZR (3600 * 12 + 60 * 30 + 15)).
Proof.
  split; [lia |]. split; [lia |].
  apply (@HMS_to_decimal_time_within_hour 12 30 15); lia.
Defined.

End ClockTime.

Section MonthTable.

Lemma days_until_month_begins_valid (year month : Z) :
  (1 <= month <= 12)%Z ->
  exists d : Z,
    days_until_month_begins year month = Ok d /\ (0 <= d <= 335)%Z.
Proof.
  intros H.
  assert (C : (month = 1 \/ month = 2 \/ month = 3 \/ month = 4 \/
               month = 5 \/ month = 6 \/ month = 7 \/ month = 8 \/
               month = 9 \/ month = 10 \/ month = 11 \/ month = 12)%Z)
    by lia.
  unfold days_until_month_begins.
  destruct (year mod 4 =? 0)%Z;
    repeat (destruct C as [-> | C]; [eexists; split; [reflexivity | lia] |]);
    subst; eexists; (split; [reflexivity | lia]).
Qed.

Lemma days_until_month_begins_invalid (year month : Z) :
  (month < 1 \/ 12 < month)%Z ->
  days_until_month_begins year month = Raise KeyError.
Proof.
  intros H. unfold days_until_month_begins, DAYS_TIL_MONTH.
  assert (E : forall k : Z, (1 <= k <= 12)%Z -> (k =? month)%Z = false)
    by (intros k Hk; apply Z.eqb_neq; lia).
  destruct ((year mod 4 =? 0) && (month >? 2))%Z; cbn [dict_get];
    rewrite !E by lia; reflexivity.
Qed.

(** X10: [days_until_month_begins] returns for the months 1 to 12, a count
    between 0 and 335, and raises KeyError for every other month. *)
Theorem days_until_month_begins_domain (year month : Z) :
  ((1 <= month <= 12)%Z ->
   exists d : Z,
     days_until_month_begins year month = Ok d /\ (0 <= d <= 335)%Z) /\
  ((month < 1 \/ 12 < month)%Z ->
   days_until_month_begins year month = Raise KeyError).
Proof.
  split.
  - apply days_until_month_begins_valid.
  - apply days_until_month_begins_invalid.
Qed.

Lemma days_until_month_begins_domain_at_7_and_13 :
  ((1 <= 7 <= 12)%Z /\
   exists d : Z,
     days_until_month_begins 2024 7 = Ok d /\ (0 <= d <= 335)%Z) /\
  ((13 < 1 \/ 12 < 13)%Z /\
   days_until_month_begins 2024 13 = Raise KeyError).
Proof.
  split.
  - split; [lia |].
    apply (proj1 (days_until_month_begins_domain 2024 7)). lia.
  - split; [lia |].
    apply (proj2 (days_until_month_begins_domain 2024 13)). lia.
Defined.

End MonthTable.

Section Calendar.

Local Open Scope R_scope.

Lemma days_from_J2000_value (year month day hours minutes seconds b : Z) :
  days_until_month_begins year month = Ok b ->
  days_from_J2000 year month day hours minutes seconds
  = Ok (IZR ((year - 1998) * 365 + (year - 1998 + 1) / 4 + b + day)
        - 7315 / 10
        + HMS_to_decimal_time hours minutes seconds / (240 / 10)).
Proof.
  intros H. unfold days_from_J2000. rewrite H. cbn [bind]. f_equal.
  unfold days_from_J2000_until_year. rewrite !decimal_R.
  change (10 ^ Z.of_nat 1)%Z with 10%Z.
  cbn [of_int fadd fsub fdiv RealFloat].
  rewrite !plus_IZR. lra.
Qed.

Lemma days_until_month_begins_leap (year month : Z) :
  (year mod 4 =? 0)%Z = true -> (2 <? month)%Z = true ->
  days_until_month_begins year month
  = (d <- dict_get DAYS_TIL_MONTH month ;; Ok (d + 1)%Z).
Proof.
  intros L M. unfold days_until_month_begins.
  rewrite L. rewrite Z.gtb_ltb, M. reflexivity.
Qed.

Lemma days_until_month_begins_plain (year month : Z) :
  (year mod 4 =? 0)%Z = false \/ (2 <? month)%Z = false ->
  days_until_month_begins year month = dict_get DAYS_TIL_MONTH month.
Proof.
  intros H. unfold days_until_month_begins. rewrite Z.gtb_ltb.
  destruct H as [-> | ->]; [reflexivity |].
  rewrite andb_false_r. reflexivity.
Qed.

Lemma year_step (year : Z) :
  ((year + 1 - 1998) * 365 + (year + 1 - 1998 + 1) / 4
   = (year - 1998) * 365 + (year - 1998 + 1) / 4
     + (if year mod 4 =? 0 then 366 else 365))%Z.
Proof.
  destruct (Z.eqb_spec (year mod 4) 0) as [E | E];
    Z.div_mod_to_equations; lia.
Qed.

Ltac month_begins y L :=
  match goal with
  | |- days_until_month_begins y ?m = _ =>
      first
        [ rewrite (@days_until_month_begins_leap y m L eq_refl); reflexivity
        | rewrite (@days_until_month_begins_plain y m (or_introl L));
          reflexivity
        | rewrite (@days_until_month_begins_plain y m (or_intror eq_refl));
          reflexivity ]
  end.

(** X11: From each day of the calendar to the next, [days_from_J2000] advances
    by exactly 1 at the same time of day: inside a month, from the last
    day of a month to the first of the next, and from 31 December to
    1 January; every fourth year has 29 days in February. *)
Theorem days_from_J2000_next_day
    (year month day hours minutes seconds : Z) :
  (1 <= month <= 12)%Z -> (1 <= day <= days_in_month year month)%Z ->
  exists x : R,
    days_from_J2000 year month day hours minutes seconds = Ok x /\
    (let '(year', month', day') := next_day year month day in
     days_from_J2000 year' month' day' hours minutes seconds) = Ok (x + 1).
Proof.
  intros Hm Hd.
  assert (C : (month = 1 \/ month = 2 \/ month = 3 \/ month = 4 \/
               month = 5 \/ month = 6 \/ month = 7 \/ month = 8 \/
               month = 9 \/ month = 10 \/ month = 11 \/ month = 12)%Z)
    by lia.
  clear Hm. pose proof (year_step year) as Y.
  unfold next_day. unfold days_in_month in *.
  destruct (year mod 4 =? 0)%Z eqn:L;
    repeat (destruct C as [C | C]);
    subst month; cbn [Z.eqb Pos.eqb orb] in *;
    (eexists; split;
     [ apply days_from_J2000_value; month_begins year L | ]);
    (match goal with
     | |- context [(day <? ?D)%Z] =>
         destruct (Z.ltb_spec day D) as [Hlt | Hge]
     end;
     cbn [Z.ltb Z.compare Pos.compare Pos.compare_cont Z.add Pos.add
          Pos.add_carry Pos.succ]);
    (erewrite days_from_J2000_value
       by (first [ month_begins year L
                 | rewrite days_until_month_begins_plain
                     by (right; reflexivity);
                   reflexivity ]));
    f_equal;
    match goal with
    | |- IZR ?a - _ + _ = IZR ?b - _ + _ + 1 =>
        replace a with (b + 1)%Z by lia; rewrite (plus_IZR b 1); lra
    end.
Qed.

Lemma days_from_J2000_next_day_new_year :
  (1 <= 12 <= 12)%Z /\ (1 <= 31 <= days_in_month 2023 12)%Z /\
  exists x : R,
    days_from_J2000 2023 12 31 18 0 0 = Ok x /\
    days_from_J2000 2024 1 1 18 0 0 = Ok (x + 1).
Proof.
  split; [lia |]. split; [cbn; lia |].
  apply (@days_from_J2000_next_day 2023 12 31 18 0 0); cbn; lia.
Defined.

End Calendar.

Section SiderealTime.

Local Open Scope R_scope.

Lemma Int_part_bounds (r : R) : IZR (Int_part r) <= r < IZR (Int_part r) + 1.
Proof. pose proof (base_Int_part r) as [H1 H2]. lra. Qed.

Lemma Int_part_IZR (z : Z) : Int_part (IZR z) = z.
Proof. symmetry. apply Int_part_spec. lra. Qed.

Lemma Rtrunc_nonneg (x : R) : 0 <= x -> Rtrunc x = Int_part x.
Proof.
  intros H. unfold Rtrunc.
  destruct (Rle_dec 0 x); [reflexivity | contradiction].
Qed.

Lemma Rtrunc_IZR (z : Z) : Rtrunc (IZR z) = z.
Proof.
  unfold Rtrunc. destruct (Rle_dec 0 (IZR z)).
  - apply Int_part_IZR.
  - rewrite <- opp_IZR, Int_part_IZR. lia.
Qed.

Lemma Rabs_0_sign (y : R) : (if Rlt_dec y 0 then - Rabs 0 else Rabs 0) = 0.
Proof. rewrite Rabs_R0. destruct (Rlt_dec y 0); lra. Qed.

Lemma floor_mod_range (x y : R) : 0 < y -> 0 <= floor_mod x y < y.
Proof.
  intros Hy. unfold floor_mod.
  pose proof (Int_part_bounds (x / y)) as [H1 H2].
  assert (E : x = y * (x / y)) by (field; lra).
  generalize dependent (x / y). intros q H1 H2 E.
  rewrite E. split; nra.
Qed.

(** Over the reals CPython's remainder, [fmod] moved to the sign of the
    divisor, is the remainder of the floored division. *)
Lemma float_mod_R (x y : R) : 0 < y -> float_mod x y = floor_mod x y.
Proof.
  intros Hy. unfold float_mod, floor_mod.
  cbn [c_fmod c_copysign RealRemainder feqb fltb fadd of_int RealFloat].
  assert (E : x = y * (x / y)) by (field; lra).
  generalize dependent (x / y). intros q E. subst x.
  pose proof (Int_part_bounds q) as [F0 F1].
  unfold Rtrunc. destruct (Rle_dec 0 q) as [Q | Q].
  - set (f := IZR (Int_part q)) in *.
    destruct (Req_dec_T (y * q - y * f) 0) as [Z | NZ]; cbn [negb].
    + rewrite Rabs_0_sign. lra.
    + destruct (Rlt_dec y 0); [lra |].
      destruct (Rlt_dec (y * q - y * f) 0); [nra | reflexivity].
  - pose proof (Int_part_bounds (- q)) as [G0 G1].
    rewrite opp_IZR. set (g := IZR (Int_part (- q))) in *.
    destruct (Req_dec_T (y * q - y * - g) 0) as [Z | NZ]; cbn [negb].
    + rewrite Rabs_0_sign.
      assert (Eq : q = IZR (- Int_part (- q))).
      { rewrite opp_IZR. fold g. nra. }
      rewrite Eq at 2. rewrite Int_part_IZR, opp_IZR. fold g.
      rewrite Eq at 1. rewrite opp_IZR. fold g. ring.
    + destruct (Rlt_dec y 0); [lra |].
      destruct (Rlt_dec (y * q - y * - g) 0) as [N | N]; cbn [xorb].
      * assert (Ne : q <> - g) by (intros C; apply NZ; rewrite C; ring).
        assert (Ef : Int_part q = (- Int_part (- q) - 1)%Z).
        { symmetry. apply Int_part_spec.
          rewrite minus_IZR, opp_IZR. fold g. lra. }
        rewrite Ef, minus_IZR, opp_IZR. fold g. ring.
      * exfalso. apply N. nra.
Qed.

Lemma hour_angle_R (RA LST : R) :
  hour_angle RA LST = floor_mod (LST - RA) 360.
Proof. unfold hour_angle. apply float_mod_R. cbn. lra. Qed.

Lemma local_siderial_time_R (days longitude time : R) :
  local_siderial_time days longitude time
  = floor_mod (10046 / 100 + 985647 / 1000000 * days + longitude + 15 * time)
              360.
Proof. unfold local_siderial_time. apply float_mod_R. cbn. lra. Qed.

(** X12: [hour_angle] is an angle from 0 to 360 that differs from
    [LST - RA] by a whole number of turns. The upper end is included: in
    binary64 the sum of a tiny negative remainder and 360 rounds to 360,
    and [hour_angle(2^-70, 0.0)] is [360.0]. *)
Theorem hour_angle_range :
  (forall RA LST : R,
     0 <= hour_angle RA LST <= 360 /\
     exists k : Z, hour_angle RA LST = LST - RA - 360 * IZR k) /\
  (forall m : Binary64.Libm,
     @hour_angle _ (Binary64.binary64 m) Binary64.remainder64
                 Binary64.two_pow_minus_70 PrimFloat.zero
     = Binary64.f360).
Proof.
  split.
  - intros RA LST. rewrite hour_angle_R.
    pose proof (@floor_mod_range (LST - RA) 360 ltac:(lra)) as [H0 H1].
    split; [lra |].
    exists (Int_part ((LST - RA) / 360)). reflexivity.
  - intros m. vm_compute. reflexivity.
Qed.

(** X13: [local_siderial_time] is an angle from 0 to 360, the upper end
    included: in binary64, at day 0, time 0 and the longitude
    [-100.46000000000001], the remainder [-1.4e-14] plus 360 rounds to
    [360.0]. *)
Theorem local_siderial_time_range :
  (forall days longitude time : R,
     0 <= local_siderial_time days longitude time <= 360 /\
     exists k : Z,
       local_siderial_time days longitude time
       = 10046 / 100 + 985647 / 1000000 * days + longitude + 15 * time
         - 360 * IZR k) /\
  (forall m : Binary64.Libm,
     @local_siderial_time _ (Binary64.binary64 m) Binary64.remainder64 PrimFloat.zero
                          Binary64.before_minus_100_46 PrimFloat.zero
     = Binary64.f360).
Proof.
  split.
  - intros days longitude time. rewrite local_siderial_time_R.
    match goal with |- context [floor_mod ?x 360] =>
      pose proof (@floor_mod_range x 360 ltac:(lra)) as [H0 H1];
      split; [lra | exists (Int_part (x / 360)); reflexivity]
    end.
  - intros m. vm_compute. reflexivity.
Qed.

End SiderealTime.

Section ClockOfAnAngle.

Local Open Scope R_scope.

Lemma Int_part_below (x : R) (n : Z) :
  0 <= x < IZR n -> (0 <= Int_part x <= n - 1)%Z.
Proof.
  intros [H0 H1]. pose proof (Int_part_bounds x) as [B0 B1]. split.
  - apply le_IZR. apply Rnot_lt_le. intros C.
    assert (L : (Int_part x <= -1)%Z) by (apply lt_IZR in C; lia).
    apply IZR_le in L. lra.
  - assert (L : (Int_part x < n)%Z) by (apply lt_IZR; lra). lia.
Qed.

(** [divmod(x, 1)] of a number that is not negative, over the reals: the
    floor and the rest. *)
Lemma float_divmod_1 (x : R) :
  0 <= x -> float_divmod x 1 = (IZR (Int_part x), x - IZR (Int_part x)).
Proof.
  intros Hx. unfold float_divmod.
  cbn [c_fmod c_floor c_copysign RealRemainder
       feqb fltb fadd fsub fdiv of_int RealFloat].
  assert (E : x / 1 = x) by field. rewrite E.
  rewrite (Rtrunc_nonneg Hx).
  pose proof (Int_part_bounds x) as [F0 F1].
  set (f := IZR (Int_part x)) in *.
  assert (D : (x - (x - 1 * f)) / 1 = f) by field.
  assert (Fl : IZR (Int_part f) = f)
    by (unfold f; rewrite Int_part_IZR; reflexivity).
  assert (Half : ~ decimal 5 1 < f - f).
  { rewrite decimal_R. cbn. lra. }
  destruct (Req_dec_T (x - 1 * f) 0) as [Z | NZ]; cbn [negb].
  - rewrite !Rabs_0_sign, D.
    destruct (Req_dec_T f 0) as [Z' | NZ']; cbn [negb].
    + f_equal; lra.
    + rewrite Fl. destruct (Rlt_dec (decimal 5 1) (f - f));
        [contradiction | f_equal; lra].
  - destruct (Rlt_dec 1 0); [lra |].
    destruct (Rlt_dec (x - 1 * f) 0); [lra |]. cbn [xorb]. rewrite D.
    destruct (Req_dec_T f 0) as [Z' | NZ']; cbn [negb].
    + rewrite !Rabs_0_sign. f_equal; lra.
    + rewrite Fl. destruct (Rlt_dec (decimal 5 1) (f - f));
        [contradiction | f_equal; lra].
Qed.

(** X14: for an angle of [0, 360), [deg2time] returns whole hours from 0
    to 23, minutes from 0 to 59 and seconds from 0 to 59. The seconds are
    cut, not rounded, and in binary64 a second can be lost: a tenth of a
    degree is 24 seconds of time, and [deg2time(0.1)] is [(0, 0, 23)]. *)
Theorem deg2time_clock :
  (forall deg : R,
     0 <= deg < 360 ->
     exists hours minutes seconds : Z,
       deg2time deg = Ok (hours, minutes, seconds) /\
       (0 <= hours <= 23)%Z /\ (0 <= minutes <= 59)%Z /\
       (0 <= seconds <= 59)%Z) /\
  (forall m : Binary64.Libm,
     @deg2time _ (Binary64.binary64 m) Binary64.remainder64 Binary64.one_tenth
     = Ok (0, 0, 23)%Z).
Proof.
  split; [| intros m; vm_compute; reflexivity].
  intros deg [D0 D1]. unfold deg2time.
  cbn [fmul fdiv of_int RealFloat].
  set (T := deg / 360 * 24).
  assert (HT : 0 <= T < IZR 24) by (unfold T; lra).
  rewrite (float_divmod_1 (proj1 HT)).
  pose proof (Int_part_bounds T) as [T0 T1].
  set (M := (T - IZR (Int_part T)) * 60).
  assert (HM : 0 <= M < IZR 60) by (unfold M; lra).
  rewrite (float_divmod_1 (proj1 HM)).
  pose proof (Int_part_bounds M) as [M0 M1].
  set (S := (M - IZR (Int_part M)) * 60).
  assert (HS : 0 <= S < IZR 60) by (unfold S; lra).
  cbn [int_of_float RealRemainder bind].
  rewrite !Rtrunc_IZR, (Rtrunc_nonneg (proj1 HS)).
  exists (Int_part T), (Int_part M), (Int_part S).
  split; [reflexivity |].
  split; [apply (@Int_part_below T 24 HT) |].
  split; [apply (@Int_part_below M 60 HM) | apply (@Int_part_below S 60 HS)].
Qed.

Lemma deg2time_clock_90 :
  0 <= 90 < 360 /\
  exists hours minutes seconds : Z,
    deg2time 90 = Ok (hours, minutes, seconds) /\
    (0 <= hours <= 23)%Z /\ (0 <= minutes <= 59)%Z /\
    (0 <= seconds <= 59)%Z.
Proof.
  assert (H : 0 <= 90 < 360) by lra.
  split; [exact H | exact (proj1 deg2time_clock 90 H)].
Defined.

End ClockOfAnAngle.

(** * Further properties of the selection of stars *)

Section Counting.

Lemma choose_zero (n : nat) : choose n 0 = 1%nat.
Proof. destruct n; reflexivity. Qed.

Lemma combinations_length (A : Type) (pool : list A) :
  forall r : nat,
    List.length (combinations pool r) = choose (List.length pool) r.
Proof.
  induction pool as [| x rest IH]; intros r.
  - destruct r; reflexivity.
  - destruct r as [| r]; [reflexivity |].
    cbn [combinations List.length choose].
    rewrite length_app, length_map, !IH. reflexivity.
Qed.

Lemma choose_1 (n : nat) : choose n 1 = n.
Proof.
  induction n as [| n IH]; [reflexivity |].
  cbn [choose]. rewrite choose_zero, IH. reflexivity.
Qed.

Lemma choose_2 (n : nat) : (2 * choose n 2 = n * (n - 1))%nat.
Proof.
  induction n as [| n IH]; [reflexivity |].
  cbn [choose]. rewrite choose_1.
  replace (S n - 1)%nat with n by lia.
  destruct n as [| m]; [reflexivity |].
  replace (S m - 1)%nat with m in IH by lia. nia.
Qed.

Lemma choose_3 (n : nat) : (6 * choose n 3 = n * (n - 1) * (n - 2))%nat.
Proof.
  induction n as [| n IH]; [reflexivity |].
  cbn [choose]. pose proof (choose_2 n) as H2.
  replace (S n - 1)%nat with n by lia.
  destruct n as [| [| m]]; [reflexivity | reflexivity |].
  replace (S (S m) - 1)%nat with (S m) in * by lia.
  replace (S (S m) - 2)%nat with m in * by lia.
  replace (S (S (S m)) - 2)%nat with (S m) by lia.
  nia.
Qed.

Lemma listing_length (stars : list (Star R)) (index : Z)
    (rows : list (index3 * R)) (lines : list output) :
  listing stars index rows lines -> List.length lines = List.length rows.
Proof.
  induction 1; cbn [List.length]; [reflexivity | f_equal; assumption].
Qed.

End Counting.

Section Headline.

(** X15: The heading of [best_stars] counts the index triples, [n (n-1) (n-2) / 6]
    of them for [n] stars, and at most 15 lines follow: as many as there
    are triples when these are fewer. *)
Theorem best_stars_counts (stars : list (Star R)) :
  exists lines : list output,
    best_stars stars
    = Ok (Heading 15 (choose (List.length stars) 3) :: lines) /\
    List.length lines = Nat.min 15 (choose (List.length stars) 3) /\
    (6 * choose (List.length stars) 3
     = List.length stars * (List.length stars - 1)
       * (List.length stars - 2))%nat.
Proof.
  destruct (@fill_triples_spec stars
              (combinations (seq 0 (List.length stars)) 3) [])
    as (triples & Efill & Hkeys & Hsc).
  { apply combinations3_shape. }
  { cbn [map app].
    apply (StronglySorted_NoDup index3_lt_irrefl
             (combinations3_keys_sorted (List.length stars))). }
  cbn [app] in Efill.
  set (rows := sorted fltb (fun tr : index3 * R => snd tr) true triples).
  pose proof (sorted_reverse_perm fltb (fun tr : index3 * R => snd tr) triples)
    as Hperm. fold rows in Hperm.
  assert (Hrows : Forall (scored stars) rows)
    by (apply (Permutation_Forall (Permutation_sym Hperm)); exact Hsc).
  destruct (@print_triples_spec stars 15 rows 1%Z ltac:(lia) Hrows)
    as (lines & Eprint & Hlist).
  assert (Hcount : List.length rows = choose (List.length stars) 3).
  { rewrite (Permutation_length Hperm).
    rewrite <- (length_map fst triples), Hkeys, length_map.
    rewrite combinations_length, length_seq. reflexivity. }
  exists lines. split; [| split].
  - unfold best_stars, best_stars_upto. rewrite Efill. cbn [bind].
    fold rows. rewrite Eprint, Hcount. reflexivity.
  - rewrite (listing_length Hlist), length_firstn, Hcount. reflexivity.
  - apply choose_3.
Qed.

(** X16: With fewer than three stars there is no triple: [best_stars] prints its
    heading, with a count of 0, and nothing else. *)
Theorem best_stars_too_few_stars (stars : list (Star R)) :
  (List.length stars < 3)%nat ->
  best_stars stars = Ok [Heading 15 0].
Proof.
  intros H.
  destruct stars as [| a [| b [| c rest]]];
    [reflexivity | reflexivity | reflexivity | cbn in H; lia].
Qed.

Lemma best_stars_too_few_stars_two :
  (List.length [north_horizon; zenith] < 3)%nat /\
  best_stars [north_horizon; zenith] = Ok [Heading 15 0].
Proof.
  split.
  - cbn. lia.
  - apply (@best_stars_too_few_stars [north_horizon; zenith]). cbn. lia.
Defined.

End Headline.

Section SuitableStarsAgain.

Local Open Scope R_scope.

Lemma sort_by_key_of_sorted (A K : Type) (ltb : K -> K -> bool)
    (key : A -> K) (l : list A) :
  StronglySorted (fun a b => not_below ltb key b a) l ->
  sort_by_key ltb key l = l.
Proof.
  induction 1 as [| x xs Hxs IH Hx]; [reflexivity |].
  cbn [sort_by_key]. rewrite IH.
  destruct xs as [| y ys]; [reflexivity |].
  cbn [insert_by_key]. inversion Hx as [| y0 ys0 Hy _]; subst.
  unfold not_below in Hy. rewrite Hy. reflexivity.
Qed.

Lemma sorted_reverse_of_descending (A K : Type) (ltb : K -> K -> bool)
    (key : A -> K) (l : list A) :
  StronglySorted (not_below ltb key) l -> sorted ltb key true l = l.
Proof.
  intros H. unfold sorted.
  rewrite sort_by_key_of_sorted; [apply rev_involutive |].
  apply (StronglySorted_rev H).
Qed.

Lemma filter_all (A : Type) (p : A -> bool) (l : list A) :
  Forall (fun x => p x = true) l -> filter p l = l.
Proof.
  induction 1 as [| x xs Hx Hxs IH]; [reflexivity |].
  cbn [filter]. rewrite Hx, IH. reflexivity.
Qed.

Lemma get_suitable_stars_above (LOW_ANGLE : R) (all_stars : list (Star R)) :
  Forall (fun s => fleb LOW_ANGLE (Alt s) = true)
         (get_suitable_stars LOW_ANGLE all_stars).
Proof.
  rewrite get_suitable_stars_R.
  apply (Permutation_Forall
           (Permutation_sym (sorted_reverse_perm fltb _ _))).
  apply Forall_forall. intros s Hs. apply filter_In in Hs. apply Hs.
Qed.

Lemma get_suitable_stars_descending (LOW_ANGLE : R)
    (all_stars : list (Star R)) :
  StronglySorted (not_below fltb (fun s : Star R => Alt s))
                 (get_suitable_stars LOW_ANGLE all_stars).
Proof.
  rewrite get_suitable_stars_R.
  apply (@sorted_reverse_descending _ _ fltb (fun s : Star R => Alt s)
           fltb_R_asym fltb_R_negtrans).
Qed.

(** X17: [get_suitable_stars] on its own result changes nothing: a list that
    is already filtered and sorted comes back as it is. *)
Theorem get_suitable_stars_idempotent (LOW_ANGLE : R)
    (all_stars : list (Star R)) :
  get_suitable_stars LOW_ANGLE (get_suitable_stars LOW_ANGLE all_stars)
  = get_suitable_stars LOW_ANGLE all_stars.
Proof.
  rewrite (get_suitable_stars_R LOW_ANGLE
             (get_suitable_stars LOW_ANGLE all_stars)).
  rewrite (filter_all _ (get_suitable_stars_above LOW_ANGLE all_stars)).
  apply sorted_reverse_of_descending.
  apply get_suitable_stars_descending.
Qed.

End SuitableStarsAgain.

(** * Properties of the printed list of stars *)

Section PrintedList.

Local Open Scope R_scope.

Lemma closing_R (x : R) :
  fltb x (decimal 200 1) = (if Rlt_dec x 20 then true else false).
Proof.
  rewrite decimal_R. change (10 ^ Z.of_nat 1)%Z with 10%Z.
  replace (200 / 10) with 20 by lra. reflexivity.
Qed.

(** Without a star strictly between 0 and [LOW_ANGLE], the loop ends
    normally and writes one unbracketed line for each star above 0. *)
Lemma print_stars_without_low (LOW_ANGLE : R) (stars : list (Star R)) :
  Forall (fun t => Alt t <= 0 \/ LOW_ANGLE <= Alt t) stars ->
  print_stars LOW_ANGLE stars
  = (flat_map star_line (filter (fun t => negb (fleb (Alt t) 0)) stars),
     None).
Proof.
  induction 1 as [| t rest Ht Hrest IH]; [reflexivity |].
  cbn [print_stars filter]. change (of_int 0) with 0.
  destruct (fleb (Alt t) 0) eqn:E0; cbn [negb]; [exact IH |].
  assert (P : 0 < Alt t).
  { destruct (Rle_dec (Alt t) 0) as [L | L]; [| lra].
    apply fleb_R_spec in L. congruence. }
  destruct Ht as [Ht | Ht]; [lra |].
  rewrite (fltb_R_false Ht), IH. cbn [flat_map app star_line].
  rewrite closing_R. reflexivity.
Qed.

(** X18: [print_star_list] cannot show a star between 0 and [LOW_ANGLE]: at the
    first such star it has written the lines of the stars before it and
    the opening bracket, and raises UnboundLocalError for [low]. *)
Theorem print_star_list_raises_at_low_star
    (LAT LONG LOW_ANGLE : R) (before after : list (Star R))
    (s : Star R) (description : string) :
  Forall (fun t => Alt t <= 0 \/ LOW_ANGLE <= Alt t) before ->
  0 < Alt s < LOW_ANGLE ->
  print_star_list LAT LONG LOW_ANGLE (before ++ s :: after) description
  = (ListHeading description (List.length (before ++ s :: after))
       :: DateAndPlace (fleb 0 LAT) (fleb 0 LONG)
       :: flat_map star_line
            (filter (fun t => negb (fleb (Alt t) 0)) before)
          ++ [Opening true],
     Some (UnboundLocalError "low")).
Proof.
  intros Hb [Hs0 Hs1]. unfold print_star_list.
  assert (E : print_stars LOW_ANGLE (before ++ s :: after)
              = (flat_map star_line
                   (filter (fun t => negb (fleb (Alt t) 0)) before)
                 ++ [Opening true],
                 Some (UnboundLocalError "low"))).
  { induction Hb as [| t rest Ht Hrest IH].
    - cbn [app print_stars filter flat_map]. change (of_int 0) with 0.
      destruct (fleb (Alt s) 0) eqn:E0;
        [apply fleb_R_spec in E0; lra |].
      rewrite (fltb_R_true Hs1). reflexivity.
    - cbn [app print_stars filter]. change (of_int 0) with 0.
      destruct (fleb (Alt t) 0) eqn:E0; cbn [negb]; [exact IH |].
      assert (P : 0 < Alt t).
      { destruct (Rle_dec (Alt t) 0) as [L | L]; [| lra].
        apply fleb_R_spec in L. congruence. }
      destruct Ht as [Ht | Ht]; [lra |].
      rewrite (fltb_R_false Ht), IH. cbn [flat_map app star_line].
      rewrite closing_R. reflexivity. }
  rewrite E. reflexivity.
Qed.

Lemma print_star_list_raises_at_10_degrees :
  Forall (fun t : Star R => Alt t <= 0 \/ 20 <= Alt t) [zenith] /\
  0 < Alt (star_at 10 0) < 20 /\
  print_star_list 50 8 20 ([zenith] ++ star_at 10 0 :: [north_horizon])
                  "suitable stars"
  = (ListHeading "suitable stars" 3
       :: DateAndPlace (fleb 0 50) (fleb 0 8)
       :: flat_map star_line
            (filter (fun t => negb (fleb (Alt t) 0)) [zenith])
          ++ [Opening true],
     Some (UnboundLocalError "low")).
Proof.
  assert (H1 : Forall (fun t : Star R => Alt t <= 0 \/ 20 <= Alt t) [zenith]).
  { constructor; [| constructor]. right. cbn. lra. }
  assert (H2 : 0 < Alt (star_at 10 0) < 20) by (cbn; lra).
  split; [exact H1 |]. split; [exact H2 |].
  exact (@print_star_list_raises_at_low_star
           50 8 20 [zenith] [north_horizon] (star_at 10 0)
           "suitable stars" H1 H2).
Defined.

(** X19: On the list that [get_suitable_stars] returns, for a threshold above 0,
    [print_star_list] ends normally and writes every star of the list, in
    the order of the list, none of them with an opening bracket; the
    closing bracket is written for an altitude below 20, whatever the
    threshold. *)
Theorem print_star_list_of_suitable_stars
    (LAT LONG LOW_ANGLE : R) (all_stars : list (Star R))
    (description : string) :
  0 < LOW_ANGLE ->
  print_star_list LAT LONG LOW_ANGLE
                  (get_suitable_stars LOW_ANGLE all_stars) description
  = (ListHeading description
       (List.length (get_suitable_stars LOW_ANGLE all_stars))
       :: DateAndPlace (fleb 0 LAT) (fleb 0 LONG)
       :: flat_map star_line (get_suitable_stars LOW_ANGLE all_stars),
     None).
Proof.
  intros Hlow. unfold print_star_list.
  pose proof (get_suitable_stars_above LOW_ANGLE all_stars) as Habove.
  rewrite print_stars_without_low.
  - rewrite filter_all; [reflexivity |].
    eapply Forall_impl; [| exact Habove]. intros t Ht. cbn beta in *.
    apply fleb_R_spec in Ht.
    destruct (fleb (Alt t) 0) eqn:E; [| reflexivity].
    apply fleb_R_spec in E. lra.
  - eapply Forall_impl; [| exact Habove]. intros t Ht. cbn beta in *.
    right. apply fleb_R_spec. exact Ht.
Qed.

Lemma print_star_list_of_suitable_stars_at_20 :
  0 < 20 /\
  print_star_list 50 8 20
                  (get_suitable_stars 20 [north_horizon; zenith])
                  "suitable stars"
  = (ListHeading "suitable stars"
       (List.length (get_suitable_stars 20 [north_horizon; zenith]))
       :: DateAndPlace (fleb 0 50) (fleb 0 8)
       :: flat_map star_line (get_suitable_stars 20 [north_horizon; zenith]),
     None).
Proof.
  assert (H : 0 < 20) by lra.
  split; [exact H |].
  exact (@print_star_list_of_suitable_stars
           50 8 20 [north_horizon; zenith] "suitable stars" H).
Defined.

End PrintedList.

(** * Properties of the prompts *)

Section PromptFacts.

Context {F : Type} {PF : PyFloat F}.
Variables (py_float : string -> option F) (py_int : string -> option Z)
          (lower : string -> string).

Lemma pass_bind_inv (A B : Type) (c : pass A) (k : A -> pass B)
    (lines rest : list string) (b : B) :
  pass_bind c k lines = (Some b, rest) ->
  exists (a : A) (mid : list string),
    c lines = (Some a, mid) /\ k a mid = (Some b, rest).
Proof.
  unfold pass_bind. destruct (c lines) as [[a |] mid]; intros H.
  - exists a, mid. split; [reflexivity | exact H].
  - discriminate H.
Qed.

Lemma input_inv (lines mid : list string) (a : string) :
  input lines = (Some a, mid) -> lines = a :: mid.
Proof.
  unfold input. destruct lines; intros H; [discriminate |].
  injection H as <- <-. reflexivity.
Qed.

Lemma caught_inv (A : Type) (o : option A) (lines mid : list string) (a : A) :
  caught o lines = (Some a, mid) -> o = Some a /\ mid = lines.
Proof. unfold caught. intros H. injection H as -> ->. split; reflexivity. Qed.

Lemma require_inv (ok : bool) (lines mid : list string) (u : unit) :
  require ok lines = (Some u, mid) -> ok = true /\ mid = lines.
Proof.
  unfold require. destruct ok; intros H; [| discriminate].
  injection H as _ ->. split; reflexivity.
Qed.

Lemma done_inv (A : Type) (a b : A) (lines rest : list string) :
  done a lines = (Some b, rest) -> a = b /\ rest = lines.
Proof. unfold done. intros H. injection H as -> ->. split; reflexivity. Qed.

Ltac pass_inv H :=
  repeat
    (cbn beta in H;
     match type of H with
     | pass_bind input _ _ = (Some _, _) =>
         let P := fresh "P" in
         apply pass_bind_inv in H; destruct H as (? & ? & P & H);
         apply input_inv in P; subst
     | pass_bind (caught _) _ _ = (Some _, _) =>
         let P := fresh "P" in
         apply pass_bind_inv in H; destruct H as (? & ? & P & H);
         apply caught_inv in P; destruct P as [P ?]; subst
     | pass_bind (require _) _ _ = (Some _, _) =>
         let P := fresh "P" in
         apply pass_bind_inv in H; destruct H as (? & ? & P & H);
         apply require_inv in P; destruct P as [P ?]; subst
     | pass_bind (if ?b then _ else _) _ _ = (Some _, _) =>
         let P := fresh "P" in
         apply pass_bind_inv in H; destruct H as (? & ? & P & H)
     | context [let (_, _) := ?p in _] => is_var p; destruct p
     end).

(** A pass that breaks out of the loop has read six lines and checked the
    date, the time zone and the time. *)
Lemma ask_time_and_place_success (lines rest : list string)
    (tp : TimePlace) :
  ask_time_and_place py_float py_int lower lines = (Some tp, rest) ->
  (exists l1 l2 l3 l4 l5 l6 : string,
     lines = l1 :: l2 :: l3 :: l4 :: l5 :: l6 :: rest) /\
  (2023 <= Year tp <= 2073)%Z /\ (1 <= Month tp <= 12)%Z /\
  (1 <= Day tp <= 31)%Z /\ (-24 <= Hours tp <= 23)%Z /\
  (0 <= Minutes tp <= 59)%Z /\ (0 <= Seconds tp <= 59)%Z /\
  position_rejected (Latitude tp) (Longitude tp) = false.
Proof.
  intros H. unfold ask_time_and_place in H.
  pass_inv H.
  apply done_inv in H. destruct H as [<- ->].
  cbn [Year Month Day Hours Minutes Seconds Latitude Longitude].
  assert (U : (x11 = - (x6 + 1) \/ x11 = - x6)%Z /\ x14 = x16 :: x17).
  { destruct (member (lower x13) _);
      [apply done_inv in P9; destruct P9 as [<- ?]; auto |].
    destruct (member (lower x13) _);
      [apply done_inv in P9; destruct P9 as [<- ?]; auto |].
    discriminate P9. }
  destruct U as [U ->].
  apply negb_true_iff in P1.
  repeat match goal with
         | E : (_ && _)%bool = true |- _ =>
             apply andb_true_iff in E; destruct E
         | E : (_ <=? _)%Z = true |- _ => apply Z.leb_le in E
         end.
  split; [do 6 eexists; reflexivity |].
  repeat split; try lia; try assumption.
Qed.


(** A pass never gives lines back. *)
Definition shrinking {A : Type} (c : pass A) : Prop :=
  forall (lines rest : list string) (o : option A),
    c lines = (o, rest) -> (List.length rest <= List.length lines)%nat.

Lemma shrinking_bind (A B : Type) (c : pass A) (k : A -> pass B) :
  shrinking c -> (forall a, shrinking (k a)) -> shrinking (pass_bind c k).
Proof.
  intros Hc Hk lines rest o. unfold pass_bind.
  destruct (c lines) as [[a |] mid] eqn:E; intros H.
  - apply Hc in E. apply Hk in H. lia.
  - injection H as _ <-. apply Hc in E. exact E.
Qed.

Lemma shrinking_input : shrinking input.
Proof.
  intros lines rest o. unfold input.
  destruct lines; intros H; injection H as _ <-; cbn; lia.
Qed.

Lemma shrinking_caught (A : Type) (o : option A) : shrinking (caught o).
Proof. intros lines rest o' H. injection H as _ <-. lia. Qed.

Lemma shrinking_require (ok : bool) : shrinking (require ok).
Proof. intros lines rest o' H. injection H as _ <-. lia. Qed.

Lemma shrinking_done (A : Type) (a : A) : shrinking (done a).
Proof. intros lines rest o' H. injection H as _ <-. lia. Qed.

Ltac shrinking_tac :=
  repeat first
    [ apply shrinking_input | apply shrinking_caught
    | apply shrinking_require | apply shrinking_done
    | apply shrinking_bind; [| intros ?]
    | match goal with
      | |- shrinking (let (_, _) := ?p in _) => destruct p
      | |- shrinking (if ?b then _ else _) => destruct b
      end ].

Lemma shrinking_ask_time_and_place :
  shrinking (ask_time_and_place py_float py_int lower).
Proof. unfold ask_time_and_place. shrinking_tac. Qed.

(** A pass over at least one line takes at least one line. *)
Lemma ask_time_and_place_consumes (line : string) (lines rest : list string)
    (o : option TimePlace) :
  ask_time_and_place py_float py_int lower (line :: lines) = (o, rest) ->
  (List.length rest <= List.length lines)%nat.
Proof.
  unfold ask_time_and_place.
  change (pass_bind input ?k (line :: lines)) with (k line lines).
  cbn beta. intros H.
  match type of H with
  | ?c lines = _ =>
      assert (S : shrinking c) by shrinking_tac; exact (S _ _ _ H)
  end.
Qed.

Lemma ask_until_valid_fuel (n : nat) :
  forall (m : nat) (lines : list string),
    (List.length lines <= n)%nat -> (List.length lines <= m)%nat ->
    ask_until_valid py_float py_int lower n lines
    = ask_until_valid py_float py_int lower m lines.
Proof.
  induction n as [| n IH]; intros m lines Hn Hm.
  - destruct lines; [destruct m; reflexivity | cbn in Hn; lia].
  - destruct lines as [| line lines]; [destruct m; reflexivity |].
    destruct m as [| m]; [cbn in Hm; lia |].
    cbn [ask_until_valid].
    destruct (ask_time_and_place py_float py_int lower (line :: lines))
      as [[tp |] rest] eqn:E; [reflexivity |].
    apply ask_time_and_place_consumes in E. cbn in Hn, Hm.
    apply IH; lia.
Qed.

Lemma ask_until_valid_returns (fuel : nat) :
  forall (lines : list string) (tp : TimePlace),
    ask_until_valid py_float py_int lower fuel lines = Returned tp ->
    (2023 <= Year tp <= 2073)%Z /\ (1 <= Month tp <= 12)%Z /\
    (1 <= Day tp <= 31)%Z /\ (-24 <= Hours tp <= 23)%Z /\
    (0 <= Minutes tp <= 59)%Z /\ (0 <= Seconds tp <= 59)%Z /\
    position_rejected (Latitude tp) (Longitude tp) = false.
Proof.
  induction fuel as [| fuel IH]; intros lines tp H.
  - destruct lines; discriminate H.
  - destruct lines as [| line lines]; [discriminate H |].
    cbn [ask_until_valid] in H.
    destruct (ask_time_and_place py_float py_int lower (line :: lines))
      as [[tp' |] rest] eqn:E.
    + injection H as <-. apply ask_time_and_place_success in E. apply E.
    + apply (IH _ _ H).
Qed.

Lemma ask_until_valid_short (fuel : nat) :
  forall lines : list string,
    (List.length lines < 6)%nat ->
    ask_until_valid py_float py_int lower fuel lines = LoopsForever.
Proof.
  induction fuel as [| fuel IH]; intros lines Hlen.
  - destruct lines; reflexivity.
  - destruct lines as [| line lines]; [reflexivity |].
    cbn [ask_until_valid].
    destruct (ask_time_and_place py_float py_int lower (line :: lines))
      as [[tp |] rest] eqn:E.
    + apply ask_time_and_place_success in E.
      destruct E as [(l1 & l2 & l3 & l4 & l5 & l6 & E) _].
      rewrite E in Hlen. cbn in Hlen. lia.
    + apply ask_time_and_place_consumes in E. apply IH. cbn in Hlen. lia.
Qed.

(** Six lines that answer every prompt acceptably end the loop. *)
Lemma ask_time_and_place_accepts
    (l1 l2 l3 l4 l5 l6 ys ms ds hs mis ss : string) (rest : list string)
    (latitude longitude : F) (yi mi di time_zone ut_cor h m s : Z) :
  py_float l1 = Some latitude -> py_float l2 = Some longitude ->
  position_rejected latitude longitude = false ->
  unpack3 (split "-" l3) = Some (ys, ms, ds) ->
  py_int ys = Some yi -> py_int ms = Some mi -> py_int ds = Some di ->
  (((2023 <=? yi) && (yi <=? 2073)) && ((1 <=? mi) && (mi <=? 12))
   && ((1 <=? di) && (di <=? 31)))%Z = true ->
  py_int l4 = Some time_zone ->
  ((0 <=? time_zone) && (time_zone <=? 23))%Z = true ->
  (if member (lower l5) ["y"; "yes"]%string then Some (- (time_zone + 1))%Z
   else if member (lower l5) ["n"; "no"]%string then Some (- time_zone)%Z
        else None) = Some ut_cor ->
  unpack3 (split ":" l6) = Some (hs, mis, ss) ->
  py_int hs = Some h -> py_int mis = Some m -> py_int ss = Some s ->
  (((0 <=? h) && (h <=? 23)) && ((0 <=? m) && (m <=? 59))
   && ((0 <=? s) && (s <=? 59)))%Z = true ->
  ask_time_and_place py_float py_int lower
    (l1 :: l2 :: l3 :: l4 :: l5 :: l6 :: rest)
  = (Some {| Year := yi; Month := mi; Day := di; Hours := (h + ut_cor)%Z;
             Minutes := m; Seconds := s;
             Latitude := latitude; Longitude := longitude |}, rest).
Proof.
  intros H1 H2 H3 H4 H5 H6 H7 H8 H9 H10 H11 H12 H13 H14 H15 H16.
  unfold ask_time_and_place, pass_bind, input, caught, require, done.
  rewrite H1, H2, H3. cbn [negb]. rewrite H4, H5, H6, H7, H8, H9, H10.
  destruct (member (lower l5) ["y"; "yes"]%string).
  - injection H11 as <-. rewrite H12, H13, H14, H15, H16. reflexivity.
  - destruct (member (lower l5) ["n"; "no"]%string); [| discriminate H11].
    injection H11 as <-. rewrite H12, H13, H14, H15, H16. reflexivity.
Qed.

(** X20: The three ways [set_time_and_place] can end: an answer that is "n" or
    "no" in lower case returns the default, whatever follows; with
    nothing typed the first prompt raises EOFError; after any other answer
    fewer than six more lines cannot end the loop, which never returns. *)
Theorem set_time_and_place_endings (DEFAULT : TimePlace)
    (change : string) (rest : list string) :
  (member (lower change) ["n"; "no"]%string = true ->
   set_time_and_place py_float py_int lower DEFAULT (change :: rest)
   = Returned DEFAULT) /\
  set_time_and_place py_float py_int lower DEFAULT [] = EndOfInput /\
  (member (lower change) ["n"; "no"]%string = false ->
   (List.length rest < 6)%nat ->
   set_time_and_place py_float py_int lower DEFAULT (change :: rest)
   = LoopsForever).
Proof.
  split; [| split].
  - intros H. cbn [set_time_and_place]. rewrite H. reflexivity.
  - reflexivity.
  - intros H Hlen. cbn [set_time_and_place]. rewrite H.
    apply ask_until_valid_short, Hlen.
Qed.

(** [print_menu] returns the first line typed that is a number between 1
    and the number of entries; lines before it that are no such number are
    passed over. *)
Lemma ask_choice_first_valid (entries : nat) (skipped : list string)
    (line : string) (rest : list string) (choice : Z) :
  Forall (fun l => match py_int l with
                   | Some c => (c < 1 \/ Z.of_nat entries < c)%Z
                   | None => True
                   end) skipped ->
  py_int line = Some choice -> (1 <= choice <= Z.of_nat entries)%Z ->
  ask_choice py_int entries (skipped ++ line :: rest) = Returned choice.
Proof.
  intros Hs Hl Hc. induction Hs as [| l ls Hl0 Hls IH].
  - cbn [app ask_choice]. rewrite Hl.
    assert (E : ((1 <=? choice) && (choice <=? Z.of_nat entries))%Z = true)
      by (apply andb_true_iff; split; apply Z.leb_le; lia).
    rewrite E. reflexivity.
  - cbn [app ask_choice]. destruct (py_int l) as [c |]; [| exact IH].
    assert (E : ((1 <=? c) && (c <=? Z.of_nat entries))%Z = false).
    { apply andb_false_iff. destruct Hl0; [left | right];
        apply Z.leb_gt; lia. }
    rewrite E. exact IH.
Qed.

Lemma ask_choice_in_range (entries : nat) (lines : list string) :
  match ask_choice py_int entries lines with
  | Returned choice => (1 <= choice <= Z.of_nat entries)%Z
  | EndOfInput => False
  | LoopsForever => True
  end.
Proof.
  induction lines as [| line lines IH]; cbn [ask_choice]; [exact I |].
  destruct (py_int line) as [c |]; [| exact IH].
  destruct ((1 <=? c) && (c <=? Z.of_nat entries))%Z eqn:E; [| exact IH].
  apply andb_true_iff in E. destruct E as [E1 E2].
  apply Z.leb_le in E1, E2. lia.
Qed.

End PromptFacts.

Section PromptsOverReals.

Local Open Scope R_scope.

Lemma in_range_R (lo hi : Z) (x : R) :
  (fleb (of_int lo) x && fleb x (of_int hi))%bool = true
  <-> IZR lo <= x <= IZR hi.
Proof.
  rewrite andb_true_iff, !fleb_R_spec. reflexivity.
Qed.

Lemma position_rejected_R (latitude longitude : R) :
  position_rejected latitude longitude = false <->
  (-90 <= latitude <= 90 \/ ~ (-180 <= longitude <= 180)).
Proof.
  unfold position_rejected, latitude_in_range, longitude_in_range.
  pose proof (in_range_R (-90) 90 latitude) as La.
  pose proof (in_range_R (-180) 180 longitude) as Lo.
  destruct (fleb (of_int (-90)) latitude && fleb latitude (of_int 90))%bool;
    destruct (fleb (of_int (-180)) longitude
              && fleb longitude (of_int 180))%bool;
    cbn [negb andb]; split; intros H; try reflexivity; try discriminate.
  - left. apply La. reflexivity.
  - left. apply La. reflexivity.
  - destruct H as [H | H].
    + apply La in H. discriminate.
    + exfalso. apply H, Lo. reflexivity.
  - right. intros C. apply Lo in C. discriminate.
Qed.

(** X21: What [set_time_and_place] guarantees when it returns: the default as it
    is, or a year from 2023 to 2073, a month from 1 to 12, a day from 1 to
    31 whatever the month, minutes and seconds from 0 to 59, an hour from
    -24 to 23 (the time zone is subtracted and the day is left alone), and
    a place that has a latitude in range or a longitude out of range. *)
Theorem set_time_and_place_validates
    (py_float : string -> option R) (py_int : string -> option Z)
    (lower : string -> string)
    (DEFAULT : TimePlace) (lines : list string) (tp : TimePlace) :
  set_time_and_place py_float py_int lower DEFAULT lines = Returned tp ->
  tp = DEFAULT \/
  ((2023 <= Year tp <= 2073)%Z /\ (1 <= Month tp <= 12)%Z /\
   (1 <= Day tp <= 31)%Z /\ (-24 <= Hours tp <= 23)%Z /\
   (0 <= Minutes tp <= 59)%Z /\ (0 <= Seconds tp <= 59)%Z /\
   position_let_through tp).
Proof.
  intros H. destruct lines as [| change rest]; [discriminate H |].
  cbn [set_time_and_place] in H.
  destruct (member (lower change) ["n"; "no"]%string).
  - left. injection H as <-. reflexivity.
  - right. apply ask_until_valid_returns in H.
    destruct H as (Hy & Hm & Hd & Hh & Hmi & Hs & Hp).
    repeat (split; [assumption |]).
    apply position_rejected_R. exact Hp.
Qed.

Lemma position_rejected_95_200 : position_rejected 95 200 = false.
Proof. apply position_rejected_R. right. lra. Qed.

Lemma session_accepted (DEFAULT : TimePlace) :
  set_time_and_place float_of_numeral int_of_numeral (fun s => s)
                     DEFAULT session
  = Returned session_result.
Proof.
  unfold session. cbn [set_time_and_place List.length].
  replace (member "y" ["n"; "no"]%string) with false by reflexivity.
  cbn [ask_until_valid].
  erewrite (@ask_time_and_place_accepts R RealFloat
              float_of_numeral int_of_numeral (fun s => s)
              "95" "200" "2024-02-31" "1" "n" "00:30:00"
              "2024" "02" "31" "00" "30" "00" []
              95 200 2024 2 31 1 (-1) 0 30 0);
    try reflexivity.
  exact position_rejected_95_200.
Qed.

Lemma set_time_and_place_validates_session :
  set_time_and_place float_of_numeral int_of_numeral (fun s => s)
                     bad_camberg session
  = Returned session_result /\
  (session_result = bad_camberg \/
   ((2023 <= Year session_result <= 2073)%Z /\
    (1 <= Month session_result <= 12)%Z /\
    (1 <= Day session_result <= 31)%Z /\
    (-24 <= Hours session_result <= 23)%Z /\
    (0 <= Minutes session_result <= 59)%Z /\
    (0 <= Seconds session_result <= 59)%Z /\
    position_let_through session_result)).
Proof.
  split.
  - apply session_accepted.
  - apply (@set_time_and_place_validates
             float_of_numeral int_of_numeral (fun s => s)
             bad_camberg session session_result).
    apply session_accepted.
Defined.

Lemma set_time_and_place_endings_session :
  (member "no" ["n"; "no"]%string = true ->
   set_time_and_place float_of_numeral int_of_numeral (fun s => s)
                      bad_camberg ("no" :: session)%string
   = Returned bad_camberg) /\
  set_time_and_place float_of_numeral int_of_numeral (fun s => s)
                     bad_camberg [] = EndOfInput /\
  (member "y" ["n"; "no"]%string = false ->
   (List.length ["95"; "200"]%string < 6)%nat ->
   set_time_and_place float_of_numeral int_of_numeral (fun s => s)
                      bad_camberg ("y" :: ["95"; "200"])%string
   = LoopsForever).
Proof.
  split; [| split].
  - apply (proj1 (@set_time_and_place_endings R RealFloat
                    float_of_numeral int_of_numeral (fun s => s)
                    bad_camberg "no" session)).
  - reflexivity.
  - apply (proj2 (proj2 (@set_time_and_place_endings R RealFloat
                           float_of_numeral int_of_numeral (fun s => s)
                           bad_camberg "y" ["95"; "200"]%string))).
Defined.

End PromptsOverReals.

Section Menu.

Lemma menu_entries_known (menu : string) (entries : list string) :
  menu_entries MENUS menu = Ok entries -> List.length entries = 5%nat.
Proof.
  unfold MENUS. cbn [menu_entries].
  destruct (String.eqb "MAIN" menu);
    [intros H; injection H as <-; reflexivity |].
  destruct (String.eqb "STAR ALIGNMENT" menu);
    [intros H; injection H as <-; reflexivity |].
  discriminate.
Qed.

(** X22: [print_menu] raises KeyError for a menu that is not in [MENUS]. For
    the main menu it returns the first line typed that is a number from 1
    to 5, whatever was typed before; and whatever it returns, for either
    menu, is a number from 1 to 5. *)
Theorem print_menu_choice (py_int : string -> option Z) (menu : string)
    (lines : list string) :
  (menu <> "MAIN"%string -> menu <> "STAR ALIGNMENT"%string ->
   print_menu py_int menu lines = Raise KeyError) /\
  (forall choice : Z,
     print_menu py_int menu lines = Ok (Returned choice) ->
     (1 <= choice <= 5)%Z) /\
  (forall (skipped rest : list string) (line : string) (choice : Z),
     lines = skipped ++ line :: rest ->
     Forall (fun l => match py_int l with
                      | Some c => (c < 1 \/ 5 < c)%Z
                      | None => True
                      end) skipped ->
     py_int line = Some choice -> (1 <= choice <= 5)%Z ->
     print_menu py_int "MAIN" lines = Ok (Returned choice)).
Proof.
  split; [| split].
  - intros H1 H2. unfold print_menu, MENUS. cbn [menu_entries].
    apply not_eq_sym, String.eqb_neq in H1.
    apply not_eq_sym, String.eqb_neq in H2.
    rewrite H1, H2. reflexivity.
  - intros choice H. unfold print_menu in H.
    destruct (menu_entries MENUS menu) as [entries | e] eqn:E;
      [| discriminate H].
    cbn [bind] in H. injection H as H.
    rewrite (menu_entries_known _ E) in H.
    pose proof (ask_choice_in_range py_int 5 lines) as R.
    rewrite H in R. exact R.
  - intros skipped rest line choice -> Hs Hl Hc.
    unfold print_menu, MENUS. cbn [menu_entries String.eqb Ascii.eqb
                                   Bool.eqb bind List.length].
    f_equal. apply ask_choice_first_valid; assumption.
Qed.

Lemma print_menu_choice_main :
  print_menu int_of_numeral "MAIN" ["x"; "7"; "3"; "1"]%string
  = Ok (Returned 3%Z).
Proof.
  apply (proj2 (proj2 (print_menu_choice int_of_numeral "MAIN"
                         ["x"; "7"; "3"; "1"]%string))
           ["x"; "7"]%string ["1"]%string "3"%string 3%Z).
  - reflexivity.
  - constructor; [exact I |].
    constructor; [change (7 < 1 \/ 5 < 7)%Z; lia | constructor].
  - reflexivity.
  - lia.
Defined.

End Menu.

(** * Properties of the catalogue readers *)

Section Fields.

Lemma split_nonempty (sep : ascii) (s : string) : split sep s <> [].
Proof.
  destruct s as [| c r]; cbn [split]; [discriminate |].
  destruct (Ascii.eqb c sep); [discriminate |].
  destruct (split sep r); discriminate.
Qed.

Lemma split_cons_other (sep c : ascii) (r : string) :
  Ascii.eqb c sep = false ->
  exists (w : string) (ws : list string),
    split sep r = w :: ws /\ split sep (String c r) = String c w :: ws.
Proof.
  intros H. cbn [split]. rewrite H.
  destruct (split sep r) as [| w ws] eqn:E.
  - exfalso. exact (split_nonempty sep r E).
  - exists w, ws. split; reflexivity.
Qed.

Lemma substring_0_0 (s : string) : String.substring 0 0 s = EmptyString.
Proof. destruct s; reflexivity. Qed.

Lemma drop_last_cons (n : nat) (a : ascii) (w : string) :
  (n <= String.length w)%nat ->
  drop_last n (String a w) = String a (drop_last n w).
Proof.
  intros H. unfold drop_last. cbn [String.length].
  replace (S (String.length w) - n)%nat with (S (String.length w - n))
    by lia.
  reflexivity.
Qed.

Lemma drop_last_nonempty (n : nat) (w : string) (c : ascii) (rest : string) :
  drop_last n w = String c rest ->
  (n < String.length w)%nat /\ exists w', w = String c w'.
Proof.
  unfold drop_last. intros H.
  destruct (String.length w - n)%nat as [| k] eqn:E.
  - rewrite substring_0_0 in H. discriminate.
  - split; [lia |]. destruct w as [| a w']; [discriminate |].
    cbn [String.substring] in H. injection H as -> _.
    exists w'. reflexivity.
Qed.

End Fields.

Section Declination.

Local Open Scope R_scope.

Variable py_float : string -> option R.

Lemma getitem_0 (A : Type) (x : A) (l : list A) : getitem (x :: l) 0 = Ok x.
Proof. reflexivity. Qed.

Lemma getitem_S (A : Type) (x : A) (l : list A) (i : nat) :
  getitem (x :: l) (S i) = getitem l i.
Proof. reflexivity. Qed.

(** X23: A minus sign in front of a declination negates the whole of it,
    minutes and seconds included: if the text without the sign reads as
    [x], the text with the sign reads as [- x]. *)
Theorem DECStr2DEC_minus_sign (c : ascii) (r : string) (x : R) :
  c <> "-"%char ->
  DECStr2DEC py_float (String c r) = Ok x ->
  DECStr2DEC py_float (String "-" (String c r)) = Ok (- x).
Proof.
  intros Hc H. unfold DECStr2DEC in *.
  destruct (@split_cons_other ":" "-" (String c r) eq_refl)
    as (w & ws & Ew & Ew').
  rewrite Ew'. rewrite Ew in H. rewrite getitem_0, getitem_S in *.
  cbn [bind] in *.
  destruct (getitem ws 0) as [f1 | e1]; [| discriminate H].
  rewrite getitem_S in *. cbn [bind] in *.
  destruct (getitem ws 1) as [f2 | e2]; [| discriminate H].
  cbn [bind] in *.
  destruct (drop_last 3 w) as [| c' rest] eqn:Ed; [discriminate H |].
  destruct (drop_last_nonempty _ _ Ed) as [Hlen (w' & ->)].
  assert (Ecw : c' = c).
  { cbn [split] in Ew. destruct (Ascii.eqb c ":") eqn:E1.
    - injection Ew as Ew _. discriminate Ew.
    - destruct (split ":" r); injection Ew as -> _; reflexivity. }
  subst c'.
  rewrite drop_last_cons by lia. rewrite Ed.
  replace (Ascii.eqb "-" "-") with true by reflexivity.
  apply Ascii.eqb_neq in Hc. rewrite Hc in H.
  destruct (to_float py_float (String c rest)) as [d |]; [| discriminate H].
  cbn [bind] in *.
  destruct (to_float py_float (drop_last 2 f1)) as [am |];
    [| discriminate H].
  cbn [bind] in *.
  destruct (to_float py_float (drop_last 2 f2)) as [asec |];
    [| discriminate H].
  cbn [bind] in *. injection H as <-.
  f_equal. cbn [fmul fadd fdiv of_int RealFloat]. ring.
Qed.

End Declination.

Section DeclinationCases.

Local Open Scope R_scope.

Lemma DECStr2DEC_minus_sign_16_42_58 :
  "1"%char <> "-"%char /\
  DECStr2DEC float_of_numeral "16deg:42mn:58sc"
  = Ok (1 * (16 + 42 / 60 + 58 / 3600)) /\
  DECStr2DEC float_of_numeral "-16deg:42mn:58sc"
  = Ok (- (1 * (16 + 42 / 60 + 58 / 3600))).
Proof.
  assert (H1 : "1"%char <> "-"%char) by discriminate.
  assert (H2 : DECStr2DEC float_of_numeral "16deg:42mn:58sc"
               = Ok (1 * (16 + 42 / 60 + 58 / 3600))) by reflexivity.
  split; [exact H1 |]. split; [exact H2 |].
  exact (@DECStr2DEC_minus_sign float_of_numeral "1"%char
           "6deg:42mn:58sc" _ H1 H2).
Defined.

End DeclinationCases.

Section MissingFields.

Context {F : Type} {PF : PyFloat F}.
Variable py_float : string -> option F.

(** X24: A coordinate text with fewer than three fields between colons is not
    read: [DECStr2DEC] raises IndexError, and [RAStr2RA] raises as well
    (ValueError if a field before the gap is no number, IndexError
    otherwise). *)
Theorem coordinate_fields_missing (s : string) :
  (List.length (split ":" s) < 3)%nat ->
  DECStr2DEC py_float s = Raise IndexError /\
  (RAStr2RA py_float s = Raise IndexError \/
   RAStr2RA py_float s = Raise ValueError).
Proof.
  intros H. unfold DECStr2DEC, RAStr2RA.
  destruct (split ":" s) as [| a [| b [| c l]]]; cbn in H; try lia.
  - split; [reflexivity | left; reflexivity].
  - split; [reflexivity |].
    rewrite getitem_0. cbn [bind]. unfold to_float.
    destruct (py_float (drop_last 1 a)); [left | right]; reflexivity.
  - split; [reflexivity |].
    rewrite getitem_0. cbn [bind]. unfold to_float.
    destruct (py_float (drop_last 1 a)); [| right; reflexivity].
    cbn [bind]. rewrite getitem_S, getitem_0. cbn [bind].
    destruct (py_float (drop_last 1 b)); [left | right]; reflexivity.
Qed.

End MissingFields.

Section MissingFieldsCase.

Lemma coordinate_fields_missing_06h45m :
  (List.length (split ":" "06h:45m") < 3)%nat /\
  DECStr2DEC float_of_numeral "06h:45m" = Raise IndexError /\
  (RAStr2RA float_of_numeral "06h:45m" = Raise IndexError \/
   RAStr2RA float_of_numeral "06h:45m" = Raise ValueError).
Proof.
  assert (H : (List.length (split ":" "06h:45m") < 3)%nat) by (cbn; lia).
  split; [exact H |].
  exact (@coordinate_fields_missing R RealFloat float_of_numeral
           "06h:45m" H).
Defined.

End MissingFieldsCase.

(** * Properties of the catalogue load *)

Section LoadedStars.

Local Open Scope R_scope.

Variables (py_float : string -> option R) (py_int : string -> option Z).

Lemma RA_DEC_to_ALT_AZ_returned (raD decD haD latD alt az : R) :
  RA_DEC_to_ALT_AZ raD decD haD latD = Ok (alt, az) ->
  -90 <= alt <= 90 /\ 0 <= az <= 360.
Proof.
  rewrite RA_DEC_to_ALT_AZ_R.
  destruct (Req_dec_T (azimuth_divisor decD haD latD) 0) as [Z | NZ].
  - rewrite (truediv_R_zero _ Z). discriminate.
  - rewrite (truediv_R_nonzero _ NZ). cbn [bind]. unfold math_acos.
    rewrite (out_of_domain_R_false (cos_a_bound NZ)). cbn [bind].
    match goal with
    | |- Ok (?a, ?b) = _ -> _ =>
        assert (Ba : -90 <= a <= 90); [| assert (Bb : 0 <= b <= 360)]
    end.
    + pose proof (asin_bound (sin_alt decD haD latD)) as [B1 B2].
      apply rad2deg_monotone in B1. apply rad2deg_monotone in B2.
      rewrite rad2deg_opp_PI2 in B1. rewrite rad2deg_PI2 in B2. lra.
    + match goal with |- context [rad2deg (facos ?x)] =>
        pose proof (acos_bound x) as [B1 B2] end.
      apply rad2deg_monotone in B1. apply rad2deg_monotone in B2.
      rewrite rad2deg_0 in B1. rewrite rad2deg_PI in B2.
      cbn [facos RealFloat] in *.
      destruct (fltb _ _); lra.
    + intros H.
      assert (E1 : fst (alt, az) = alt) by reflexivity.
      assert (E2 : snd (alt, az) = az) by reflexivity.
      assert (E : forall p q : R * R, Ok p = Ok q -> p = q)
        by (intros p q Hpq; injection Hpq as ->; reflexivity).
      apply E in H. rewrite <- H in E1, E2. cbn [fst snd] in E1, E2.
      rewrite <- E1, <- E2. split; assumption.
Qed.

Lemma load_row_returned (LAT lst : R) (line : list string)
    (current : option (Star R)) :
  load_row py_float py_int LAT lst line = Ok current ->
  match current with
  | None => is_heading line = true
  | Some star =>
      is_heading line = false /\
      Name star = nth 1 line EmptyString /\
      -90 <= Alt star <= 90 /\ 0 <= Az star <= 360
  end.
Proof.
  unfold load_row. destruct line as [| f0 fields]; [discriminate |].
  rewrite getitem_0. cbn [bind is_heading].
  destruct (String.eqb f0 "Rank"); [intros H; injection H as <-; reflexivity |].
  destruct (to_int py_int f0) as [rank |]; [| discriminate]. cbn [bind].
  destruct fields as [| name fields]; [discriminate |].
  rewrite getitem_S, getitem_0. cbn [bind].
  destruct (getitem (f0 :: name :: fields) 2) as [beyer |]; [| discriminate].
  cbn [bind].
  destruct (getitem (f0 :: name :: fields) 3) as [f3 |]; [| discriminate].
  cbn [bind].
  destruct (to_float py_float f3) as [mag |]; [| discriminate]. cbn [bind].
  destruct (getitem (f0 :: name :: fields) 4) as [f4 |]; [| discriminate].
  cbn [bind].
  destruct (RAStr2RA py_float f4) as [ra |]; [| discriminate]. cbn [bind].
  destruct (getitem (f0 :: name :: fields) 5) as [f5 |]; [| discriminate].
  cbn [bind].
  destruct (DECStr2DEC py_float f5) as [dec |]; [| discriminate]. cbn [bind].
  destruct (RA_DEC_to_ALT_AZ ra dec (hour_angle ra lst) LAT)
    as [[alt az] |] eqn:E; [| discriminate].
  cbn [bind]. intros H. injection H as <-.
  cbn [Name Alt Az nth]. split; [reflexivity |]. split; [reflexivity |].
  apply (@RA_DEC_to_ALT_AZ_returned _ _ _ _ _ _ E).
Qed.

Lemma load_rows_returned (LAT lst : R) (rows : list (list string)) :
  forall all_stars stars : list (Star R),
    load_rows py_float py_int LAT lst rows all_stars = Ok stars ->
    exists new : list (Star R),
      stars = all_stars ++ new /\
      map (fun s : Star R => Name s) new
      = map (fun line => nth 1 line EmptyString)
            (filter (fun line => negb (is_heading line)) rows) /\
      Forall (fun s : Star R => -90 <= Alt s <= 90 /\ 0 <= Az s <= 360) new.
Proof.
  induction rows as [| line rest IH]; intros all_stars stars H.
  - cbn [load_rows] in H. injection H as <-. exists [].
    rewrite app_nil_r. repeat split; constructor.
  - cbn [load_rows] in H.
    destruct (load_row py_float py_int LAT lst line) as [current |] eqn:E;
      [| discriminate H].
    cbn [bind] in H. apply load_row_returned in E.
    destruct current as [star |].
    + destruct E as (Eh & En & Ealt & Eaz).
      apply IH in H. destruct H as (new & -> & Hn & Hf).
      exists (star :: new). rewrite <- app_assoc. split; [reflexivity |].
      cbn [filter map]. rewrite Eh. cbn [negb map].
      split; [rewrite En, Hn; reflexivity |].
      constructor; [split; assumption | exact Hf].
    + apply IH in H. destruct H as (new & -> & Hn & Hf).
      exists new. split; [reflexivity |].
      cbn [filter]. rewrite E. cbn [negb]. split; assumption.
Qed.

End LoadedStars.

Section LoadedCatalogue.

Local Open Scope R_scope.

(** X25: When [load_bright_stars] returns, it returns one star for each line
    that is no heading, in the order of the file and under the name in
    the second field, each with an altitude in [-90, 90] and an azimuth
    in [0, 360]. *)
Theorem load_bright_stars_positions
    (py_float : string -> option R) (py_int : string -> option Z)
    (YEAR MONTH DAY HOURS MINUTES SECONDS UT_COR : Z) (LAT LONG : R)
    (rows : list (list string)) (stars : list (Star R)) :
  load_bright_stars py_float py_int YEAR MONTH DAY HOURS MINUTES SECONDS
                    UT_COR LAT LONG rows = Ok stars ->
  map (fun s : Star R => Name s) stars
  = map (fun line => nth 1 line EmptyString)
        (filter (fun line => negb (is_heading line)) rows) /\
  Forall (fun s : Star R => -90 <= Alt s <= 90 /\ 0 <= Az s <= 360) stars.
Proof.
  unfold load_bright_stars. intros H.
  destruct (days_from_J2000 YEAR MONTH DAY (HOURS + UT_COR) MINUTES SECONDS)
    as [days |]; [| discriminate H].
  cbn [bind] in H. apply load_rows_returned in H.
  destruct H as (new & -> & Hn & Hf). cbn [app]. split; assumption.
Qed.

End LoadedCatalogue.

Section LoadedCatalogueCase.

Local Open Scope R_scope.

Lemma floor_mod_of_turns (k : Z) : floor_mod (IZR k * 360) 360 = 0.
Proof.
  unfold floor_mod.
  replace (IZR k * 360 / 360) with (IZR k) by (field; lra).
  rewrite Int_part_IZR. ring.
Qed.

Lemma local_siderial_time_example :
  local_siderial_time 0 (decimal 7954 2) (HMS_to_decimal_time 12 0 0) = 0.
Proof.
  rewrite local_siderial_time_R, HMS_to_decimal_time_R, decimal_R.
  change (10 ^ Z.of_nat 2)%Z with 100%Z.
  replace (10046 / 100 + 985647 / 1000000 * 0 + 7954 / 100
           + 15 * (12 + 0 / 60 + 0 / 3600))
    with (IZR 1 * 360) by lra.
  apply floor_mod_of_turns.
Qed.

Lemma hour_angle_0_0 : hour_angle 0 0 = 0.
Proof.
  rewrite hour_angle_R. replace (0 - 0) with (IZR 0 * 360) by lra.
  apply floor_mod_of_turns.
Qed.

Lemma RAStr2RA_example : RAStr2RA float_of_numeral "00h:00m:00s" = Ok 0.
Proof.
  transitivity (@Ok R ((0 + 0 / 60 + 0 / 3600) * 15)); [reflexivity |].
  f_equal. lra.
Qed.

Lemma DECStr2DEC_example :
  DECStr2DEC float_of_numeral "45deg:00mn:00sc" = Ok 45.
Proof.
  transitivity (@Ok R (1 * (45 + 0 / 60 + 0 / 3600))); [reflexivity |].
  f_equal. lra.
Qed.

Lemma load_row_example :
  load_row float_of_numeral int_of_numeral 0 0
           ["1"; "Star"; "a"; "2"; "00h:00m:00s"; "45deg:00mn:00sc"]%string
  = Ok (Some {| Rank := 1; Name := "Star"; Beyer := "a"; Mag_v := 2;
                RA := 0; DEC := 45; Alt := 45; Az := 360 |}).
Proof.
  unfold load_row. cbn [getitem nth_error bind].
  replace (String.eqb "1" "Rank") with false by reflexivity.
  replace (to_int int_of_numeral "1") with (@Ok Z 1%Z) by reflexivity.
  replace (to_float float_of_numeral "2") with (@Ok R 2) by reflexivity.
  cbn [bind].
  rewrite RAStr2RA_example, DECStr2DEC_example. cbn [bind].
  rewrite hour_angle_0_0, RA_DEC_to_ALT_AZ_45_0_0. reflexivity.
Qed.

Lemma load_bright_stars_example :
  load_bright_stars float_of_numeral int_of_numeral
                    2000 1 1 13 0 0 (-1) 0 (decimal 7954 2) one_star_rows
  = Ok one_star_loaded.
Proof.
  unfold load_bright_stars. change (13 + -1)%Z with 12%Z.
  rewrite days_from_J2000_epoch_R. cbn [bind].
  rewrite local_siderial_time_example.
  unfold one_star_rows. cbn [load_rows].
  replace (load_row float_of_numeral int_of_numeral 0 0
             ["Rank"; "Name"; "Beyer"; "Mag_v"; "RA"; "DEC"]%string)
    with (@Ok (option (Star R)) None) by reflexivity.
  cbn [bind load_rows]. rewrite load_row_example. reflexivity.
Qed.

Lemma load_bright_stars_positions_example :
  load_bright_stars float_of_numeral int_of_numeral
                    2000 1 1 13 0 0 (-1) 0 (decimal 7954 2) one_star_rows
  = Ok one_star_loaded /\
  map (fun s : Star R => Name s) one_star_loaded
  = map (fun line => nth 1 line EmptyString)
        (filter (fun line => negb (is_heading line)) one_star_rows) /\
  Forall (fun s : Star R => -90 <= Alt s <= 90 /\ 0 <= Az s <= 360)
         one_star_loaded.
Proof.
  split.
  - exact load_bright_stars_example.
  - exact (@load_bright_stars_positions
             float_of_numeral int_of_numeral
             2000 1 1 13 0 0 (-1) 0 (decimal 7954 2)
             one_star_rows one_star_loaded load_bright_stars_example).
Defined.

End LoadedCatalogueCase.

Section LoadFailures.

Local Open Scope R_scope.

Variables (py_float : string -> option R) (py_int : string -> option Z).

Lemma load_rows_headings (LAT lst : R) (before rest : list (list string))
    (all_stars : list (Star R)) :
  Forall (fun line => is_heading line = true) before ->
  load_rows py_float py_int LAT lst (before ++ rest) all_stars
  = load_rows py_float py_int LAT lst rest all_stars.
Proof.
  induction 1 as [| line lines Hl Hls IH]; [reflexivity |].
  cbn [app load_rows]. unfold load_row.
  destruct line as [| f0 fields]; [discriminate Hl |].
  cbn [is_heading] in Hl. rewrite getitem_0. cbn [bind]. rewrite Hl.
  cbn [bind]. exact IH.
Qed.

(** X26: Two ways [load_bright_stars] fails before it has a catalogue: with a
    month outside 1 to 12 it raises KeyError without reading a line; and,
    the month being valid, an empty line after the heading lines raises
    IndexError, whatever follows. *)
Theorem load_bright_stars_failures
    (YEAR MONTH DAY HOURS MINUTES SECONDS UT_COR : Z) (LAT LONG : R)
    (before after : list (list string)) :
  ((MONTH < 1 \/ 12 < MONTH)%Z ->
   load_bright_stars py_float py_int YEAR MONTH DAY HOURS MINUTES SECONDS
                     UT_COR LAT LONG after = Raise KeyError) /\
  ((1 <= MONTH <= 12)%Z ->
   Forall (fun line => is_heading line = true) before ->
   load_bright_stars py_float py_int YEAR MONTH DAY HOURS MINUTES SECONDS
                     UT_COR LAT LONG (before ++ [] :: after)
   = Raise IndexError).
Proof.
  split.
  - intros H. unfold load_bright_stars, days_from_J2000.
    rewrite (days_until_month_begins_invalid YEAR H). reflexivity.
  - intros H Hb. unfold load_bright_stars, days_from_J2000.
    destruct (days_until_month_begins_valid YEAR H) as (d & -> & _).
    cbn [bind]. rewrite (load_rows_headings _ _ _ _ Hb). reflexivity.
Qed.

End LoadFailures.

Section LoadFailuresCase.

Local Open Scope R_scope.

Lemma load_bright_stars_failures_example :
  ((13 < 1 \/ 12 < 13)%Z /\
   load_bright_stars float_of_numeral int_of_numeral 2023 13 1 18 0 0 (-1)
                     50 8 one_star_rows = Raise KeyError) /\
  ((1 <= 11 <= 12)%Z /\
   Forall (fun line => is_heading line = true)
          [["Rank"; "Name"]%string] /\
   load_bright_stars float_of_numeral int_of_numeral 2023 11 12 18 0 0 (-1)
                     50 8 ([["Rank"; "Name"]%string] ++ [] :: one_star_rows)
   = Raise IndexError).
Proof.
  assert (H1 : (13 < 1 \/ 12 < 13)%Z) by lia.
  assert (H2 : (1 <= 11 <= 12)%Z) by lia.
  assert (H3 : Forall (fun line => is_heading line = true)
                      [["Rank"; "Name"]%string])
    by (constructor; [reflexivity | constructor]).
  split.
  - split; [exact H1 |].
    exact (proj1 (@load_bright_stars_failures
                    float_of_numeral int_of_numeral 2023 13 1 18 0 0 (-1)
                    50 8 [] one_star_rows) H1).
  - split; [exact H2 |]. split; [exact H3 |].
    exact (proj2 (@load_bright_stars_failures
                    float_of_numeral int_of_numeral 2023 11 12 18 0 0 (-1)
                    50 8 [["Rank"; "Name"]%string] one_star_rows) H2 H3).
Defined.

End LoadFailuresCase.
